(** * Supply allocation: the optimizer, its result table and its summaries

    A shallow embedding of [app/utils/supply_optimizer.py]
    ([optimize_supply_allocation], [get_summary_stats]) and of the table
    validation of [app/utils/data_loader.py] ([validate_case2_data], the
    closing stage of [load_case2_data]).

    Numbers.  Quantities (supply, demand, allocation, satisfaction) are
    Python floats in the source; they are rationals [Q] here, so every
    statement is about exact arithmetic.  The one place where rounding
    decides, the totals of the summary views against the totals of the
    table, is stated over binary64 ([float]) in a part of its own.
    Priorities are integers ([Z]), as the signature [Dict[str, int]]
    says.

    Labels.  Products, channels, regions and weeks are text: the loader
    stores [parts[i].strip()] in every identifying column.

    The solver.  [prob.solve(PULP_CBC_CMD(msg=False))] is a call into the
    PuLP library.  It is a parameter [solve] of the embedding, mapping the
    linear program that the source builds to a status and to the values of
    the variables.  What the theorems need of it is stated as
    [solver_sound]: a point reported with status [Optimal] satisfies the
    bounds and the constraints of the program it was given. *)

From Stdlib Require Import Floats.PrimFloat Floats.SpecFloat Floats.FloatOps.
From Stdlib Require Import Ascii String QArith Lqa.
From stdpp Require Import gmap strings list fin_maps sorting.

Local Open Scope string_scope.
Local Open Scope list_scope.

(** ** Exceptions *)

Inductive exn :=
  | KeyError (key : string)
  | TypeError (what : string).

Definition result (A : Type) : Type := exn + A.

Definition raise {A} (e : exn) : result A := inl e.
Definition ret {A} (a : A) : result A := inr a.

Global Instance result_bind : MBind result := λ A B k m,
  match m with
  | inl e => inl e
  | inr a => k a
  end.

(** A [for] loop whose body appends to one list and may raise: the first
    exception ends the loop. *)
Fixpoint for_each {A B} (l : list A) (body : A -> result (list B))
  : result (list B) :=
  match l with
  | [] => ret []
  | a :: l' =>
      bs ← body a;
      rest ← for_each l' body;
      ret (bs ++ rest)
  end.

(** [d[k]] on a dict: [KeyError] when the key is absent. *)
Definition subscript {K V} `{Countable K} (name : string)
  (d : gmap K V) (k : K) : result V :=
  match d !! k with
  | Some v => ret v
  | None => raise (KeyError name)
  end.

(** ** Rationals *)

(** [q > 0] as a test. *)
Definition Qpos (q : Q) : bool := (0 <? Qnum q)%Z.

(** [sum] of a column. *)
Definition Qsum (l : list Q) : Q := foldr Qplus 0%Q l.

(** ** Python strings *)

(** [str.lower] on the ASCII letters (bytes outside [A-Z] are kept). *)
Definition lower_ascii (a : ascii) : ascii :=
  let n := nat_of_ascii a in
  if (65 <=? n)%nat && (n <=? 90)%nat then ascii_of_nat (n + 32) else a.

Fixpoint lower (s : string) : string :=
  match s with
  | EmptyString => EmptyString
  | String a t => String (lower_ascii a) (lower t)
  end.

(** [needle in hay] for two strings. *)
Fixpoint contains (needle hay : string) : bool :=
  String.prefix needle hay ||
  match hay with
  | EmptyString => false
  | String _ t => contains needle t
  end.

(** [Series.unique().tolist()]: the distinct values, in order of first
    appearance. *)
Fixpoint unique (l : list string) : list string :=
  match l with
  | [] => []
  | a :: t => a :: filter (λ b, b ≠ a) (unique t)
  end.

(** The order of [sorted] on text. *)
Definition str_le (a b : string) : Prop := String.leb a b = true.

Global Instance str_le_dec a b : Decision (str_le a b).
Proof. unfold str_le. apply _. Defined.

(** [sorted(list(set(l)))]. *)
Definition sorted_set (l : list string) : list string :=
  merge_sort str_le (remove_dups l).

(** ** The input tables *)

(** A cell of a week column of the detailed demand table: the loader
    stores an [int] where the text is all digits and the stripped text
    otherwise; a cell that a record lacks is NaN. *)
Inductive value :=
  | VNum (q : Q)
  | VStr (s : string)
  | VNaN.

(** Table 1: rows [{'week', 'total_supply'}], the supply a number (the
    loader keeps the raw text of a figure that [int] rejects; a table
    with such a figure is outside this embedding). *)
Record SupplyRow := {
  s_week : string;
  s_total_supply : Q
}.

(** Table 2: rows [{'week', 'product', 'actual_build'}]. *)
Record BuildRow := {
  b_week : string;
  b_product : string;
  b_actual_build : Q
}.

(** Table 4.  [d_columns] are the column labels of the frame; the three
    identifying fields of a row are read only when their label is among
    them, and [d_cells] holds the other columns of the row. *)
Record DemandRow := {
  d_product : string;
  d_channel : string;
  d_region : string;
  d_cells : gmap string value
}.

Record DemandFrame := {
  d_columns : list string;
  d_rows : list DemandRow
}.

(** [data]: the dict of the four tables.  Of [demand_forecast] only the
    column labels are read, and the key may be absent ([data.get]). *)
Record Data := {
  total_supply_df : list SupplyRow;
  actual_build_df : list BuildRow;
  demand_forecast_df : option (list string);
  customer_demand_df : DemandFrame
}.

(** [df.empty]: no row or no column. *)
Definition demand_empty (df : DemandFrame) : bool :=
  match d_rows df, d_columns df with
  | [], _ | _, [] => true
  | _, _ => false
  end.

Definition is_nil {A} (l : list A) : bool :=
  match l with [] => true | _ => false end.

(** [df[label]] on the demand frame, for an identifying column. *)
Definition demand_column (df : DemandFrame) (label : string)
  (field : DemandRow -> string) : result (list string) :=
  if bool_decide (label ∈ d_columns df)
  then ret (field <$> d_rows df)
  else raise (KeyError label).

(** [row[week_col]]. *)
Definition row_get (row : DemandRow) (col : string) : value :=
  default VNaN (d_cells row !! col).

Definition notna (v : value) : bool :=
  match v with VNaN => false | _ => true end.

(** [float(v)]; [None] is [ValueError].  [float_of_str] is Python's
    [float] on text. *)
Definition to_float (float_of_str : string -> option Q) (v : value)
  : option Q :=
  match v with
  | VNum q => Some q
  | VStr s => float_of_str s
  | VNaN => None
  end.

(** ** Override records *)

(** The values of a special-constraint dict ([Dict[str, Any]]). *)
Inductive pyval :=
  | PyNone
  | PyStr (s : string)
  | PyNum (q : Q)
  | PyBool (b : bool).

(** Truth value, as [all] tests it. *)
Definition truthy (v : pyval) : bool :=
  match v with
  | PyNone => false
  | PyStr s => negb (String.eqb s "")
  | PyNum q => negb (Qeq_bool q 0)
  | PyBool b => b
  end.

(** [constraint.get(key)] and [constraint.get(key, dflt)]. *)
Definition py_get (c : gmap string pyval) (key : string) (dflt : pyval)
  : pyval :=
  default dflt (c !! key).

(** ** The linear program *)

Abbreviation cell := (string * string * string * string)%type.
Abbreviation triple := (string * string * string)%type.

(** [LpVariable(name, lowBound=0, cat='Continuous')]; the variable of a
    cell is named by the cell. *)
Record LpVariable := {
  var_name : cell;
  lowBound : Q
}.

Inductive Sense := LE | GE.

(** [expr <= rhs] or [expr >= rhs], with [expr] a sum of
    coefficient-variable terms. *)
Record LpConstraint := {
  c_expr : list (Q * LpVariable);
  c_sense : Sense;
  c_rhs : Q
}.

(** [LpProblem("Supply_Allocation", LpMaximize)] once filled. *)
Record LpProblem := {
  objective : list (Q * LpVariable);
  constraints : list LpConstraint
}.

(** [prob.variables()]: the variables that occur in the objective or in
    a constraint. *)
Definition variables (prob : LpProblem) : list LpVariable :=
  (objective prob).*2 ++ concat ((λ c, (c_expr c).*2) <$> constraints prob).

Inductive LpStatus := NotSolved | Optimal | Infeasible | Unbounded | Undefined.

Global Instance LpStatus_eq_dec : EqDecision LpStatus.
Proof. solve_decision. Defined.

(** What [prob.solve] leaves behind: [prob.status] and the value of each
    variable ([x.value()] is [None] for a variable without one). *)
Record Solution := {
  status : LpStatus;
  var_values : gmap cell Q
}.

Definition value_of (vals : gmap cell Q) (v : LpVariable) : Q :=
  default 0%Q (vals !! var_name v).

Definition eval_expr (vals : gmap cell Q) (e : list (Q * LpVariable)) : Q :=
  Qsum ((λ t, (t.1 * value_of vals t.2)%Q) <$> e).

Definition holds (vals : gmap cell Q) (c : LpConstraint) : Prop :=
  match c_sense c with
  | LE => (eval_expr vals (c_expr c) <= c_rhs c)%Q
  | GE => (c_rhs c <= eval_expr vals (c_expr c))%Q
  end.

Definition in_bounds (vals : gmap cell Q) (v : LpVariable) : Prop :=
  ∃ q, vals !! var_name v = Some q ∧ (lowBound v <= q)%Q.

(** A point of the feasible region. *)
Definition feasible (prob : LpProblem) (vals : gmap cell Q) : Prop :=
  Forall (in_bounds vals) (variables prob) ∧
  Forall (holds vals) (constraints prob).

(** A maximiser of the objective over the feasible region. *)
Definition maximal (prob : LpProblem) (vals : gmap cell Q) : Prop :=
  feasible prob vals ∧
  ∀ vals', feasible prob vals' →
    (eval_expr vals' (objective prob) <= eval_expr vals (objective prob))%Q.

(** The solver's contract at one program. *)
Definition solver_sound (solve : LpProblem -> Solution) (prob : LpProblem)
  : Prop :=
  status (solve prob) = Optimal → feasible prob (var_values (solve prob)).

(** The same tests as functions, to run them. *)
Definition holdsb (vals : gmap cell Q) (c : LpConstraint) : bool :=
  match c_sense c with
  | LE => Qle_bool (eval_expr vals (c_expr c)) (c_rhs c)
  | GE => Qle_bool (c_rhs c) (eval_expr vals (c_expr c))
  end.

Definition in_boundsb (vals : gmap cell Q) (v : LpVariable) : bool :=
  match vals !! var_name v with
  | Some q => Qle_bool (lowBound v) q
  | None => false
  end.

Definition feasibleb (prob : LpProblem) (vals : gmap cell Q) : bool :=
  forallb (in_boundsb vals) (variables prob) &&
  forallb (holdsb vals) (constraints prob).

(** ** [optimize_supply_allocation], steps 2 to 4: index sets and demand *)

(** A dict filled by assignments [d[k] = v] in list order: a later
    assignment to a key replaces the earlier one. *)
Definition dict_of {K V} `{Countable K} (l : list (K * V)) : gmap K V :=
  foldl (λ m kv, <[kv.1 := kv.2]> m) ∅ l.

(** The test that picks the week columns of a frame:
    ['wk' in col.lower() or 'week' in col.lower() and col not in skip]. *)
Definition is_week_column (skip : list string) (col : string) : bool :=
  contains "wk" (lower col) ||
  (contains "week" (lower col) && negb (bool_decide (col ∈ skip))).

Record IndexSets := {
  products : list string;
  channels : list string;
  regions : list string;
  weeks : list string
}.

(** [if 'Default' not in l: l.append('Default')]. *)
Definition with_default (l : list string) : list string :=
  if bool_decide ("Default" ∈ l) then l else l ++ ["Default"].

(** [df[label].unique().tolist() if not df.empty else []]. *)
Definition labels_of (df : DemandFrame) (label : string)
  (field : DemandRow -> string) : result (list string) :=
  if demand_empty df then ret []
  else col ← demand_column df label field; ret (unique col).

Definition index_sets (data : Data) : result IndexSets :=
  let cd := customer_demand_df data in
  products_from_demand ← labels_of cd "product" d_product;
  let products_from_build :=
    if is_nil (actual_build_df data) then []
    else unique (b_product <$> actual_build_df data) in
  channels0 ← labels_of cd "channel" d_channel;
  regions0 ← labels_of cd "region" d_region;
  let weeks0 :=
    if negb (demand_empty cd) then
      filter (λ col, is_week_column ["product"; "channel"; "region"] col)
             (d_columns cd)
    else if negb (is_nil (total_supply_df data)) then
      unique (s_week <$> total_supply_df data)
    else
      filter (λ col, is_week_column ["product"] col)
             (default [] (demand_forecast_df data)) in
  ret {| products := sorted_set (products_from_demand ++ products_from_build);
         channels := sorted_set (with_default channels0);
         regions := sorted_set (with_default regions0);
         weeks := weeks0 |}.

(** Step 3: the priorities used when the caller passes [None]
    ([product_priorities_or_default] and its two companions below are
    the three [if ... is None:] assignments). *)
Definition default_product_priorities (ps : list string) : gmap string Z :=
  foldl (λ m p,
           if contains "plus" (lower p) then <[p := 8%Z]> m
           else if contains "mini" (lower p) then <[p := 3%Z]> m
           else m)
        (dict_of ((λ p, (p, 5%Z)) <$> ps)) ps.

Definition default_channel_priorities : gmap string Z :=
  dict_of [("Default", 1%Z); ("Online Store", 7%Z);
           ("Retail Store", 5%Z); ("Reseller Partners", 8%Z)].

Definition default_region_priorities (rs : list string) : gmap string Z :=
  dict_of ((λ r, (r, 1%Z)) <$> rs).

Definition product_priorities_or_default (ix : IndexSets)
  (product_priorities : option (gmap string Z)) : gmap string Z :=
  default (default_product_priorities (products ix)) product_priorities.

Definition channel_priorities_or_default
  (channel_priorities : option (gmap string Z)) : gmap string Z :=
  default default_channel_priorities channel_priorities.

Definition region_priorities_or_default (ix : IndexSets)
  (region_priorities : option (gmap string Z)) : gmap string Z :=
  default (default_region_priorities (regions ix)) region_priorities.

(** Step 4: [total_supply], week to supply. *)
Definition supply_dict (rows : list SupplyRow) : gmap string Q :=
  dict_of ((λ row, (s_week row, s_total_supply row)) <$> rows).

(** The four nested loops [for p .. for c .. for r .. for w ..]. *)
Definition all_triples (ix : IndexSets) : list triple :=
  p ← products ix; c ← channels ix; r ← regions ix; [(p, c, r)].

Definition all_cells (ix : IndexSets) : list cell :=
  p ← products ix; c ← channels ix; r ← regions ix; w ← weeks ix;
  [(p, c, r, w)].

(** One row of Table 4 added into [demand]: every week cell that is
    present and converts to a float is added to the entry of the row's
    (product, channel, region, week); a cell that does not convert is
    skipped with a warning. *)
Definition add_demand_row (float_of_str : string -> option Q)
  (columns ws : list string) (dem : gmap cell Q) (row : DemandRow)
  : gmap cell Q :=
  foldl (λ dem week_col,
           let k := (d_product row, d_channel row, d_region row, week_col) in
           if bool_decide (week_col ∈ columns) && notna (row_get row week_col)
           then match to_float float_of_str (row_get row week_col) with
                | Some demand_value =>
                    let current_demand := default 0%Q (dem !! k) in
                    <[k := (current_demand + demand_value)%Q]> dem
                | None => dem
                end
           else dem)
        dem ws.

Definition demand_dict (float_of_str : string -> option Q)
  (ix : IndexSets) (cd : DemandFrame) : gmap cell Q :=
  let zero := dict_of ((λ k, (k, 0%Q)) <$> all_cells ix) in
  if negb (demand_empty cd)
  then foldl (add_demand_row float_of_str (d_columns cd) (weeks ix))
             zero (d_rows cd)
  else zero.

(** ** Steps 5 to 9: the linear program *)

(** Step 6: [x = LpVariable.dicts("allocation", cells, lowBound=0)]. *)
Definition allocation_var (k : cell) : LpVariable :=
  {| var_name := k; lowBound := 0 |}.

Definition LpVariable_dicts (cells : list cell) : gmap cell LpVariable :=
  dict_of ((λ k, (k, allocation_var k)) <$> cells).

(** Step 7: the composite priority of every triple. *)
Definition product_weight (m : gmap string Z) (p : string) : Z :=
  default 5%Z (m !! p).
Definition channel_weight (m : gmap string Z) (c : string) : Z :=
  default 1%Z (m !! c).
Definition region_weight (m : gmap string Z) (r : string) : Z :=
  default 1%Z (m !! r).

Definition composite_priority
  (product_priorities channel_priorities region_priorities : gmap string Z)
  (t : triple) : Z :=
  let p_priority := product_weight product_priorities t.1.1 in
  let c_priority := channel_weight channel_priorities t.1.2 in
  let r_priority := region_weight region_priorities t.2 in
  (p_priority * c_priority * r_priority)%Z.

Definition priority_dict (ix : IndexSets)
  (product_priorities channel_priorities region_priorities : gmap string Z)
  : gmap triple Z :=
  dict_of ((λ t, (t, composite_priority product_priorities
                       channel_priorities region_priorities t))
             <$> all_triples ix).

(** Step 8: the terms [priority * x / demand] of the objective. *)
Definition objective_terms (ix : IndexSets) (demand : gmap cell Q)
  (priority : gmap triple Z) (x : gmap cell LpVariable)
  : result (list (Q * LpVariable)) :=
  for_each (all_cells ix) (λ '(p, c, r, w),
    match demand !! (p, c, r, w) with
    | Some d =>
        if Qpos d then
          pr ← subscript "priority" priority (p, c, r);
          v ← subscript "x" x (p, c, r, w);
          ret [((inject_Z pr / d)%Q, v)]
        else ret []
    | None => ret []
    end).

(** Constraint 1: the weekly supply cap, for the weeks of the supply
    table only. *)
Definition supply_constraints (ix : IndexSets) (total_supply : gmap string Q)
  (x : gmap cell LpVariable) : result (list LpConstraint) :=
  for_each (weeks ix) (λ w,
    match total_supply !! w with
    | Some s =>
        e ← for_each (all_triples ix) (λ '(p, c, r),
               v ← subscript "x" x (p, c, r, w); ret [(1%Q, v)]);
        ret [{| c_expr := e; c_sense := LE; c_rhs := s |}]
    | None => ret []
    end).

(** Constraint 2: the demand cap of every cell. *)
Definition demand_constraints (ix : IndexSets) (demand : gmap cell Q)
  (x : gmap cell LpVariable) : result (list LpConstraint) :=
  for_each (all_cells ix) (λ k,
    match demand !! k with
    | Some d =>
        v ← subscript "x" x k;
        ret [{| c_expr := [(1%Q, v)]; c_sense := LE; c_rhs := d |}]
    | None => ret []
    end).

(** The key [(p, c, r, w)] of an override, when it can be a key of
    [demand]: the keys of [demand] are 4-tuples of text, and a tuple with
    another component equals none of them. *)
Definition py_cell (p c r w : pyval) : option cell :=
  match p, c, r, w with
  | PyStr p, PyStr c, PyStr r, PyStr w => Some (p, c, r, w)
  | _, _, _, _ => None
  end.

(** [satisfaction_rate * demand[k]]. *)
Definition py_mul (rate : pyval) (d : Q) : result Q :=
  match rate with
  | PyNum q => ret (q * d)%Q
  | PyBool b => ret ((if b then 1 else 0) * d)%Q
  | PyNone => raise (TypeError "NoneType * float")
  | PyStr _ => raise (TypeError "str * float")
  end.

(** Constraint 3, one override record. *)
Definition special_constraint (demand : gmap cell Q)
  (x : gmap cell LpVariable) (constraint : gmap string pyval)
  : result (list LpConstraint) :=
  let p := py_get constraint "product" PyNone in
  let c := py_get constraint "channel" PyNone in
  let r := py_get constraint "region" PyNone in
  let w := py_get constraint "week" PyNone in
  let satisfaction_rate := py_get constraint "satisfaction_rate" (PyNum 1) in
  if forallb truthy [p; c; r; w] then
    match py_cell p c r w with
    | Some k =>
        match demand !! k with
        | Some d =>
            if Qpos d then
              v ← subscript "x" x k;
              floor ← py_mul satisfaction_rate d;
              ret [{| c_expr := [(1%Q, v)]; c_sense := GE; c_rhs := floor |}]
            else ret []
        | None => ret []
        end
    | None => ret []
    end
  else ret [].

Definition special_constraints_of (demand : gmap cell Q)
  (x : gmap cell LpVariable)
  (special_constraints : option (list (gmap string pyval)))
  : result (list LpConstraint) :=
  match special_constraints with
  | None | Some [] => ret []
  | Some cs => for_each cs (special_constraint demand x)
  end.

(** Everything the function holds when it calls the solver
    ([cumulative_build] is built from Table 2 and never read; of Table 2
    only the product labels matter). *)
Record Model := {
  m_ix : IndexSets;
  m_supply : gmap string Q;
  m_demand : gmap cell Q;
  m_priority : gmap triple Z;
  m_x : gmap cell LpVariable;
  m_prob : LpProblem
}.

Definition lp_model (float_of_str : string -> option Q) (data : Data)
  (product_priorities channel_priorities region_priorities
     : option (gmap string Z))
  (special_constraints : option (list (gmap string pyval)))
  : result Model :=
  ix ← index_sets data;
  let product_priorities :=
    product_priorities_or_default ix product_priorities in
  let channel_priorities :=
    channel_priorities_or_default channel_priorities in
  let region_priorities :=
    region_priorities_or_default ix region_priorities in
  let total_supply := supply_dict (total_supply_df data) in
  let demand := demand_dict float_of_str ix (customer_demand_df data) in
  let x := LpVariable_dicts (all_cells ix) in
  let priority :=
    priority_dict ix product_priorities channel_priorities region_priorities in
  obj ← objective_terms ix demand priority x;
  c1 ← supply_constraints ix total_supply x;
  c2 ← demand_constraints ix demand x;
  c3 ← special_constraints_of demand x special_constraints;
  ret {| m_ix := ix; m_supply := total_supply; m_demand := demand;
         m_priority := priority; m_x := x;
         m_prob := {| objective := obj; constraints := c1 ++ c2 ++ c3 |} |}.

(** ** Steps 10 and 11: solving and the result table *)

Definition result_columns : list string :=
  ["product"; "channel"; "region"; "week";
   "demand"; "allocation"; "satisfaction"; "priority"].

Record ResultRow := {
  r_product : string;
  r_channel : string;
  r_region : string;
  r_week : string;
  r_demand : Q;
  r_allocation : Q;
  r_satisfaction : Q;
  r_priority : Z
}.

(** The returned [pd.DataFrame]: its column labels and its rows. *)
Record ResultFrame := {
  r_columns : list string;
  r_rows : list ResultRow
}.

Definition r_key (row : ResultRow) : cell :=
  (r_product row, r_channel row, r_region row, r_week row).

(** The loop that fills [results] after an optimal solve. *)
Definition result_rows (m : Model) (vals : gmap cell Q)
  : result (list ResultRow) :=
  for_each (all_cells (m_ix m)) (λ '(p, c, r, w),
    match m_demand m !! (p, c, r, w) with
    | Some d =>
        if Qpos d then
          v ← subscript "x" (m_x m) (p, c, r, w);
          match vals !! var_name v with
          | Some allocation =>
              if Qpos allocation then
                ret [{| r_product := p; r_channel := c; r_region := r;
                        r_week := w; r_demand := d;
                        r_allocation := allocation;
                        r_satisfaction :=
                          if Qpos d then (allocation / d)%Q else 1%Q;
                        r_priority := default 1%Z (m_priority m !! (p, c, r)) |}]
              else ret []
          | None => ret []
          end
        else ret []
    | None => ret []
    end).

Definition results_of (m : Model) (sol : Solution) : result ResultFrame :=
  match status sol with
  | Optimal =>
      results ← result_rows m (var_values sol);
      if negb (is_nil results)
      then ret {| r_columns := result_columns; r_rows := results |}
      else ret {| r_columns := result_columns; r_rows := [] |}
  | _ => ret {| r_columns := result_columns; r_rows := [] |}
  end.

Definition optimize_supply_allocation
  (float_of_str : string -> option Q) (solve : LpProblem -> Solution)
  (data : Data)
  (product_priorities channel_priorities region_priorities
     : option (gmap string Z))
  (special_constraints : option (list (gmap string pyval)))
  : result ResultFrame :=
  m ← lp_model float_of_str data product_priorities channel_priorities
         region_priorities special_constraints;
  results_of m (solve (m_prob m)).

(** The allocation of one week summed over the rows of a result. *)
Definition week_allocation (df : ResultFrame) (w : string) : Q :=
  Qsum (r_allocation <$> filter (λ row, r_week row = w) (r_rows df)).

(** The allocation a result gives to a cell: that of its row, and 0 for
    a cell without a row. *)
Definition allocation_of (df : ResultFrame) (k : cell) : Q :=
  match filter (λ row, r_key row = k) (r_rows df) with
  | row :: _ => r_allocation row
  | [] => 0%Q
  end.

(** ** [get_summary_stats] *)

(** One row of a grouped view: the group key (one label per grouping
    column), the two sums and their ratio.  The ratio is a float
    division: for a zero total demand pandas yields inf or NaN, which is
    [None] here. *)
Record GroupRow := {
  g_key : list string;
  g_demand : Q;
  g_allocation : Q;
  g_satisfaction : option Q
}.

Definition float_div (a d : Q) : option Q :=
  if Qeq_bool d 0 then None else Some (a / d)%Q.

(** The order in which [groupby] lists its keys: label by label. *)
Fixpoint key_leb (a b : list string) : bool :=
  match a, b with
  | [], _ => true
  | _ :: _, [] => false
  | x :: a', y :: b' =>
      match String.compare x y with
      | Lt => true
      | Gt => false
      | Eq => key_leb a' b'
      end
  end.

Definition key_le (a b : list string) : Prop := key_leb a b = true.

Global Instance key_le_dec a b : Decision (key_le a b).
Proof. unfold key_le. apply _. Defined.

(** The fields of a result row that a grouping column names. *)
Definition r_label (col : string) (row : ResultRow) : string :=
  if String.eqb col "product" then r_product row
  else if String.eqb col "channel" then r_channel row
  else if String.eqb col "region" then r_region row
  else r_week row.

(** The key of a row under the grouping columns [cols]. *)
Definition group_key (cols : list string) (row : ResultRow) : list string :=
  (λ col, r_label col row) <$> cols.

(** The aggregate of the rows that carry key [k]. *)
Definition group_of (cols : list string) (rows : list ResultRow)
  (k : list string) : GroupRow :=
  let grp := filter (λ row, group_key cols row = k) rows in
  let d := Qsum (r_demand <$> grp) in
  let a := Qsum (r_allocation <$> grp) in
  {| g_key := k; g_demand := d; g_allocation := a;
     g_satisfaction := float_div a d |}.

(** [df.groupby(cols).agg({"demand": "sum", "allocation": "sum"})] followed
    by [view["satisfaction"] = view["allocation"] / view["demand"]]:
    one row per distinct key, keys in sorted order.  A grouping or
    aggregated column that the frame lacks is a [KeyError]. *)
Definition groupby (cols : list string) (df : ResultFrame)
  : result (list GroupRow) :=
  match filter (λ col, col ∉ r_columns df) (cols ++ ["demand"; "allocation"]) with
  | col :: _ => raise (KeyError col)
  | [] =>
      ret (group_of cols (r_rows df)
             <$> merge_sort key_le (remove_dups (group_key cols <$> r_rows df)))
  end.

(** [result_df.empty]. *)
Definition result_empty (df : ResultFrame) : bool :=
  is_nil (r_rows df) || is_nil (r_columns df).

Definition get_summary_stats (result_df : ResultFrame)
  : result (gmap string (list GroupRow)) :=
  let summary : gmap string (list GroupRow) := ∅ in
  if negb (result_empty result_df) then
    product_summary ← groupby ["product"] result_df;
    let summary := <["product" := product_summary]> summary in
    product_week_summary ← groupby ["product"; "week"] result_df;
    let summary := <["product_week" := product_week_summary]> summary in
    channel_region_summary ← groupby ["product"; "channel"; "region"] result_df;
    let summary := <["channel_region" := channel_region_summary]> summary in
    week_summary ← groupby ["week"] result_df;
    let summary := <["week" := week_summary]> summary in
    ret summary
  else ret summary.

(** ** [validate_case2_data] and the closing stage of [load_case2_data] *)

(** A parsed record: the dict of one table line, keys in order. *)
Definition record : Type := list (string * value).

(** A table as the loader holds it: its column labels and records. *)
Record Frame := {
  f_columns : list string;
  f_records : list record
}.

(** [pd.DataFrame(records)]: the columns are the keys of the records in
    order of first appearance. *)
Definition DataFrame (records : list record) : Frame :=
  {| f_columns := unique (concat ((λ r : record, r.*1) <$> records));
     f_records := records |}.

(** [all(col.lower() in cols for col in wanted)]. *)
Definition has_all (cols wanted : list string) : bool :=
  forallb (λ col, bool_decide (lower col ∈ cols)) wanted.

Definition validate_case2_data (data : gmap string Frame) : bool :=
  let required_tables :=
    ["total_supply"; "actual_build"; "demand_forecast"; "customer_demand"] in
  if negb (forallb (λ table, bool_decide (is_Some (data !! table)))
                   required_tables)
  then false
  else
    let cols table :=
      lower <$> f_columns (default (DataFrame []) (data !! table)) in
    if negb (has_all (cols "total_supply") ["week"; "total_supply"])
    then false
    else if negb (has_all (cols "actual_build")
                          ["week"; "product"; "actual_build"])
    then false
    else if negb (existsb (λ col, String.eqb (lower col) "product")
                          (cols "demand_forecast"))
    then false
    else if negb (has_all (cols "customer_demand") ["channel"; "region"])
    then false
    else true.

(** What [load_case2_data] returns: the tables read from the file, or
    the tables of [_generate_mock_case2_data] (whose figures are drawn
    from numpy's generator and are not modelled). *)
Inductive Loaded :=
  | FromFile (data_dict : gmap string Frame)
  | MockData.

(** The messages the loader shows. *)
Inductive Notice :=
  | WarnMockData.

Definition data_dict_of
  (total_supply_data actual_build_data demand_forecast_data
     customer_demand_data : list record) : gmap string Frame :=
  dict_of [("total_supply", DataFrame total_supply_data);
           ("actual_build", DataFrame actual_build_data);
           ("demand_forecast", DataFrame demand_forecast_data);
           ("customer_demand", DataFrame customer_demand_data)].

(** Lines 301 to 322 of [load_case2_data]: from the four lists of records
    that the parsing loops collected to the returned tables. *)
Definition load_case2_data
  (total_supply_data actual_build_data demand_forecast_data
     customer_demand_data : list record) : list Notice * Loaded :=
  let data_dict :=
    data_dict_of total_supply_data actual_build_data demand_forecast_data
      customer_demand_data in
  if negb (is_nil total_supply_data) && negb (is_nil actual_build_data) &&
     negb (is_nil demand_forecast_data) && negb (is_nil customer_demand_data) &&
     validate_case2_data data_dict
  then ([], FromFile data_dict)
  else ([WarnMockData], MockData).

(** The identifying columns that [validate_case2_data] looks for in each
    table, and a table that lacks one of them. *)
Definition required_columns : list (string * list string) :=
  [("total_supply", ["week"; "total_supply"]);
   ("actual_build", ["week"; "product"; "actual_build"]);
   ("demand_forecast", ["product"]);
   ("customer_demand", ["channel"; "region"])].

Definition missing_column (data : gmap string Frame) (table col : string)
  : Prop :=
  ∃ (cols : list string) (f : Frame),
    ((table, cols) ∈ required_columns) ∧ col ∈ cols ∧
    data !! table = Some f ∧ col ∉ (lower <$> f_columns f).

(** ** The loops of the optimizer, without their lookups

    Every [x[...]] and [priority[...]] inside the loops over the index
    sets is a lookup of a key the dict was built from.  These are the
    lists the loops then produce; the proofs show that the loops do
    produce them. *)

(** The supply cap of week [w] with supply [s]. *)
Definition supply_cap (ix : IndexSets) (w : string) (s : Q) : LpConstraint :=
  {| c_expr := (λ t : triple, (1%Q, allocation_var (t, w))) <$> all_triples ix;
     c_sense := LE; c_rhs := s |}.

(** The demand cap of cell [k] with demand [d]. *)
Definition demand_cap (k : cell) (d : Q) : LpConstraint :=
  {| c_expr := [(1%Q, allocation_var k)]; c_sense := LE; c_rhs := d |}.

(** The floor of an override on cell [k]. *)
Definition override_floor (k : cell) (floor : Q) : LpConstraint :=
  {| c_expr := [(1%Q, allocation_var k)]; c_sense := GE; c_rhs := floor |}.

(** The result rows of one cell: one row or none. *)
Definition row_at (demand : gmap cell Q) (priority : gmap triple Z)
  (vals : gmap cell Q) (k : cell) : list ResultRow :=
  match demand !! k with
  | Some d =>
      if Qpos d then
        match vals !! k with
        | Some allocation =>
            if Qpos allocation then
              [{| r_product := k.1.1.1; r_channel := k.1.1.2;
                  r_region := k.1.2; r_week := k.2; r_demand := d;
                  r_allocation := allocation;
                  r_satisfaction := (allocation / d)%Q;
                  r_priority := default 1%Z (priority !! k.1) |}]
            else []
        | None => []
        end
      else []
  | None => []
  end.

(** What the rows of cell [k] add to the allocation of week [w]. *)
Definition week_share (demand : gmap cell Q) (priority : gmap triple Z)
  (vals : gmap cell Q) (w : string) (k : cell) : Q :=
  Qsum (r_allocation <$>
          filter (λ row, r_week row = w) (row_at demand priority vals k)).

(** ** Vocabulary of the statements *)

(** Column labels are distinct, as they are in every frame built from
    records. *)
Definition distinct_labels (data : Data) : Prop :=
  NoDup (d_columns (customer_demand_df data)) ∧
  NoDup (default [] (demand_forecast_df data)).

(** The demand of one week summed over the rows of a result. *)
Definition week_demand (df : ResultFrame) (w : string) : Q :=
  Qsum (r_demand <$> filter (λ row, r_week row = w) (r_rows df)).

(** The four identifying fields of an override record, the test
    [all([p, c, r, w])] on them, and the cell they name. *)
Definition override_fields (constraint : gmap string pyval) : list pyval :=
  [py_get constraint "product" PyNone; py_get constraint "channel" PyNone;
   py_get constraint "region" PyNone; py_get constraint "week" PyNone].

Definition override_cell (constraint : gmap string pyval) : option cell :=
  py_cell (py_get constraint "product" PyNone)
          (py_get constraint "channel" PyNone)
          (py_get constraint "region" PyNone)
          (py_get constraint "week" PyNone).


(** What one row of Table 4 asks for in week [w]: the float of its cell,
    and 0 for a cell that is absent or does not convert. *)
Definition week_value (float_of_str : string → option Q)
  (columns : list string) (row : DemandRow) (w : string) : Q :=
  if bool_decide (w ∈ columns) && notna (row_get row w)
  then default 0%Q (to_float float_of_str (row_get row w))
  else 0%Q.

(** The (product, channel, region) of a demand row. *)
Definition row_labels (row : DemandRow) : triple :=
  (d_product row, d_channel row, d_region row).

(** The identifying columns that the optimizer reads from a non-empty
    Table 4. *)
Definition has_label_columns (df : DemandFrame) : Prop :=
  demand_empty df = false →
  "product" ∈ d_columns df ∧ "channel" ∈ d_columns df ∧
  "region" ∈ d_columns df.

(** The objective term of cell [k]: [priority * x / demand], for a cell
    with demand above 0. *)
Definition objective_term (demand : gmap cell Q) (priority : triple → Z)
  (k : cell) : list (Q * LpVariable) :=
  match demand !! k with
  | Some d =>
      if Qpos d then [((inject_Z (priority k.1) / d)%Q, allocation_var k)]
      else []
  | None => []
  end.

(** The empty table that the function returns when there is nothing to
    report. *)
Definition empty_result : ResultFrame :=
  {| r_columns := result_columns; r_rows := [] |}.

(** A grouped view of [rows] by the columns [cols], in the words of the
    contract: one row per group key that occurs, carrying the summed
    demand, the summed allocation and their ratio. *)
Definition grouped_view (cols : list string) (rows : list ResultRow)
  (view : list GroupRow) : Prop :=
  NoDup (g_key <$> view) ∧
  (∀ k, k ∈ g_key <$> view ↔ ∃ row, row ∈ rows ∧ group_key cols row = k) ∧
  ∀ g, g ∈ view →
    let grp := filter (λ row, group_key cols row = g_key g) rows in
    g_demand g = Qsum (r_demand <$> grp) ∧
    g_allocation g = Qsum (r_allocation <$> grp) ∧
    g_satisfaction g = float_div (g_allocation g) (g_demand g).

(** ** A small instance

    One product sold through one channel in one region, two weeks of
    demand (50 and 20 units) and a supply table that lists the first week
    only, with 30 units. *)

Definition no_text_number (s : string) : option Q := None.

Definition phone_row : DemandRow :=
  {| d_product := "Phone Plus"; d_channel := "Online Store"; d_region := "AMR";
     d_cells := dict_of [("Jan-Wk1", VNum 50); ("Jan-Wk2", VNum 20)] |}.

Definition phone_data : Data :=
  {| total_supply_df := [{| s_week := "Jan-Wk1"; s_total_supply := 30 |}];
     actual_build_df :=
       [{| b_week := "Jan-Wk1"; b_product := "Phone Plus";
           b_actual_build := 30 |}];
     demand_forecast_df := Some ["product"; "Jan-Wk1"; "Jan-Wk2"];
     customer_demand_df :=
       {| d_columns := ["product"; "channel"; "region"; "Jan-Wk1"; "Jan-Wk2"];
          d_rows := [phone_row] |} |}.

Definition phone_wk1 : cell := ("Phone Plus", "Online Store", "AMR", "Jan-Wk1").
Definition phone_wk2 : cell := ("Phone Plus", "Online Store", "AMR", "Jan-Wk2").

(** The point with 30 units for the first week, 20 for the second and 0
    for every cell without demand. *)
Definition phone_values : gmap cell Q :=
  <[phone_wk1 := 30%Q]>
    (<[phone_wk2 := 20%Q]>
       (dict_of ((λ k, (k, 0%Q)) <$>
          all_cells {| products := ["Phone Plus"];
                       channels := ["Default"; "Online Store"];
                       regions := ["AMR"; "Default"];
                       weeks := ["Jan-Wk1"; "Jan-Wk2"] |}))).

Definition phone_solve (prob : LpProblem) : Solution :=
  {| status := Optimal; var_values := phone_values |}.

(** A solver that reports the program infeasible. *)
Definition infeasible_solve (prob : LpProblem) : Solution :=
  {| status := Infeasible; var_values := ∅ |}.

(** An override asking for half of the demand of the first week, and one
    asking for all of it. *)
Definition half_override : gmap string pyval :=
  dict_of [("product", PyStr "Phone Plus"); ("channel", PyStr "Online Store");
           ("region", PyStr "AMR"); ("week", PyStr "Jan-Wk1");
           ("satisfaction_rate", PyNum (1 # 2))].

Definition full_override : gmap string pyval :=
  dict_of [("product", PyStr "Phone Plus"); ("channel", PyStr "Online Store");
           ("region", PyStr "AMR"); ("week", PyStr "Jan-Wk1")].

(** An override without a region. *)
Definition regionless_override : gmap string pyval :=
  dict_of [("product", PyStr "Phone Plus"); ("channel", PyStr "Online Store");
           ("region", PyNone); ("week", PyStr "Jan-Wk1")].

(** The built model, or a blank one (for an input on which the builder
    raises). *)
Definition model_or_blank (r : result Model) : Model :=
  match r with
  | inr m => m
  | inl _ =>
      {| m_ix := {| products := []; channels := []; regions := [];
                    weeks := [] |};
         m_supply := ∅; m_demand := ∅; m_priority := ∅; m_x := ∅;
         m_prob := {| objective := []; constraints := [] |} |}
  end.

Definition frame_or_blank (r : result ResultFrame) : ResultFrame :=
  match r with
  | inr df => df
  | inl _ => {| r_columns := []; r_rows := [] |}
  end.

Definition phone_model : Model :=
  model_or_blank (lp_model no_text_number phone_data None None None None).

Definition phone_result : ResultFrame :=
  frame_or_blank
    (optimize_supply_allocation no_text_number phone_solve phone_data
       None None None None).

Definition phone_half_model : Model :=
  model_or_blank
    (lp_model no_text_number phone_data None None None (Some [half_override])).

Definition phone_half_result : ResultFrame :=
  frame_or_blank
    (optimize_supply_allocation no_text_number phone_solve phone_data
       None None None (Some [half_override])).

Definition phone_full_model : Model :=
  model_or_blank
    (lp_model no_text_number phone_data None None None (Some [full_override])).

(** The small instance with a Table 4 that has no product column, as the
    generated mock tables have none. *)
Definition productless_data : Data :=
  {| total_supply_df := total_supply_df phone_data;
     actual_build_df := actual_build_df phone_data;
     demand_forecast_df := demand_forecast_df phone_data;
     customer_demand_df :=
       {| d_columns := ["channel"; "region"; "Jan-Wk1"; "Jan-Wk2"];
          d_rows := [phone_row] |} |}.

(** ** An instance with a blank region

    A demand line whose region field is empty, 50 units in the one week,
    30 units of supply, and an override on that very cell asking for all
    of its demand. *)

Definition blank_row : DemandRow :=
  {| d_product := "Phone Plus"; d_channel := "Online Store"; d_region := "";
     d_cells := dict_of [("Jan-Wk1", VNum 50)] |}.

Definition blank_data : Data :=
  {| total_supply_df := [{| s_week := "Jan-Wk1"; s_total_supply := 30 |}];
     actual_build_df :=
       [{| b_week := "Jan-Wk1"; b_product := "Phone Plus";
           b_actual_build := 30 |}];
     demand_forecast_df := Some ["product"; "Jan-Wk1"];
     customer_demand_df :=
       {| d_columns := ["product"; "channel"; "region"; "Jan-Wk1"];
          d_rows := [blank_row] |} |}.

Definition blank_cell : cell := ("Phone Plus", "Online Store", "", "Jan-Wk1").

Definition blank_override : gmap string pyval :=
  dict_of [("product", PyStr "Phone Plus"); ("channel", PyStr "Online Store");
           ("region", PyStr ""); ("week", PyStr "Jan-Wk1");
           ("satisfaction_rate", PyNum 1)].

Definition blank_values : gmap cell Q :=
  <[blank_cell := 30%Q]>
    (dict_of ((λ k, (k, 0%Q)) <$>
       all_cells {| products := ["Phone Plus"];
                    channels := ["Default"; "Online Store"];
                    regions := [""; "Default"];
                    weeks := ["Jan-Wk1"] |})).

Definition blank_solve (prob : LpProblem) : Solution :=
  {| status := Optimal; var_values := blank_values |}.

Definition blank_model : Model :=
  model_or_blank
    (lp_model no_text_number blank_data None None None (Some [blank_override])).

Definition blank_result : ResultFrame :=
  frame_or_blank
    (optimize_supply_allocation no_text_number blank_solve blank_data
       None None None (Some [blank_override])).

(** ** Parsed tables whose customer demand has no region column

    The records that the parsing loops collect from a file whose fourth
    table is headed [product,channel,region_code,Jan-Wk1]. *)

Definition supply_records : list record :=
  [[("week", VStr "Jan-Wk1"); ("total_supply", VNum 30)]].

Definition build_records : list record :=
  [[("week", VStr "Jan-Wk1"); ("product", VStr "Phone Plus");
    ("actual_build", VNum 30)]].

Definition forecast_records : list record :=
  [[("product", VStr "Phone Plus"); ("Jan-Wk1", VNum 50)]].

Definition demand_records : list record :=
  [[("product", VStr "Phone Plus"); ("channel", VStr "Online Store");
    ("region_code", VStr "AMR"); ("Jan-Wk1", VNum 50)]].

(** ** Proof automation *)

(** Names the value [a] of cell [k] at a feasible point of the model [m]
    and records its bounds 0 and [d]; [bounds] is the lemma that bounds
    the cells of [m] at that point. *)
Ltac cell_bounds bounds m k d a :=
  let Hk := fresh "Hk" in
  let Hd := fresh "Hd" in
  assert (k ∈ all_cells (m_ix m)) as Hk by compute_done;
  assert (m_demand m !! k = Some d) as Hd by (vm_compute; reflexivity);
  let Ha := fresh "Hval" in
  let H0 := fresh "Hlow" in
  let H1 := fresh "Hcap" in
  destruct (bounds k d Hk Hd) as (a & Ha & H0 & H1);
  clear Hk Hd.


(** * The loader: reading the tables of a file, the generated tables

    A shallow embedding of the rest of [app/utils/data_loader.py]: the
    four parsing loops of [load_case2_data] and the function as a whole,
    [_generate_mock_case2_data], [_generate_mock_case1_data],
    [validate_case1_data] and [load_case1_data]; and of the callers in
    [app/pages]: the loading step of [case1_app.py] and [case2_app.py] and
    the run step of [case2_supply_optimization.py].

    Text.  The lines of a file are ASCII text; [strip], [split],
    [isdigit] and [int] are Python's on such text.

    Files.  [os.path.exists], [open(path).readlines()] and [pd.read_csv]
    are the fields of a [Disk].

    Random figures.  numpy's global generator is a state of a type with
    the operations of [NumpyRandom]; the generated tables thread it
    through their loops in the order of the source. *)

(** ** Python text, continued *)

(** The characters that [str.strip] removes from ASCII text. *)
Definition is_space (a : ascii) : bool :=
  let n := nat_of_ascii a in
  ((9 <=? n)%nat && (n <=? 13)%nat) || ((28 <=? n)%nat && (n <=? 32)%nat).

(** The characters that [int] skips around a literal. *)
Definition is_int_space (a : ascii) : bool :=
  let n := nat_of_ascii a in
  ((9 <=? n)%nat && (n <=? 13)%nat) || (n =? 32)%nat.

Fixpoint lstrip_with (space : ascii -> bool) (s : string) : string :=
  match s with
  | EmptyString => EmptyString
  | String a t => if space a then lstrip_with space t else s
  end.

Fixpoint rstrip_with (space : ascii -> bool) (s : string) : string :=
  match s with
  | EmptyString => EmptyString
  | String a t =>
      match rstrip_with space t with
      | EmptyString => if space a then EmptyString else String a EmptyString
      | t' => String a t'
      end
  end.

(** [s.strip()]. *)
Definition strip (s : string) : string :=
  rstrip_with is_space (lstrip_with is_space s).

(** [s.split(sep)] for a separator of one character. *)
Fixpoint split (sep : ascii) (s : string) : list string :=
  match s with
  | EmptyString => [EmptyString]
  | String a t =>
      if Ascii.eqb a sep then EmptyString :: split sep t
      else match split sep t with
           | part :: parts => String a part :: parts
           | [] => [String a EmptyString]
           end
  end.

Definition is_digit (a : ascii) : bool :=
  let n := nat_of_ascii a in (48 <=? n)%nat && (n <=? 57)%nat.

Fixpoint all_digits (s : string) : bool :=
  match s with
  | EmptyString => true
  | String a t => is_digit a && all_digits t
  end.

(** [s.isdigit()]: at least one character, all of them digits. *)
Definition isdigit (s : string) : bool :=
  negb (String.eqb s "") && all_digits s.

Definition digit_value (a : ascii) : Z := Z.of_nat (nat_of_ascii a) - 48.

(** The digits of a decimal literal: digits, with single underscores
    allowed between two of them. *)
Fixpoint literal_digits (s : string) : option (list Z) :=
  match s with
  | EmptyString => None
  | String a t =>
      if is_digit a then
        match t with
        | EmptyString => Some [digit_value a]
        | String "_"%char t' =>
            ds ← literal_digits t'; Some (digit_value a :: ds)
        | _ => ds ← literal_digits t; Some (digit_value a :: ds)
        end
      else None
  end.

(** [int(s)] on text; [None] is [ValueError].  A literal is an optional
    sign and the digits, with whitespace around the whole.
    [max_str_digits] is [sys.get_int_max_str_digits()] (4300 unless
    changed, 0 for no limit): a literal with more digits than that, and
    more than 640, is refused. *)
Definition py_int (max_str_digits : nat) (s : string) : option Z :=
  let s := rstrip_with is_int_space (lstrip_with is_int_space s) in
  let signed :=
    match s with
    | String "-"%char t => (true, t)
    | String "+"%char t => (false, t)
    | _ => (false, s)
    end in
  ds ← literal_digits signed.2;
  if (640 <? length ds)%nat && (0 <? max_str_digits)%nat &&
     (max_str_digits <? length ds)%nat
  then None
  else
    let n := foldl (λ acc d, 10 * acc + d)%Z 0%Z ds in
    Some (if signed.1 then (- n)%Z else n).

(** [int(x)] on a float: the fraction is dropped. *)
Definition int_of_float (x : Q) : Z := Z.quot (Qnum x) (Z.pos (Qden x)).

(** The decimal text of a number, as an f-string prints it. *)
Fixpoint digits_text (fuel : nat) (n : nat) (acc : string) : string :=
  match fuel with
  | O => acc
  | S fuel' =>
      let acc' := String (ascii_of_nat (48 + n mod 10)) acc in
      if (n <? 10)%nat then acc' else digits_text fuel' (n / 10) acc'
  end.

Definition str_of_nat (n : nat) : string := digits_text (S n) n "".

(** ** Records as dicts *)

(** [row[col] = v] on a record: the value of an existing key is
    replaced in place, a new key goes to the end. *)
Fixpoint dict_set (col : string) (v : value) (row : record) : record :=
  match row with
  | [] => [(col, v)]
  | (col', v') :: row' =>
      if String.eqb col col' then (col, v) :: row'
      else (col', v') :: dict_set col v row'
  end.

(** [row.get(col)]. *)
Fixpoint dict_get (col : string) (row : record) : option value :=
  match row with
  | [] => None
  | (col', v) :: row' =>
      if String.eqb col col' then Some v else dict_get col row'
  end.

(** [enumerate(l)]. *)
Definition enumerate {A} (l : list A) : list (nat * A) :=
  imap (λ i a, (i, a)) l.

(** ** The parsing loops of [load_case2_data] *)

(** [not line or line.startswith('#')], on a stripped line. *)
Definition skipped (line : string) : bool :=
  String.eqb line "" || String.prefix "#" line.

(** The header tests of the four tables. *)
Definition is_supply_header (line : string) : bool :=
  contains "week,total_supply" line.

Definition is_build_header (line : string) : bool :=
  contains "week,product,actual_build" line.

Definition is_forecast_header (line : string) : bool :=
  contains "product" line && contains "Jan-Wk" line &&
  negb (contains "week" line) && negb (contains "actual_build" line).

Definition is_customer_header (line : string) : bool :=
  contains "product,channel,region" line && contains "Jan-Wk" line.

(** The test that ends Table 3. *)
Definition ends_forecast (line : string) : bool :=
  contains "channel,region" line && contains "Jan-Wk" line.

(** [int(part)], and the text itself when [int] raises [ValueError]. *)
Definition int_or_text (max_str_digits : nat) (part : string) : value :=
  match py_int max_str_digits part with
  | Some n => VNum (inject_Z n)
  | None => VStr part
  end.

(** Table 1, lines 170 to 200. *)
Definition supply_record (max_str_digits : nat) (parts : list string)
  : list record :=
  match parts with
  | week :: supply :: _ =>
      [[("week", VStr week);
        ("total_supply", int_or_text max_str_digits supply)]]
  | _ => []
  end.

Fixpoint total_supply_loop (max_str_digits : nat) (table1_started : bool)
  (lines : list string) : list record :=
  match lines with
  | [] => []
  | line :: rest =>
      let line := strip line in
      if skipped line then
        total_supply_loop max_str_digits table1_started rest
      else if is_supply_header line then
        total_supply_loop max_str_digits true rest
      else if table1_started then
        if is_build_header line then []
        else
          supply_record max_str_digits (split "," line) ++
          total_supply_loop max_str_digits table1_started rest
      else total_supply_loop max_str_digits table1_started rest
  end.

(** Table 2, lines 202 to 234. *)
Definition build_record (max_str_digits : nat) (parts : list string)
  : list record :=
  match parts with
  | week :: product :: build :: _ =>
      [[("week", VStr week); ("product", VStr product);
        ("actual_build", int_or_text max_str_digits build)]]
  | _ => []
  end.

Fixpoint actual_build_loop (max_str_digits : nat) (table2_started : bool)
  (lines : list string) : list record :=
  match lines with
  | [] => []
  | line :: rest =>
      let line := strip line in
      if skipped line then
        actual_build_loop max_str_digits table2_started rest
      else if is_build_header line then
        actual_build_loop max_str_digits true rest
      else if table2_started then
        if is_forecast_header line then []
        else
          build_record max_str_digits (split "," line) ++
          actual_build_loop max_str_digits table2_started rest
      else actual_build_loop max_str_digits table2_started rest
  end.

(** Table 3, lines 236 to 270.  A row of the table: the first field is
    kept as text, the others go through [int]. *)
Definition forecast_row (max_str_digits : nat)
  (header_cols parts : list string) : record :=
  foldl (λ row_data ic,
           match parts !! ic.1 with
           | Some part =>
               if (0 <? ic.1)%nat
               then dict_set ic.2 (int_or_text max_str_digits part) row_data
               else dict_set ic.2 (VStr part) row_data
           | None => row_data
           end)
        [] (enumerate header_cols).

Fixpoint demand_forecast_loop (max_str_digits : nat) (table3_started : bool)
  (header_cols : list string) (lines : list string) : list record :=
  match lines with
  | [] => []
  | line :: rest =>
      let line := strip line in
      if skipped line then
        demand_forecast_loop max_str_digits table3_started header_cols rest
      else if is_forecast_header line then
        demand_forecast_loop max_str_digits true (split "," line) rest
      else if table3_started then
        if ends_forecast line then []
        else
          let parts := split "," line in
          (if (length header_cols <=? length parts)%nat
           then [forecast_row max_str_digits header_cols parts]
           else []) ++
          demand_forecast_loop max_str_digits table3_started header_cols rest
      else
        demand_forecast_loop max_str_digits table3_started header_cols rest
  end.

(** Table 4, lines 272 to 299.  A cell: from the fourth column on, text
    that is all digits becomes an [int]; everything else is kept as
    stripped text.  Here [int] is not guarded: [None] is its
    [ValueError]. *)
Definition demand_cell (max_str_digits : nat) (i : nat) (part : string)
  : option value :=
  if (3 <=? i)%nat && isdigit (strip part)
  then n ← py_int max_str_digits (strip part); Some (VNum (inject_Z n))
  else Some (VStr (strip part)).

Definition demand_record (max_str_digits : nat)
  (header_cols_t4 parts : list string) : option record :=
  foldl (λ row_data ic,
           row ← row_data;
           match parts !! ic.1 with
           | Some part =>
               v ← demand_cell max_str_digits ic.1 part;
               Some (dict_set ic.2 v row)
           | None => Some row
           end)
        (Some []) (enumerate header_cols_t4).

Fixpoint customer_demand_loop (max_str_digits : nat) (table4_started : bool)
  (header_cols_t4 : list string) (lines : list string)
  : option (list record) :=
  match lines with
  | [] => Some []
  | line :: rest =>
      let line := strip line in
      if skipped line then
        customer_demand_loop max_str_digits table4_started header_cols_t4 rest
      else if is_customer_header line then
        customer_demand_loop max_str_digits true (split "," line) rest
      else if table4_started then
        let parts := split "," line in
        if (length header_cols_t4 <=? length parts)%nat then
          row_data ← demand_record max_str_digits header_cols_t4 parts;
          rows ← customer_demand_loop max_str_digits table4_started
                   header_cols_t4 rest;
          Some (row_data :: rows)
        else
          customer_demand_loop max_str_digits table4_started header_cols_t4
            rest
      else
        customer_demand_loop max_str_digits table4_started header_cols_t4 rest
  end.

(** The four lists of records that the loops collect from the lines of
    a file; [None] when the fourth loop raises. *)
Record Parsed := {
  total_supply_data : list record;
  actual_build_data : list record;
  demand_forecast_data : list record;
  customer_demand_data : list record
}.

Definition parse_tables (max_str_digits : nat) (lines : list string)
  : option Parsed :=
  let t1 := total_supply_loop max_str_digits false lines in
  let t2 := actual_build_loop max_str_digits false lines in
  let t3 := demand_forecast_loop max_str_digits false [] lines in
  t4 ← customer_demand_loop max_str_digits false [] lines;
  Some {| total_supply_data := t1; actual_build_data := t2;
          demand_forecast_data := t3; customer_demand_data := t4 |}.

(** ** numpy's generator *)

(** [np.random.seed], [np.random.randint(low, high)],
    [np.random.normal(loc, scale)] and [np.random.uniform(low, high)] on
    the state of the global generator. *)
Class NumpyRandom (G : Type) := {
  seed : Z -> G;
  randint : Z -> Z -> G -> Z * G;
  normal : Q -> Q -> G -> Q * G;
  uniform : Q -> Q -> G -> Q * G
}.

(** What numpy promises of a draw: [low <= randint(low, high) < high]
    and [low <= uniform(low, high) <= high]. *)
Definition draws_in_range {G} `{NumpyRandom G} : Prop :=
  (∀ low high g, (low < high)%Z →
     (low <= (randint low high g).1 < high)%Z) ∧
  (∀ low high g, (low <= high)%Q →
     (low <= (uniform low high g).1)%Q ∧ ((uniform low high g).1 <= high)%Q).

(** A loop that appends one item per element and draws from the
    generator on the way. *)
Fixpoint draw_each {G A B} (l : list A) (body : A -> G -> B * G) (g : G)
  : list B * G :=
  match l with
  | [] => ([], g)
  | a :: l' =>
      let b := body a g in
      let bs := draw_each l' body b.2 in
      (b.1 :: bs.1, bs.2)
  end.

(** ** [_generate_mock_case2_data] *)

Definition mock_weeks : list string :=
  ["Jan-Wk1"; "Jan-Wk2"; "Jan-Wk3"; "Jan-Wk4"; "Jan-Wk5"].

Definition mock_products : list string :=
  ["Superman Plus"; "Dwarf Plus"; "Princess Plus"].

Definition mock_channels : list string :=
  ["Online Store"; "Retail Store"; "Reseller Partners"].

Definition mock_regions : list string := ["AMR"; "Europe"; "PAC"].

(** The demand of a (channel, region, week) before its random part. *)
Definition mock_base_demand (channel region week : string) : Z :=
  let base_demand := 100%Z in
  let base_demand :=
    if String.eqb channel "Online Store" then (base_demand + 20)%Z
    else if String.eqb channel "Reseller Partners" then (base_demand + 40)%Z
    else base_demand in
  let base_demand :=
    if String.eqb region "AMR" then (base_demand + 30)%Z
    else if String.eqb region "PAC" then (base_demand + 50)%Z
    else base_demand in
  if String.eqb week "Jan-Wk4" && String.eqb region "PAC"
  then (base_demand + 100)%Z
  else base_demand.

Definition number (n : Z) : value := VNum (inject_Z n).

(** 1. Total supply. *)
Definition mock_total_supply {G} `{NumpyRandom G} (g : G)
  : list record * G :=
  draw_each mock_weeks (λ week g,
    let supply := randint 800 1001 g in
    ([("week", VStr week); ("total_supply", number supply.1)], supply.2)) g.

(** 2. Actual build. *)
Definition mock_actual_build {G} `{NumpyRandom G} (g : G)
  : list record * G :=
  draw_each (week ← mock_weeks; product ← mock_products; [(week, product)])
    (λ wp g,
       let build :=
         if String.eqb wp.2 "Superman Plus" then randint 200 301 g
         else if String.eqb wp.2 "Dwarf Plus" then randint 150 251 g
         else randint 250 351 g in
       ([("week", VStr wp.1); ("product", VStr wp.2);
         ("actual_build", number build.1)], build.2)) g.

(** 3. Demand forecast, one wide row per product. *)
Definition mock_demand_forecast {G} `{NumpyRandom G} (g : G)
  : list record * G :=
  draw_each mock_products (λ product g,
    let cells := draw_each mock_weeks (λ week g,
      let demand :=
        if String.eqb product "Superman Plus" then randint 280 351 g
        else if String.eqb product "Dwarf Plus" then randint 200 281 g
        else randint 300 401 g in
      ((week, number demand.1), demand.2)) g in
    (foldl (λ row wd, dict_set wd.1 wd.2 row)
           [("product", VStr product)] cells.1, cells.2)) g.

(** 4. Customer demand, one wide row per channel and region. *)
Definition mock_customer_demand {G} `{NumpyRandom G} (g : G)
  : list record * G :=
  draw_each (channel ← mock_channels; region ← mock_regions;
             [(channel, region)])
    (λ cr g,
       let cells := draw_each mock_weeks (λ week g,
         let noise := normal 0 10 g in
         let demand :=
           int_of_float
             (inject_Z (mock_base_demand cr.1 cr.2 week) + noise.1) in
         let demand := Z.max 50 demand in
         ((week, number demand), noise.2)) g in
       (foldl (λ row wd, dict_set wd.1 wd.2 row)
              [("channel", VStr cr.1); ("region", VStr cr.2)] cells.1,
        cells.2)) g.

(** The four lists, drawn one after the other from the generator
    seeded with 42. *)
Definition mock_case2_tables {G} `{NumpyRandom G} : Parsed :=
  let t1 := mock_total_supply (seed 42) in
  let t2 := mock_actual_build t1.2 in
  let t3 := mock_demand_forecast t2.2 in
  let t4 := mock_customer_demand t3.2 in
  {| total_supply_data := t1.1; actual_build_data := t2.1;
     demand_forecast_data := t3.1; customer_demand_data := t4.1 |}.

Definition _generate_mock_case2_data {G} `{NumpyRandom G}
  : gmap string Frame :=
  let tables := mock_case2_tables in
  data_dict_of (total_supply_data tables) (actual_build_data tables)
    (demand_forecast_data tables) (customer_demand_data tables).

(** ** [load_case2_data], the whole function *)

(** The part of the file system that the loaders touch. *)
Record Disk := {
  CASE1_DATA_PATH : string;
  CASE2_DATA_PATH : string;
  (** [os.path.exists(path)] *)
  path_exists : string -> bool;
  (** [open(path, 'r').readlines()]; [None] when it raises *)
  readlines : string -> option (list string);
  (** [pd.read_csv(path, comment='#')]; [None] when it raises *)
  read_csv : string -> option Frame
}.

(** [file_path if file_path else default]: [None] and the empty text
    select the default. *)
Definition path_or (file_path : option string) (dflt : string) : string :=
  match file_path with
  | Some path => if String.eqb path "" then dflt else path
  | None => dflt
  end.

(** The messages a loader shows with [st.error] and [st.warning]. *)
Inductive Message :=
  | ErrorNoFile (path : string)
  | WarningNotParsed
  | ErrorLoading.

Definition load_case2_file {G} `{NumpyRandom G} (max_str_digits : nat)
  (disk : Disk) (file_path : option string)
  : list Message * gmap string Frame :=
  let path := path_or file_path (CASE2_DATA_PATH disk) in
  if negb (path_exists disk path)
  then ([ErrorNoFile path], _generate_mock_case2_data)
  else
    match readlines disk path with
    | None => ([ErrorLoading], _generate_mock_case2_data)
    | Some lines =>
        match parse_tables max_str_digits lines with
        | None => ([ErrorLoading], _generate_mock_case2_data)
        | Some t =>
            match load_case2_data (total_supply_data t) (actual_build_data t)
                    (demand_forecast_data t) (customer_demand_data t) with
            | (_, FromFile data_dict) => ([], data_dict)
            | (_, MockData) => ([WarningNotParsed], _generate_mock_case2_data)
            end
        end
    end.

(** [case2_app.py], lines 33 to 37: the page stops when the loaded
    tables do not validate. *)
Definition case2_app_load {G} `{NumpyRandom G} (max_str_digits : nat)
  (disk : Disk) : option (gmap string Frame) :=
  let data_dict := (load_case2_file max_str_digits disk None).2 in
  if negb (validate_case2_data data_dict) then None else Some data_dict.

(** ** The loaded tables as the optimizer reads them *)

Definition text_of (v : option value) : option string :=
  match v with
  | Some (VStr s) => Some s
  | _ => None
  end.

Definition number_of (v : option value) : option Q :=
  match v with
  | Some (VNum q) => Some q
  | _ => None
  end.

(** An identifying field of a row of Table 4; the field of a column that
    the frame lacks is never read. *)
Definition label_of (columns : list string) (col : string) (r : record)
  : option string :=
  if bool_decide (col ∈ columns) then text_of (dict_get col r) else Some "".

(** The dict of tables as the [Data] of the optimizer; [None] for tables
    that [Data] does not describe: a table that is missing (of the three
    that are subscripted), a week, product, channel or region that is
    not text, a supply or a build that is not a number. *)
Definition optimizer_input (data : gmap string Frame) : option Data :=
  supply ← data !! "total_supply";
  build ← data !! "actual_build";
  demand ← data !! "customer_demand";
  supply_rows ← mapM (λ r,
    week ← text_of (dict_get "week" r);
    total ← number_of (dict_get "total_supply" r);
    Some {| s_week := week; s_total_supply := total |}) (f_records supply);
  build_rows ← mapM (λ r,
    week ← text_of (dict_get "week" r);
    product ← text_of (dict_get "product" r);
    actual ← number_of (dict_get "actual_build" r);
    Some {| b_week := week; b_product := product; b_actual_build := actual |})
    (f_records build);
  demand_rows ← mapM (λ r,
    product ← label_of (f_columns demand) "product" r;
    channel ← label_of (f_columns demand) "channel" r;
    region ← label_of (f_columns demand) "region" r;
    Some {| d_product := product; d_channel := channel; d_region := region;
            d_cells := dict_of r |}) (f_records demand);
  Some {| total_supply_df := supply_rows;
          actual_build_df := build_rows;
          demand_forecast_df := f_columns <$> (data !! "demand_forecast");
          customer_demand_df :=
            {| d_columns := f_columns demand; d_rows := demand_rows |} |}.

(** ** [_generate_mock_case1_data], [validate_case1_data],
       [load_case1_data] *)

Definition mock_dates : list string :=
  ((λ i, "Jan-wk" +:+ str_of_nat i) <$> seq 1 4) ++
  ((λ i, "Dec-wk" +:+ str_of_nat i) <$> seq 1 4).

Definition mock_base_sales (product region date : string) : Z :=
  let base_sales := 100%Z in
  let base_sales :=
    if String.eqb product "Superman Plus" then (base_sales + 50)%Z
    else if String.eqb product "Princess Plus" && String.eqb region "PAC"
    then (base_sales + 70)%Z
    else base_sales in
  let base_sales :=
    if String.eqb region "AMR" then (base_sales + 30)%Z else base_sales in
  if contains "Dec" date then (base_sales + 20)%Z else base_sales.

Definition mock_base_price (product : string) : Z :=
  if String.eqb product "Superman Plus" then 999%Z
  else if String.eqb product "Dwarf Plus" then 699%Z
  else 899%Z.

Definition mock_new_tech (product date : string) : Z :=
  if String.eqb product "Superman Plus" && contains "Dec" date then 1%Z
  else 0%Z.

Definition mock_case1_records {G} `{NumpyRandom G} : list record :=
  let g := seed 42 in
  (draw_each (product ← mock_products; region ← mock_regions;
              date ← mock_dates; [(product, region, date)])
     (λ prd g,
        let product := prd.1.1 in
        let region := prd.1.2 in
        let date := prd.2 in
        let noise := normal 0 20 g in
        let sales :=
          int_of_float
            (inject_Z (mock_base_sales product region date) + noise.1) in
        let sales := Z.max 10 sales in
        let price_variance := uniform (-50) 50 noise.2 in
        let price :=
          int_of_float
            (inject_Z (mock_base_price product) + price_variance.1) in
        ([("date", VStr date); ("product", VStr product);
          ("region", VStr region); ("sales", number sales);
          ("price", number price);
          ("new_tech", number (mock_new_tech product date))],
         price_variance.2)) g).1.

Definition _generate_mock_case1_data {G} `{NumpyRandom G}
  : gmap string Frame :=
  dict_of [("historical_sales", DataFrame mock_case1_records)].

Definition validate_case1_data (data : gmap string Frame) : bool :=
  if negb (bool_decide (is_Some (data !! "historical_sales"))) then false
  else
    let required_columns := ["date"; "product"; "region"; "sales"; "price"] in
    let columns :=
      f_columns (default (DataFrame []) (data !! "historical_sales")) in
    if negb (forallb (λ col, bool_decide (col ∈ columns)) required_columns)
    then false
    else true.

Definition load_case1_data {G} `{NumpyRandom G} (disk : Disk)
  (file_path : option string) : list Message * gmap string Frame :=
  let path := path_or file_path (CASE1_DATA_PATH disk) in
  if negb (path_exists disk path)
  then ([ErrorNoFile path], _generate_mock_case1_data)
  else
    match read_csv disk path with
    | None => ([ErrorLoading], _generate_mock_case1_data)
    | Some df => ([], dict_of [("historical_sales", df)])
    end.

(** [load_data] of [case1_app.py] (lines 60 to 65): [None] when the
    loaded table does not validate. *)
Definition load_data {G} `{NumpyRandom G} (disk : Disk) : option Frame :=
  let data_dict := (load_case1_data disk None).2 in
  if negb (validate_case1_data data_dict) then None
  else data_dict !! "historical_sales".

(** ** The run step of [case2_supply_optimization.py] *)

(** Line 334: [(result_df['allocation'].sum() / result_df['demand'].sum())
    * 100]. *)
Definition overall_satisfaction (result_df : ResultFrame)
  : result (option Q) :=
  match filter (λ col, col ∉ r_columns result_df) ["allocation"; "demand"] with
  | col :: _ => raise (KeyError col)
  | [] =>
      ret ((λ ratio, (ratio * 100)%Q) <$>
           float_div (Qsum (r_allocation <$> r_rows result_df))
                     (Qsum (r_demand <$> r_rows result_df)))
  end.

(** What the page shows after a run: the views and the overall figure,
    or the error box for an empty table. *)
Inductive Shown :=
  | ShowResults (summary_stats : gmap string (list GroupRow))
                (overall : option Q) (result_df : ResultFrame)
  | ShowNoResult.

(** Lines 315 to 335 and 429 to 430. *)
Definition run_optimization
  (float_of_str : string -> option Q) (solve : LpProblem -> Solution)
  (data : Data)
  (product_priorities channel_priorities region_priorities : gmap string Z)
  (special_constraints : list (gmap string pyval)) : result Shown :=
  result_df ← optimize_supply_allocation float_of_str solve data
                 (Some product_priorities) (Some channel_priorities)
                 (Some region_priorities) (Some special_constraints);
  if negb (result_empty result_df) then
    summary_stats ← get_summary_stats result_df;
    overall ← overall_satisfaction result_df;
    ret (ShowResults summary_stats overall result_df)
  else ret ShowNoResult.

(** The default of a product's priority slider (line 125). *)
Definition slider_default_priority (product : string) : Z :=
  if contains "plus" (lower product) then 8%Z
  else if contains "mini" (lower product) then 3%Z
  else 5%Z.

(** ** Vocabulary of the statements, continued *)

(** The allocation that gives nothing to any cell. *)
Definition zero_allocation (ix : IndexSets) : gmap cell Q :=
  dict_of ((λ k, (k, 0%Q)) <$> all_cells ix).

(** A group row whose ratio is defined and lies above 0 and at most 1. *)
Definition well_served (g : GroupRow) : Prop :=
  ∃ s, g_satisfaction g = Some s ∧ (0 < s)%Q ∧ (s <= 1)%Q.

(** The lines of a file that the loops look at: stripped, without the
    blank lines and the comments. *)
Definition cleaned (lines : list string) : list string :=
  filter (λ line, skipped line = false) (strip <$> lines).

(** A data line: a line that no loop takes for a header.  Lines of
    Tables 1 and 2 carry a week label, so they must not mention
    [week] or [product]; lines of Tables 3 and 4 must not mention
    [Jan-Wk]. *)
Definition plain_row (line : string) : Prop :=
  contains "week" line = false ∧ contains "product" line = false.

Definition wide_row (line : string) : Prop :=
  contains "Jan-Wk" line = false.

(** The records that a loop collects from the data lines under one
    header. *)
Definition supply_records_of (max_str_digits : nat) (rows : list string)
  : list record :=
  rows ≫= (λ line, supply_record max_str_digits (split "," line)).

Definition build_records_of (max_str_digits : nat) (rows : list string)
  : list record :=
  rows ≫= (λ line, build_record max_str_digits (split "," line)).

Definition forecast_records_of (max_str_digits : nat) (header : string)
  (rows : list string) : list record :=
  rows ≫= (λ line,
    if (length (split "," header) <=? length (split "," line))%nat
    then [forecast_row max_str_digits (split "," header) (split "," line)]
    else []).

Definition demand_records_of (max_str_digits : nat) (header : string)
  (rows : list string) : option (list record) :=
  mapM (λ line, demand_record max_str_digits (split "," header)
                    (split "," line))
       (filter (λ line, (length (split "," header)
                           <= length (split "," line))%nat) rows).

(** Text that does not begin with a space. *)
Definition no_lead (space : ascii → bool) (s : string) : Prop :=
  match s with
  | EmptyString => True
  | String a _ => space a = false
  end.

(** A line as the loops see it once stripped: not blank, not a comment. *)
Definition clean (line : string) : Prop :=
  strip line = line ∧ skipped line = false.

(** The lines of a file in the layout of the example file, once
    cleaned: the header of each of the four tables followed by its data
    lines. *)
Record Layout := {
  supply_header : string;
  supply_rows : list string;
  build_header : string;
  build_rows : list string;
  forecast_header : string;
  forecast_rows : list string;
  customer_header : string;
  customer_rows : list string
}.

Definition layout_lines (f : Layout) : list string :=
  supply_header f :: supply_rows f ++
  build_header f :: build_rows f ++
  forecast_header f :: forecast_rows f ++
  customer_header f :: customer_rows f.

(** Every header passes the test of its table and not the test of a
    table whose loop reaches it; every data line is a data line. *)
Definition well_laid (f : Layout) : Prop :=
  is_supply_header (supply_header f) = true ∧
  is_build_header (supply_header f) = false ∧
  is_customer_header (supply_header f) = false ∧
  is_build_header (build_header f) = true ∧
  is_supply_header (build_header f) = false ∧
  is_customer_header (build_header f) = false ∧
  is_forecast_header (forecast_header f) = true ∧
  is_customer_header (forecast_header f) = false ∧
  is_customer_header (customer_header f) = true ∧
  Forall plain_row (supply_rows f ++ build_rows f) ∧
  Forall wide_row (forecast_rows f ++ customer_rows f).

(** ** Instances for the loader and the page

    A generator that always draws the lowest figure it may (and the
    mean of a normal law); its state counts the draws. *)

Global Instance lowest_draws : NumpyRandom nat := {|
  seed := λ _, 0%nat;
  randint := λ low high g, (low, S g);
  normal := λ loc scale g, (loc, S g);
  uniform := λ low high g, (low, S g)
|}.

(** A file in the layout of the example file, with one product, and the
    same file without its comments and blank lines. *)
Definition example_lines : list string :=
  ["# Table 1: total supply";
   "week,total_supply";
   "Jan-Wk1,30";
   "";
   "# Table 2: actual build";
   "week,product,actual_build";
   "Jan-Wk1,Phone Plus,30";
   "  # Table 3: demand forecast";
   "product,Jan-Wk1,Jan-Wk2";
   "Phone Plus,50,20";
   "product,channel,region,Jan-Wk1,Jan-Wk2";
   "Phone Plus,Online Store,AMR,50,20";
   "Phone Plus,Retail Store, PAC ,7";
   "   "].

Definition bare_lines : list string :=
  ["week,total_supply";
   "Jan-Wk1,30";
   "week,product,actual_build";
   "Jan-Wk1,Phone Plus,30";
   "product,Jan-Wk1,Jan-Wk2";
   "Phone Plus,50,20";
   "product,channel,region,Jan-Wk1,Jan-Wk2";
   "Phone Plus,Online Store,AMR,50,20";
   "Phone Plus,Retail Store, PAC ,7"].

Definition example_layout : Layout :=
  {| supply_header := "week,total_supply";
     supply_rows := ["Jan-Wk1,30"];
     build_header := "week,product,actual_build";
     build_rows := ["Jan-Wk1,Phone Plus,30"];
     forecast_header := "product,Jan-Wk1,Jan-Wk2";
     forecast_rows := ["Phone Plus,50,20"];
     customer_header := "product,channel,region,Jan-Wk1,Jan-Wk2";
     customer_rows := ["Phone Plus,Online Store,AMR,50,20";
                       "Phone Plus,Retail Store, PAC ,7"] |}.

(** The record of the one customer line that is wide enough. *)
Definition example_customer_records : list record :=
  [[("product", VStr "Phone Plus"); ("channel", VStr "Online Store");
    ("region", VStr "AMR"); ("Jan-Wk1", VNum 50); ("Jan-Wk2", VNum 20)]].

Definition example_parsed : Parsed :=
  {| total_supply_data := [[("week", VStr "Jan-Wk1"); ("total_supply", VNum 30)]];
     actual_build_data :=
       [[("week", VStr "Jan-Wk1"); ("product", VStr "Phone Plus");
         ("actual_build", VNum 30)]];
     demand_forecast_data :=
       [[("product", VStr "Phone Plus"); ("Jan-Wk1", VNum 50);
         ("Jan-Wk2", VNum 20)];
        [("product", VStr "Phone Plus"); ("channel", VStr "Online Store");
         ("region", VStr "AMR"); ("Jan-Wk1", VNum 50); ("Jan-Wk2", VNum 20)]];
     customer_demand_data := example_customer_records |}.

(** A disk that holds the example file at every path and no table for
    case 1. *)
Definition example_disk : Disk :=
  {| CASE1_DATA_PATH := "case1/data/case1_example.csv";
     CASE2_DATA_PATH := "case2/data/case2_example.csv";
     path_exists := λ _, true;
     readlines := λ _, Some example_lines;
     read_csv := λ _, None |}.

(** The priorities that the page passes for the small instance, and the
    model and the table of a run with the override for half of the
    demand. *)
Definition phone_product_priorities : gmap string Z :=
  dict_of [("Phone Plus", 8%Z)].

Definition phone_channel_priorities : gmap string Z :=
  dict_of [("Default", 1%Z); ("Online Store", 7%Z)].

Definition phone_region_priorities : gmap string Z :=
  dict_of [("Default", 1%Z); ("AMR", 1%Z)].

Definition phone_run_model : Model :=
  model_or_blank
    (lp_model no_text_number phone_data (Some phone_product_priorities)
       (Some phone_channel_priorities) (Some phone_region_priorities)
       (Some [half_override])).

(** The views of the result of the small instance. *)
Definition phone_summary : gmap string (list GroupRow) :=
  match get_summary_stats phone_result with
  | inr summary => summary
  | inl _ => ∅
  end.

Definition phone_week_view : list GroupRow :=
  default [] (phone_summary !! "week").

(** The small instance with an empty customer-demand table. *)
Definition demandless_data : Data :=
  {| total_supply_df := total_supply_df phone_data;
     actual_build_df := actual_build_df phone_data;
     demand_forecast_df := demand_forecast_df phone_data;
     customer_demand_df :=
       {| d_columns := ["product"; "channel"; "region"; "Jan-Wk1"];
          d_rows := [] |} |}.


(** * The summary over binary64 figures

    The columns demand, allocation and satisfaction of a result table hold
    binary64 numbers, and every addition of a sum is rounded.  Where two
    sums add the same figures in a different order the rounding shows, so
    the totals of the views of [get_summary_stats] are stated over the
    machine's numbers: this part is [get_summary_stats] once more, with
    [float] where the part above has [Q]. *)

Record FloatRow := {
  fl_product : string;
  fl_channel : string;
  fl_region : string;
  fl_week : string;
  fl_demand : float;
  fl_allocation : float;
  fl_satisfaction : float;
  fl_priority : Z
}.

Record FloatFrame := {
  fl_columns : list string;
  fl_rows : list FloatRow
}.

(** A row of a view: the group key and the three columns. *)
Record FloatGroup := {
  fg_key : list string;
  fg_demand : float;
  fg_allocation : float;
  fg_satisfaction : float
}.

(** The sum of a column, in an aggregation and as [Series.sum()]: the
    figures added one after the other from 0.0 on, in the order of the
    rows, every addition rounded to binary64. *)
Definition float_sum (l : list float) : float :=
  foldl PrimFloat.add 0%float l.

Definition fl_label (col : string) (row : FloatRow) : string :=
  if String.eqb col "product" then fl_product row
  else if String.eqb col "channel" then fl_channel row
  else if String.eqb col "region" then fl_region row
  else fl_week row.

Definition fl_group_key (cols : list string) (row : FloatRow) : list string :=
  (λ col, fl_label col row) <$> cols.

(** The aggregate of the rows that carry key [k]; the ratio is the
    division of binary64, which raises nothing. *)
Definition float_group_of (cols : list string) (rows : list FloatRow)
  (k : list string) : FloatGroup :=
  let grp := filter (λ row, fl_group_key cols row = k) rows in
  let d := float_sum (fl_demand <$> grp) in
  let a := float_sum (fl_allocation <$> grp) in
  {| fg_key := k; fg_demand := d; fg_allocation := a;
     fg_satisfaction := PrimFloat.div a d |}.

(** [df.groupby(cols).agg({"demand": "sum", "allocation": "sum"})] followed
    by [view["satisfaction"] = view["allocation"] / view["demand"]]. *)
Definition float_groupby (cols : list string) (df : FloatFrame)
  : result (list FloatGroup) :=
  match filter (λ col, col ∉ fl_columns df) (cols ++ ["demand"; "allocation"]) with
  | col :: _ => raise (KeyError col)
  | [] =>
      ret (float_group_of cols (fl_rows df)
             <$> merge_sort key_le
                   (remove_dups (fl_group_key cols <$> fl_rows df)))
  end.

(** [result_df.empty]. *)
Definition float_result_empty (df : FloatFrame) : bool :=
  is_nil (fl_rows df) || is_nil (fl_columns df).

Definition get_summary_stats_float (result_df : FloatFrame)
  : result (gmap string (list FloatGroup)) :=
  let summary : gmap string (list FloatGroup) := ∅ in
  if negb (float_result_empty result_df) then
    product_summary ← float_groupby ["product"] result_df;
    let summary := <["product" := product_summary]> summary in
    product_week_summary ← float_groupby ["product"; "week"] result_df;
    let summary := <["product_week" := product_week_summary]> summary in
    channel_region_summary ←
      float_groupby ["product"; "channel"; "region"] result_df;
    let summary := <["channel_region" := channel_region_summary]> summary in
    week_summary ← float_groupby ["week"] result_df;
    let summary := <["week" := week_summary]> summary in
    ret summary
  else ret summary.

(** ** Figures that add without rounding *)

(** The number that a finite binary64 stands for: its mantissa times the
    power of two of its exponent, with its sign. *)
Definition float_value (a : float) : Q :=
  match Prim2SF a with
  | S754_finite s m e =>
      ((if s then -1 else 1) * inject_Z (Z.pos m) * 2 ^ e)%Q
  | _ => 0%Q
  end.

(** Binary64 adds the figures of [fig] without rounding as long as the
    sum stays within [bound]: the figures are not negative, two of them
    whose sum is within the bound add to the figure that stands for the
    sum of their numbers, and no two of them stand for the same number.
    Whole numbers from 0.0 up to 2^53 are such figures. *)
Record adds_exactly (fig : float → Prop) (bound : Q) : Prop := {
  exact_zero : fig 0%float ∧ (float_value 0 == 0)%Q;
  exact_nonneg : ∀ a, fig a → (0 <= float_value a)%Q;
  exact_add : ∀ a b, fig a → fig b →
    (float_value a + float_value b <= bound)%Q →
    fig (PrimFloat.add a b) ∧
    (float_value (PrimFloat.add a b) == float_value a + float_value b)%Q;
  exact_inj : ∀ a b, fig a → fig b →
    (float_value a == float_value b)%Q → a = b
}.

(** A column of such figures whose total stays within the bound. *)
Definition within (fig : float → Prop) (bound : Q) (col : list float) : Prop :=
  Forall fig col ∧ (Qsum (float_value <$> col) <= bound)%Q.

(** ** Two small tables

    One product in one region through two channels: a row for the first
    week and two rows for the second, in the order of the loops of the
    optimizer, every demand served in full. *)
Definition three_rows (a b c : float) : FloatFrame :=
  {| fl_columns := result_columns;
     fl_rows :=
       [ {| fl_product := "Phone Plus"; fl_channel := "Online Store";
            fl_region := "AMR"; fl_week := "Jan-Wk1";
            fl_demand := a; fl_allocation := a;
            fl_satisfaction := PrimFloat.div a a; fl_priority := 56 |};
         {| fl_product := "Phone Plus"; fl_channel := "Online Store";
            fl_region := "AMR"; fl_week := "Jan-Wk2";
            fl_demand := b; fl_allocation := b;
            fl_satisfaction := PrimFloat.div b b; fl_priority := 56 |};
         {| fl_product := "Phone Plus"; fl_channel := "Retail Store";
            fl_region := "AMR"; fl_week := "Jan-Wk2";
            fl_demand := c; fl_allocation := c;
            fl_satisfaction := PrimFloat.div c c; fl_priority := 40 |} ] |}.

(** Demands of 10, 20 and 30 units. *)
Definition tens_frame : FloatFrame := three_rows 10 20 30.

(** Demands of 0.1, 0.2 and 0.3 units; none of them is a binary64
    number, each is rounded to the nearest one when it is read. *)
Definition tenths_frame : FloatFrame :=
  three_rows (PrimFloat.div 1 10) (PrimFloat.div 2 10) (PrimFloat.div 3 10).

(** The whole tens up to 60. *)
Definition tens : list float := [0; 10; 20; 30; 40; 50; 60]%float.

Definition is_tens (a : float) : Prop := a ∈ tens.

(** ** Priorities that list some entries only

    The small instance with no product listed, the online store at 3 and
    the region AMR at 2. *)
Definition tiered_product_priorities : gmap string Z := ∅.

Definition tiered_channel_priorities : gmap string Z :=
  dict_of [("Online Store", 3%Z)].

Definition tiered_region_priorities : gmap string Z :=
  dict_of [("AMR", 2%Z)].

Definition tiered_model : Model :=
  model_or_blank
    (lp_model no_text_number phone_data (Some tiered_product_priorities)
       (Some tiered_channel_priorities) (Some tiered_region_priorities) None).


(** * Proofs *)

(** ** The exception monad and its loops *)

Lemma bind_inr {A B} (m : result A) (k : A -> result B) (b : B) :
  m ≫= k = inr b → ∃ a, m = inr a ∧ k a = inr b.
Proof. destruct m as [e|a]; [discriminate | eauto]. Qed.

Lemma for_each_pure {A B} (l : list A) (body : A -> result (list B))
    (f : A -> list B) :
  (∀ a, a ∈ l → body a = inr (f a)) → for_each l body = inr (l ≫= f).
Proof.
  induction l as [|a l IH]; intros Hb; [reflexivity|].
  cbn [for_each]. rewrite (Hb a) by left.
  rewrite IH by (intros; apply Hb; by right). reflexivity.
Qed.

Lemma for_each_elem_of {A B} (l : list A) (body : A -> result (list B))
    (out : list B) (y : B) :
  for_each l body = inr out →
  y ∈ out ↔ ∃ a bs, a ∈ l ∧ body a = inr bs ∧ y ∈ bs.
Proof.
  revert out. induction l as [|a l IH]; intros out H; cbn [for_each] in H.
  - injection H as <-. split; [by intros ?%elem_of_nil|].
    by intros (? & ? & ?%elem_of_nil & _).
  - apply bind_inr in H as (bs & Hbs & H).
    apply bind_inr in H as (rest & Hrest & H). injection H as <-.
    rewrite elem_of_app, (IH _ Hrest). split.
    + intros [Hy | (a' & bs' & Ha' & Hb' & Hy)].
      * exists a, bs. by repeat split; [left|..].
      * exists a', bs'. by repeat split; [right|..].
    + intros (a' & bs' & [->|Ha']%elem_of_cons & Hb' & Hy).
      * left. congruence.
      * right. eauto.
Qed.

Lemma for_each_succeeds {A B} (l : list A) (body : A -> result (list B))
    (out : list B) (a : A) :
  for_each l body = inr out → a ∈ l → ∃ bs, body a = inr bs ∧ bs ⊆ out.
Proof.
  intros H Ha. revert out H. induction Ha as [a l | a b l Ha IH];
    intros out H; cbn [for_each] in H;
    apply bind_inr in H as (bs & Hbs & H);
    apply bind_inr in H as (rest & Hrest & H); injection H as <-.
  - exists bs. split; [done|]. intros y Hy. apply elem_of_app. by left.
  - destruct (IH _ Hrest) as (bs' & Hb' & Hsub). exists bs'. split; [done|].
    intros y Hy. apply elem_of_app. right. by apply Hsub.
Qed.

Lemma for_each_app {A B} (l1 l2 : list A) (body : A -> result (list B)) :
  for_each (l1 ++ l2) body =
  (o1 ← for_each l1 body; o2 ← for_each l2 body; ret (o1 ++ o2)).
Proof.
  induction l1 as [|a l1 IH]; cbn [for_each app].
  - destruct (for_each l2 body); reflexivity.
  - destruct (body a) as [e|bs]; [reflexivity|]. cbn.
    rewrite IH. destruct (for_each l1 body) as [e|o1]; [reflexivity|]. cbn.
    destruct (for_each l2 body) as [e|o2]; [reflexivity|]. cbn.
    unfold ret. by rewrite app_assoc.
Qed.

(** ** Dicts built by assignment *)

Section dict_of.
Context {K V : Type} `{Countable K}.

Lemma foldl_insert_lookup (l : list (K * V)) (m : gmap K V) (k : K) :
  foldl (λ m kv, <[kv.1 := kv.2]> m) m l !! k =
  match last (filter (λ kv, kv.1 = k) l) with
  | Some kv => Some kv.2
  | None => m !! k
  end.
Proof.
  revert m. induction l as [|[k' v'] l IH]; intros m; [reflexivity|].
  cbn [foldl]. rewrite IH. rewrite filter_cons. cbn [fst snd].
  destruct (decide (k' = k)) as [->|Hne].
  - rewrite last_cons. destruct (last _); [done|].
    by rewrite lookup_insert_eq.
  - destruct (last _); [done|]. by rewrite lookup_insert_ne.
Qed.

Lemma dict_of_lookup_Some (l : list (K * V)) (k : K) (v : V) :
  dict_of l !! k = Some v → (k, v) ∈ l.
Proof.
  unfold dict_of. rewrite foldl_insert_lookup.
  destruct (last _) as [[k' v']|] eqn:Hl; [|by rewrite lookup_empty].
  intros [= <-]. apply last_Some_elem_of in Hl.
  apply list_elem_of_filter in Hl as [Hk Hl]. cbn in Hk. by subst.
Qed.

Lemma dict_of_lookup_None (l : list (K * V)) (k : K) :
  k ∉ l.*1 → dict_of l !! k = None.
Proof.
  intros Hk. destruct (dict_of l !! k) as [v|] eqn:E; [|done].
  apply dict_of_lookup_Some in E. destruct Hk.
  apply list_elem_of_fmap. by exists (k, v).
Qed.

Lemma dict_of_fn_lookup (f : K → V) (ks : list K) (k : K) :
  dict_of ((λ k, (k, f k)) <$> ks) !! k =
  if decide (k ∈ ks) then Some (f k) else None.
Proof.
  destruct (decide (k ∈ ks)) as [Hk|Hk].
  - unfold dict_of. rewrite foldl_insert_lookup.
    destruct (last _) as [[k' v']|] eqn:Hl.
    + apply last_Some_elem_of in Hl.
      apply list_elem_of_filter in Hl as [Hk' Hl]. cbn in Hk'. subst k'.
      apply list_elem_of_fmap in Hl as (k'' & [= -> ->] & _). done.
    + apply last_None in Hl.
      assert ((k, f k) ∈ filter (λ kv : K * V, kv.1 = k)
                ((λ k, (k, f k)) <$> ks)) as Hin.
      { apply list_elem_of_filter. split; [done|].
        apply list_elem_of_fmap. eauto. }
      rewrite Hl in Hin. by apply elem_of_nil in Hin.
  - apply dict_of_lookup_None. rewrite <- list_fmap_compose.
    intros (k' & -> & Hk')%list_elem_of_fmap. done.
Qed.
End dict_of.

(** ** Sums of rationals *)

Lemma Qpos_iff (q : Q) : Qpos q = true ↔ (0 < q)%Q.
Proof.
  unfold Qpos, Qlt. cbn. rewrite Z.mul_1_r. apply Z.ltb_lt.
Qed.

Lemma Qpos_false (q : Q) : Qpos q = false ↔ (q <= 0)%Q.
Proof.
  unfold Qpos, Qle. cbn. rewrite Z.mul_1_r. apply Z.ltb_ge.
Qed.

Lemma Qsum_cons (a : Q) (l : list Q) : Qsum (a :: l) = (a + Qsum l)%Q.
Proof. reflexivity. Qed.

Lemma Qsum_app (l1 l2 : list Q) : (Qsum (l1 ++ l2) == Qsum l1 + Qsum l2)%Q.
Proof.
  induction l1 as [|a l1 IH].
  - change (Qsum l2 == 0 + Qsum l2)%Q. lra.
  - change (a + Qsum (l1 ++ l2) == a + Qsum l1 + Qsum l2)%Q. lra.
Qed.

Lemma Qsum_bind {A} (f : A → list Q) (l : list A) :
  (Qsum (l ≫= f) == Qsum ((λ a, Qsum (f a)) <$> l))%Q.
Proof.
  induction l as [|a l IH]; [reflexivity|].
  change (Qsum (f a ++ (l ≫= f)) ==
          Qsum (f a) + Qsum ((λ a, Qsum (f a)) <$> l))%Q.
  rewrite Qsum_app. lra.
Qed.

Lemma Qsum_le {A} (f g : A → Q) (l : list A) :
  (∀ a, a ∈ l → (f a <= g a)%Q) → (Qsum (f <$> l) <= Qsum (g <$> l))%Q.
Proof.
  induction l as [|a l IH]; intros Hfg; [cbn; lra|].
  assert (f a <= g a)%Q by (apply Hfg; left).
  assert (Qsum (f <$> l) <= Qsum (g <$> l))%Q
    by (apply IH; intros; apply Hfg; by right).
  rewrite !fmap_cons, !Qsum_cons. lra.
Qed.

Lemma Qsum_eq {A} (f g : A → Q) (l : list A) :
  (∀ a, a ∈ l → (f a == g a)%Q) → (Qsum (f <$> l) == Qsum (g <$> l))%Q.
Proof.
  intros Hfg. apply Qle_antisym; apply Qsum_le; intros a Ha;
    rewrite (Hfg a Ha); lra.
Qed.

Lemma Qsum_zero {A} (l : list A) : (Qsum ((λ _, 0%Q) <$> l) == 0)%Q.
Proof.
  induction l as [|a l IH]; [reflexivity|].
  rewrite fmap_cons, Qsum_cons. lra.
Qed.

(** A sum over distinct indices in which one index only may contribute. *)
Lemma Qsum_single {A} `{EqDecision A} (f : A → Q) (l : list A) (a0 : A) :
  NoDup l → a0 ∈ l → (∀ a, a ∈ l → a ≠ a0 → (f a == 0)%Q) →
  (Qsum (f <$> l) == f a0)%Q.
Proof.
  induction 1 as [|a l Hnin Hnd IH]; intros Hin Hz; [by apply elem_of_nil in Hin|].
  rewrite fmap_cons, Qsum_cons. destruct (decide (a = a0)) as [->|Hne].
  - assert (Qsum (f <$> l) == Qsum ((λ _, 0%Q) <$> l))%Q as E.
    { apply Qsum_eq. intros a Ha. apply Hz; [by right|]. congruence. }
    pose proof (Qsum_zero l). lra.
  - apply elem_of_cons in Hin as [->|Hin]; [done|].
    assert (f a == 0)%Q by (apply Hz; [left|done]).
    assert (Qsum (f <$> l) == f a0)%Q
      by (apply IH; [done|]; intros; apply Hz; [by right|done]).
    lra.
Qed.

(** ** Lists *)

Lemma elem_of_concat {A} (ls : list (list A)) (x : A) :
  x ∈ concat ls ↔ ∃ l, x ∈ l ∧ l ∈ ls.
Proof.
  induction ls as [|l ls IH]; cbn.
  - split; [by intros ?%elem_of_nil | by intros (? & _ & ?%elem_of_nil)].
  - rewrite elem_of_app, IH. split.
    + intros [H | (l' & H & H')]; [exists l | exists l'];
        (split; [done|]); [left | by right].
    + intros (l' & H & [->|H']%elem_of_cons); [by left | right; eauto].
Qed.


(** ** Index sets *)

Lemma elem_of_all_triples (ix : IndexSets) (p c r : string) :
  (p, c, r) ∈ all_triples ix ↔
  p ∈ products ix ∧ c ∈ channels ix ∧ r ∈ regions ix.
Proof.
  unfold all_triples. rewrite list_elem_of_bind. split.
  - intros (p' & (c' & (r' & [= -> -> ->]%list_elem_of_singleton & Hr)
             %list_elem_of_bind & Hc)%list_elem_of_bind & Hp). done.
  - intros (Hp & Hc & Hr). exists p. split; [|done].
    apply list_elem_of_bind. exists c. split; [|done].
    apply list_elem_of_bind. exists r. split; [|done]. by left.
Qed.

Lemma elem_of_all_cells (ix : IndexSets) (p c r w : string) :
  (p, c, r, w) ∈ all_cells ix ↔
  p ∈ products ix ∧ c ∈ channels ix ∧ r ∈ regions ix ∧ w ∈ weeks ix.
Proof.
  unfold all_cells. rewrite list_elem_of_bind. split.
  - intros (p' & (c' & (r' & (w' & [= -> -> -> ->]%list_elem_of_singleton & Hw)
             %list_elem_of_bind & Hr)%list_elem_of_bind & Hc)
             %list_elem_of_bind & Hp). done.
  - intros (Hp & Hc & Hr & Hw). exists p. split; [|done].
    apply list_elem_of_bind. exists c. split; [|done].
    apply list_elem_of_bind. exists r. split; [|done].
    apply list_elem_of_bind. exists w. split; [|done]. by left.
Qed.

(** The cells are the triples crossed with the weeks, in loop order. *)
Lemma all_cells_triples (ix : IndexSets) :
  all_cells ix = t ← all_triples ix; w ← weeks ix; [(t, w)].
Proof.
  unfold all_cells, all_triples.
  induction (products ix) as [|p ps IHp]; [reflexivity|].
  cbn [mbind list_bind]. rewrite bind_app. f_equal; [|exact IHp].
  clear IHp. induction (channels ix) as [|c cs IHc]; [reflexivity|].
  cbn [mbind list_bind]. rewrite bind_app. f_equal; [|exact IHc].
  clear IHc. induction (regions ix) as [|r rs IHr]; [reflexivity|].
  cbn [mbind list_bind]. rewrite bind_app. f_equal; [|exact IHr].
  cbn. by rewrite app_nil_r.
Qed.

Lemma bind_singleton_fmap {A B} (f : A → B) (l : list A) :
  l ≫= (λ a, [f a]) = f <$> l.
Proof. induction l as [|a l IH]; [reflexivity|]. cbn. by f_equal. Qed.

Lemma x_lookup (cells : list cell) (k : cell) :
  LpVariable_dicts cells !! k =
  if decide (k ∈ cells) then Some (allocation_var k) else None.
Proof. apply dict_of_fn_lookup. Qed.

Lemma subscript_x (cells : list cell) (k : cell) :
  k ∈ cells → subscript "x" (LpVariable_dicts cells) k = inr (allocation_var k).
Proof.
  intros Hk. unfold subscript. rewrite x_lookup, decide_True by done. done.
Qed.

Lemma subscript_x_inv (cells : list cell) (k : cell) (v : LpVariable) :
  subscript "x" (LpVariable_dicts cells) k = inr v →
  k ∈ cells ∧ v = allocation_var k.
Proof.
  unfold subscript. rewrite x_lookup. case_decide; [|discriminate].
  intros [= <-]. done.
Qed.

(** ** The loops produce the lists of the pure description *)

Lemma supply_constraints_pure (ix : IndexSets) (total_supply : gmap string Q) :
  supply_constraints ix total_supply (LpVariable_dicts (all_cells ix)) =
  inr (w ← weeks ix;
       match total_supply !! w with
       | Some s => [supply_cap ix w s]
       | None => []
       end).
Proof.
  unfold supply_constraints. apply for_each_pure. intros w Hw.
  destruct (total_supply !! w) as [s|]; [|reflexivity].
  erewrite (for_each_pure _ _ (λ t : triple, [(1%Q, allocation_var (t, w))])).
  - cbn. unfold supply_cap. by rewrite bind_singleton_fmap.
  - intros [[p c] r] Ht. apply elem_of_all_triples in Ht as (Hp & Hc & Hr).
    rewrite subscript_x; [reflexivity|]. by apply elem_of_all_cells.
Qed.

Lemma demand_constraints_pure (ix : IndexSets) (demand : gmap cell Q) :
  demand_constraints ix demand (LpVariable_dicts (all_cells ix)) =
  inr (k ← all_cells ix;
       match demand !! k with
       | Some d => [demand_cap k d]
       | None => []
       end).
Proof.
  unfold demand_constraints. apply for_each_pure. intros k Hk.
  destruct (demand !! k) as [d|]; [|reflexivity].
  by rewrite subscript_x.
Qed.

Lemma priority_lookup (ix : IndexSets) (pp cp rp : gmap string Z) (t : triple) :
  priority_dict ix pp cp rp !! t =
  if decide (t ∈ all_triples ix) then Some (composite_priority pp cp rp t)
  else None.
Proof. apply dict_of_fn_lookup. Qed.

Lemma result_rows_pure (m : Model) (vals : gmap cell Q) :
  m_x m = LpVariable_dicts (all_cells (m_ix m)) →
  result_rows m vals =
  inr (all_cells (m_ix m) ≫= row_at (m_demand m) (m_priority m) vals).
Proof.
  intros Hx. unfold result_rows. apply for_each_pure.
  intros [[[p c] r] w] Hk. unfold row_at. cbv beta iota.
  destruct (m_demand m !! (p, c, r, w)) as [d|]; [|reflexivity].
  destruct (Qpos d) eqn:Hd; [|reflexivity].
  rewrite Hx, subscript_x by done. cbn.
  destruct (vals !! (p, c, r, w)) as [a|]; [|reflexivity].
  destruct (Qpos a); reflexivity.
Qed.


(** ** What a built model consists of *)

Section model.
Context (float_of_str : string → option Q) (data : Data).
Context (product_priorities channel_priorities region_priorities
           : option (gmap string Z)).
Context (special_constraints : option (list (gmap string pyval))).
Context (m : Model).
Context (Hm : lp_model float_of_str data product_priorities
                channel_priorities region_priorities special_constraints
              = inr m).

Lemma model_parts :
  index_sets data = inr (m_ix m) ∧
  m_supply m = supply_dict (total_supply_df data) ∧
  m_demand m = demand_dict float_of_str (m_ix m) (customer_demand_df data) ∧
  m_priority m =
    priority_dict (m_ix m)
      (product_priorities_or_default (m_ix m) product_priorities)
      (channel_priorities_or_default channel_priorities)
      (region_priorities_or_default (m_ix m) region_priorities) ∧
  m_x m = LpVariable_dicts (all_cells (m_ix m)) ∧
  ∃ c3,
    special_constraints_of (m_demand m) (m_x m) special_constraints
      = inr c3 ∧
    objective_terms (m_ix m) (m_demand m) (m_priority m) (m_x m)
      = inr (objective (m_prob m)) ∧
    constraints (m_prob m) =
      (w ← weeks (m_ix m);
       match m_supply m !! w with
       | Some s => [supply_cap (m_ix m) w s]
       | None => []
       end) ++
      (k ← all_cells (m_ix m);
       match m_demand m !! k with
       | Some d => [demand_cap k d]
       | None => []
       end) ++ c3.
Proof.
  pose proof Hm as H. unfold lp_model in H.
  apply bind_inr in H as (ix & Hix & H).
  apply bind_inr in H as (obj & Hobj & H).
  rewrite supply_constraints_pure, demand_constraints_pure in H. cbn in H.
  apply bind_inr in H as (c3 & Hc3 & H). injection H as <-. cbn.
  repeat split; try done. exists c3. done.
Qed.

Lemma model_x : m_x m = LpVariable_dicts (all_cells (m_ix m)).
Proof. apply model_parts. Qed.

Lemma model_supply_cap (w : string) (s : Q) :
  w ∈ weeks (m_ix m) → m_supply m !! w = Some s →
  supply_cap (m_ix m) w s ∈ constraints (m_prob m).
Proof.
  intros Hw Hs. destruct model_parts as (_ & _ & _ & _ & _ & c3 & _ & _ & ->).
  apply elem_of_app. left. apply list_elem_of_bind. exists w.
  rewrite Hs. split; [by left|done].
Qed.

Lemma model_demand_cap (k : cell) (d : Q) :
  k ∈ all_cells (m_ix m) → m_demand m !! k = Some d →
  demand_cap k d ∈ constraints (m_prob m).
Proof.
  intros Hk Hd. destruct model_parts as (_ & _ & _ & _ & _ & c3 & _ & _ & ->).
  apply elem_of_app. right. apply elem_of_app. left.
  apply list_elem_of_bind. exists k. rewrite Hd. split; [by left|done].
Qed.

(** An override that passes the guard leaves its floor in the program,
    and its cell is one of the index space. *)
Lemma model_override_floor (cs : list (gmap string pyval))
    (c : gmap string pyval) (k : cell) (d q : Q) :
  special_constraints = Some cs → c ∈ cs →
  forallb truthy (override_fields c) = true →
  override_cell c = Some k →
  m_demand m !! k = Some d → (0 < d)%Q →
  py_get c "satisfaction_rate" (PyNum 1) = PyNum q →
  k ∈ all_cells (m_ix m) ∧
  override_floor k (q * d) ∈ constraints (m_prob m).
Proof.
  intros Hsc Hc Htruthy Hcell Hd Hpos Hrate.
  destruct model_parts as (_ & _ & _ & _ & Hx & c3 & Hc3 & _ & ->).
  unfold special_constraints_of in Hc3. rewrite Hsc in Hc3.
  assert (for_each cs (special_constraint (m_demand m) (m_x m)) = inr c3)
    as Hloop.
  { destruct cs; [by apply elem_of_nil in Hc|done]. }
  destruct (for_each_succeeds _ _ _ _ Hloop Hc) as (bs & Hbs & Hsub).
  unfold special_constraint in Hbs. unfold override_fields in Htruthy.
  unfold override_cell in Hcell.
  rewrite Htruthy, Hcell, Hd in Hbs. apply Qpos_iff in Hpos.
  rewrite Hpos, Hrate in Hbs.
  apply bind_inr in Hbs as (v & Hv & Hbs). rewrite Hx in Hv.
  apply subscript_x_inv in Hv as [Hk ->]. cbn in Hbs. injection Hbs as <-.
  split; [done|]. rewrite !elem_of_app. right. right. apply Hsub. by left.
Qed.

(** ** The result of a solve *)

Lemma results_of_optimal (sol : Solution) :
  status sol = Optimal →
  results_of m sol =
  inr {| r_columns := result_columns;
         r_rows := all_cells (m_ix m) ≫=
                     row_at (m_demand m) (m_priority m) (var_values sol) |}.
Proof.
  intros Hs. unfold results_of. rewrite Hs.
  rewrite (result_rows_pure _ _ model_x). cbn.
  by destruct (all_cells (m_ix m) ≫= _).
Qed.

Lemma results_of_not_optimal (sol : Solution) :
  status sol ≠ Optimal → results_of m sol = inr empty_result.
Proof. intros Hs. unfold results_of. by destruct (status sol). Qed.

Lemma optimize_unfold (solve : LpProblem → Solution) :
  optimize_supply_allocation float_of_str solve data product_priorities
    channel_priorities region_priorities special_constraints
  = results_of m (solve (m_prob m)).
Proof. unfold optimize_supply_allocation. by rewrite Hm. Qed.
End model.

(** ** Rows of the result *)

Lemma elem_of_row_at (demand : gmap cell Q) (priority : gmap triple Z)
    (vals : gmap cell Q) (k : cell) (row : ResultRow) :
  row ∈ row_at demand priority vals k →
  r_key row = k ∧
  demand !! k = Some (r_demand row) ∧ (0 < r_demand row)%Q ∧
  vals !! k = Some (r_allocation row) ∧ (0 < r_allocation row)%Q ∧
  r_satisfaction row = (r_allocation row / r_demand row)%Q ∧
  r_priority row = default 1%Z (priority !! k.1).
Proof.
  unfold row_at. destruct (demand !! k) as [d|]; [|by intros ?%elem_of_nil].
  destruct (Qpos d) eqn:Hd; [|by intros ?%elem_of_nil].
  destruct (vals !! k) as [a|]; [|by intros ?%elem_of_nil].
  destruct (Qpos a) eqn:Ha; [|by intros ?%elem_of_nil].
  intros ->%list_elem_of_singleton. cbn. apply Qpos_iff in Hd, Ha.
  destruct k as [[[p c] r] w]. done.
Qed.

Lemma row_at_intro (demand : gmap cell Q) (priority : gmap triple Z)
    (vals : gmap cell Q) (k : cell) (d a : Q) :
  demand !! k = Some d → (0 < d)%Q → vals !! k = Some a → (0 < a)%Q →
  ∃ row, row_at demand priority vals k = [row] ∧ r_key row = k ∧
         r_demand row = d ∧ r_allocation row = a.
Proof.
  intros Hd Hdp Ha Hap. unfold row_at. apply Qpos_iff in Hdp, Hap.
  rewrite Hd, Hdp, Ha, Hap. eexists. split; [done|].
  destruct k as [[[p c] r] w]. done.
Qed.

(** ** Consequences of feasibility *)

Lemma eval_expr_singleton (vals : gmap cell Q) (k : cell) :
  (eval_expr vals [(1%Q, allocation_var k)] == default 0%Q (vals !! k))%Q.
Proof. unfold eval_expr, value_of. cbn. lra. Qed.

Lemma feasible_holds (prob : LpProblem) (vals : gmap cell Q) (c : LpConstraint) :
  feasible prob vals → c ∈ constraints prob → holds vals c.
Proof. intros [_ H] Hc. by eapply Forall_forall in H. Qed.

Lemma feasible_in_bounds (prob : LpProblem) (vals : gmap cell Q)
    (c : LpConstraint) (t : Q * LpVariable) :
  feasible prob vals → c ∈ constraints prob → t ∈ c_expr c →
  in_bounds vals t.2.
Proof.
  intros [H _] Hc Ht. eapply Forall_forall in H; [done|].
  unfold variables. apply elem_of_app. right.
  apply elem_of_concat. exists ((c_expr c).*2). split.
  - apply list_elem_of_fmap. by exists t.
  - apply list_elem_of_fmap. by exists c.
Qed.

(** Under the demand cap a variable has a value between 0 and the demand
    of its cell. *)
Lemma feasible_demand_cap (prob : LpProblem) (vals : gmap cell Q)
    (k : cell) (d : Q) :
  feasible prob vals → demand_cap k d ∈ constraints prob →
  ∃ a, vals !! k = Some a ∧ (0 <= a)%Q ∧ (a <= d)%Q.
Proof.
  intros Hf Hc.
  destruct (feasible_in_bounds _ _ _ (1%Q, allocation_var k) Hf Hc)
    as (a & Ha & Hlow); [by left|].
  cbn in Ha, Hlow. exists a. repeat split; [done..|].
  pose proof (feasible_holds _ _ _ Hf Hc) as Hh.
  unfold holds, demand_cap in Hh. cbn [c_sense c_expr c_rhs] in Hh.
  rewrite eval_expr_singleton, Ha in Hh. done.
Qed.


(** ** Every cell of the index space has a demand entry *)

Lemma add_demand_row_is_Some (float_of_str : string → option Q)
    (columns ws : list string) (dem : gmap cell Q) (row : DemandRow) (k : cell) :
  is_Some (dem !! k) →
  is_Some (add_demand_row float_of_str columns ws dem row !! k).
Proof.
  unfold add_demand_row. revert dem.
  induction ws as [|w ws IH]; intros dem Hk; [done|].
  cbn [foldl]. apply IH.
  destruct (_ && _); [|done]. destruct (to_float _ _); [|done].
  rewrite lookup_insert. case_decide; [by eexists|done].
Qed.

Lemma demand_dict_is_Some (float_of_str : string → option Q) (ix : IndexSets)
    (cd : DemandFrame) (k : cell) :
  k ∈ all_cells ix → is_Some (demand_dict float_of_str ix cd !! k).
Proof.
  intros Hk. unfold demand_dict.
  assert (is_Some (dict_of ((λ k, (k, 0%Q)) <$> all_cells ix) !! k)) as H0.
  { rewrite dict_of_fn_lookup, decide_True by done. by eexists. }
  destruct (negb _); [|done]. revert H0.
  generalize (dict_of ((λ k : cell, (k, 0%Q)) <$> all_cells ix)).
  induction (d_rows cd) as [|row rows IH]; intros dem Hd; [done|].
  cbn [foldl]. apply IH. by apply add_demand_row_is_Some.
Qed.

(** ** Every variable of the program is the variable of a capped cell *)

Lemma objective_terms_vars (ix : IndexSets) (demand : gmap cell Q)
    (priority : gmap triple Z) (obj : list (Q * LpVariable)) (t : Q * LpVariable) :
  objective_terms ix demand priority (LpVariable_dicts (all_cells ix)) = inr obj →
  t ∈ obj →
  ∃ k d, k ∈ all_cells ix ∧ demand !! k = Some d ∧ t.2 = allocation_var k.
Proof.
  intros Hobj Ht. unfold objective_terms in Hobj.
  apply (for_each_elem_of _ _ _ t Hobj) in Ht
    as ([[[p c] r] w] & bs & Hk & Hb & Ht).
  cbv beta iota in Hb. destruct (demand !! (p, c, r, w)) as [d|] eqn:Hd;
    [|injection Hb as <-; by apply elem_of_nil in Ht].
  destruct (Qpos d); [|injection Hb as <-; by apply elem_of_nil in Ht].
  apply bind_inr in Hb as (pr & _ & Hb).
  apply bind_inr in Hb as (v & Hv & Hb). injection Hb as <-.
  apply subscript_x_inv in Hv as [_ ->].
  apply list_elem_of_singleton in Ht as ->. by exists (p, c, r, w), d.
Qed.

Lemma special_constraint_vars (demand : gmap cell Q) (cells : list cell)
    (c : gmap string pyval) (bs : list LpConstraint) (lc : LpConstraint)
    (t : Q * LpVariable) :
  special_constraint demand (LpVariable_dicts cells) c = inr bs →
  lc ∈ bs → t ∈ c_expr lc →
  ∃ k d, k ∈ cells ∧ demand !! k = Some d ∧ t.2 = allocation_var k.
Proof.
  unfold special_constraint. intros Hb Hlc Ht.
  destruct (forallb _ _); [|injection Hb as <-; by apply elem_of_nil in Hlc].
  destruct (py_cell _ _ _ _) as [k|];
    [|injection Hb as <-; by apply elem_of_nil in Hlc].
  destruct (demand !! k) as [d|] eqn:Hd;
    [|injection Hb as <-; by apply elem_of_nil in Hlc].
  destruct (Qpos d); [|injection Hb as <-; by apply elem_of_nil in Hlc].
  apply bind_inr in Hb as (v & Hv & Hb).
  apply bind_inr in Hb as (fl & _ & Hb). injection Hb as <-.
  apply subscript_x_inv in Hv as [Hk ->].
  apply list_elem_of_singleton in Hlc as ->. cbn in Ht.
  apply list_elem_of_singleton in Ht as ->. by exists k, d.
Qed.

Lemma special_constraints_of_for_each (demand : gmap cell Q)
    (x : gmap cell LpVariable) (cs : list (gmap string pyval)) :
  special_constraints_of demand x (Some cs) =
  for_each cs (special_constraint demand x).
Proof. by destruct cs. Qed.

Section variables_capped.
Context (float_of_str : string → option Q) (data : Data).
Context (product_priorities channel_priorities region_priorities
           : option (gmap string Z)).
Context (special_constraints : option (list (gmap string pyval))).
Context (m : Model).
Context (Hm : lp_model float_of_str data product_priorities
                channel_priorities region_priorities special_constraints
              = inr m).

Lemma model_variables (v : LpVariable) :
  v ∈ variables (m_prob m) →
  ∃ k d, v = allocation_var k ∧ k ∈ all_cells (m_ix m) ∧
         m_demand m !! k = Some d.
Proof.
  destruct (model_parts _ _ _ _ _ _ _ Hm)
    as (_ & _ & Hdem & _ & Hx & c3 & Hc3 & Hobj & Hcs).
  unfold variables. rewrite elem_of_app, elem_of_concat.
  intros [Hv | (l & Hv & Hl)].
  - apply list_elem_of_fmap in Hv as (t & -> & Ht). rewrite Hx in Hobj.
    destruct (objective_terms_vars _ _ _ _ _ Hobj Ht) as (k & d & ? & ? & ?).
    by exists k, d.
  - apply list_elem_of_fmap in Hl as (lc & -> & Hlc).
    apply list_elem_of_fmap in Hv as (t & -> & Ht).
    rewrite Hcs, !elem_of_app in Hlc. destruct Hlc as [Hlc | [Hlc | Hlc]].
    + apply list_elem_of_bind in Hlc as (w & Hlc & Hw).
      destruct (m_supply m !! w) as [s|]; [|by apply elem_of_nil in Hlc].
      apply list_elem_of_singleton in Hlc as ->. cbn in Ht.
      apply list_elem_of_fmap in Ht as ([[p c] r] & -> & Htr). cbn.
      apply elem_of_all_triples in Htr as (Hp & Hc & Hr).
      assert ((p, c, r, w) ∈ all_cells (m_ix m)) as Hk
        by by apply elem_of_all_cells.
      destruct (demand_dict_is_Some float_of_str (m_ix m)
                  (customer_demand_df data) _ Hk) as [d Hd].
      exists (p, c, r, w), d. by rewrite Hdem.
    + apply list_elem_of_bind in Hlc as (k & Hlc & Hk).
      destruct (m_demand m !! k) as [d|] eqn:Hd; [|by apply elem_of_nil in Hlc].
      apply list_elem_of_singleton in Hlc as ->. cbn in Ht.
      apply list_elem_of_singleton in Ht as ->. by exists k, d.
    + destruct special_constraints as [cs|];
        [|injection Hc3 as <-; by apply elem_of_nil in Hlc].
      rewrite special_constraints_of_for_each in Hc3.
      apply (for_each_elem_of _ _ _ lc Hc3) in Hlc as (c & bs & _ & Hb & Hlc).
      rewrite Hx in Hb.
      destruct (special_constraint_vars _ _ _ _ _ _ Hb Hlc Ht)
        as (k & d & ? & ? & ?).
      by exists k, d.
Qed.
End variables_capped.

(** ** Rows stay within demand *)

Lemma rows_within_demand
    (float_of_str : string → option Q) (solve : LpProblem → Solution)
    (data : Data) (pp cp rp : option (gmap string Z))
    (sc : option (list (gmap string pyval))) (m : Model) (df : ResultFrame)
    (row : ResultRow) :
  lp_model float_of_str data pp cp rp sc = inr m →
  solver_sound solve (m_prob m) →
  optimize_supply_allocation float_of_str solve data pp cp rp sc = inr df →
  row ∈ r_rows df → (r_allocation row <= r_demand row)%Q.
Proof.
  intros Hm Hsound Hopt Hrow.
  rewrite (optimize_unfold _ _ _ _ _ _ _ Hm) in Hopt.
  destruct (decide (status (solve (m_prob m)) = Optimal)) as [Hs|Hs].
  - rewrite (results_of_optimal _ _ _ _ _ _ _ Hm _ Hs) in Hopt.
    injection Hopt as <-. cbn in Hrow.
    apply list_elem_of_bind in Hrow as (k & Hrow & Hk).
    apply elem_of_row_at in Hrow as (_ & Hd & _ & Ha & _).
    pose proof (model_demand_cap _ _ _ _ _ _ _ Hm _ _ Hk Hd) as Hcap.
    destruct (feasible_demand_cap _ _ _ _ (Hsound Hs) Hcap)
      as (a & Ha' & _ & Hle).
    rewrite Ha in Ha'. by injection Ha' as <-.
  - rewrite (results_of_not_optimal _ _ Hs) in Hopt. injection Hopt as <-.
    by apply elem_of_nil in Hrow.
Qed.

(** ** C2 *)

(** C2.  Under the solver's contract every row of the returned table has
    allocation at most demand, and every decision variable of the linear
    program is the variable of a cell and carries the constraint
    [x <= demand] of that cell. *)
Theorem allocation_within_demand
    (float_of_str : string → option Q) (solve : LpProblem → Solution)
    (data : Data) (pp cp rp : option (gmap string Z))
    (sc : option (list (gmap string pyval))) (m : Model) (df : ResultFrame) :
  lp_model float_of_str data pp cp rp sc = inr m →
  solver_sound solve (m_prob m) →
  optimize_supply_allocation float_of_str solve data pp cp rp sc = inr df →
  (∀ row, row ∈ r_rows df → (r_allocation row <= r_demand row)%Q) ∧
  (∀ v, v ∈ variables (m_prob m) →
     ∃ k d, v = allocation_var k ∧ m_demand m !! k = Some d ∧
            demand_cap k d ∈ constraints (m_prob m)).
Proof.
  intros Hm Hsound Hopt. split.
  - intros row Hrow. by eapply rows_within_demand.
  - intros v Hv.
    destruct (model_variables _ _ _ _ _ _ _ Hm _ Hv) as (k & d & -> & Hk & Hd).
    exists k, d. repeat split; [done|]. by eapply model_demand_cap.
Qed.

(** ** C4 *)

(** C4.  Once the program is built, a solve that ends in any status other
    than Optimal makes the function return the empty table with the
    standard columns, without raising; so does, under the solver's
    contract, every program that has no feasible point. *)
Theorem non_optimal_returns_empty
    (float_of_str : string → option Q) (solve : LpProblem → Solution)
    (data : Data) (pp cp rp : option (gmap string Z))
    (sc : option (list (gmap string pyval))) (m : Model) :
  lp_model float_of_str data pp cp rp sc = inr m →
  (status (solve (m_prob m)) ≠ Optimal ∨
   (solver_sound solve (m_prob m) ∧ ∀ vals, ¬ feasible (m_prob m) vals)) →
  optimize_supply_allocation float_of_str solve data pp cp rp sc
  = inr {| r_columns := result_columns; r_rows := [] |}.
Proof.
  intros Hm H. rewrite (optimize_unfold _ _ _ _ _ _ _ Hm).
  apply results_of_not_optimal. destruct H as [H | [Hsound Hinf]]; [done|].
  intros Hs. exact (Hinf _ (Hsound Hs)).
Qed.


(** ** The index sets have no repeated label *)

Lemma elem_of_unique (l : list string) (a : string) : a ∈ unique l ↔ a ∈ l.
Proof.
  induction l as [|b l IH]; [done|]. cbn [unique].
  rewrite !elem_of_cons, list_elem_of_filter, IH.
  destruct (decide (a = b)) as [->|Hne].
  - split; intros _; by left.
  - split; [intros [?|[_ ?]]; [done|by right] | intros [?|?]; [done|by right]].
Qed.

Lemma NoDup_unique (l : list string) : NoDup (unique l).
Proof.
  induction l as [|a l IH]; [constructor|]. cbn [unique]. constructor.
  - intros [Hne _]%list_elem_of_filter. done.
  - by apply NoDup_filter.
Qed.

Lemma elem_of_sorted_set (l : list string) (a : string) :
  a ∈ sorted_set l ↔ a ∈ l.
Proof.
  unfold sorted_set. rewrite merge_sort_Permutation. apply elem_of_remove_dups.
Qed.

Lemma NoDup_sorted_set (l : list string) : NoDup (sorted_set l).
Proof.
  unfold sorted_set. rewrite merge_sort_Permutation. apply NoDup_remove_dups.
Qed.

Lemma index_sets_NoDup (data : Data) (ix : IndexSets) :
  index_sets data = inr ix → distinct_labels data →
  NoDup (products ix) ∧ NoDup (channels ix) ∧ NoDup (regions ix) ∧
  NoDup (weeks ix).
Proof.
  intros Hix [Hcols Hfc]. unfold index_sets in Hix.
  apply bind_inr in Hix as (ps & _ & Hix).
  apply bind_inr in Hix as (cs & _ & Hix).
  apply bind_inr in Hix as (rs & _ & Hix). injection Hix as <-. cbn.
  repeat split; try apply NoDup_sorted_set.
  destruct (negb (demand_empty _)); [by apply NoDup_filter|].
  destruct (negb (is_nil _)); [apply NoDup_unique | by apply NoDup_filter].
Qed.

Lemma NoDup_all_cells (ix : IndexSets) :
  NoDup (products ix) → NoDup (channels ix) → NoDup (regions ix) →
  NoDup (weeks ix) → NoDup (all_cells ix).
Proof.
  intros Hp Hc Hr Hw. unfold all_cells.
  apply NoDup_bind; [| |done].
  { intros p1 p2 k _ _ H1 H2.
    apply list_elem_of_bind in H1 as (? & (? & (? & ->%list_elem_of_singleton & _)
      %list_elem_of_bind & _)%list_elem_of_bind & _).
    apply list_elem_of_bind in H2 as (? & (? & (? & [= -> _ _ _]%list_elem_of_singleton & _)
      %list_elem_of_bind & _)%list_elem_of_bind & _). done. }
  intros p _. apply NoDup_bind; [| |done].
  { intros c1 c2 k _ _ H1 H2.
    apply list_elem_of_bind in H1 as (? & (? & ->%list_elem_of_singleton & _)
      %list_elem_of_bind & _).
    apply list_elem_of_bind in H2 as (? & (? & [= -> _ _]%list_elem_of_singleton & _)
      %list_elem_of_bind & _). done. }
  intros c _. apply NoDup_bind; [| |done].
  { intros r1 r2 k _ _ H1 H2.
    apply list_elem_of_bind in H1 as (? & ->%list_elem_of_singleton & _).
    apply list_elem_of_bind in H2 as (? & [= -> _]%list_elem_of_singleton & _).
    done. }
  intros r _. apply NoDup_bind; [| |done].
  { intros w1 w2 k _ _ ->%list_elem_of_singleton [= ->]%list_elem_of_singleton.
    done. }
  intros w _. apply NoDup_singleton.
Qed.

(** ** Summing a column of the result by week *)

Lemma Qsum_filter_bind {A} (P : ResultRow → Prop) `{∀ row, Decision (P row)}
    (col : ResultRow → Q) (g : A → list ResultRow) (l : list A) :
  (Qsum (col <$> filter P (l ≫= g)) ==
   Qsum ((λ a, Qsum (col <$> filter P (g a))) <$> l))%Q.
Proof.
  induction l as [|a l IH]; [reflexivity|].
  rewrite bind_cons, filter_app, fmap_app, Qsum_app, fmap_cons, Qsum_cons, IH.
  reflexivity.
Qed.

Lemma Qsum_fmap_bind {A B} (f : B → Q) (h : A → list B) (l : list A) :
  (Qsum (f <$> (l ≫= h)) == Qsum ((λ a, Qsum (f <$> h a)) <$> l))%Q.
Proof.
  induction l as [|a l IH]; [reflexivity|].
  rewrite bind_cons, fmap_app, Qsum_app, fmap_cons, Qsum_cons, IH. reflexivity.
Qed.

Section week_sum.
Context (demand : gmap cell Q) (priority : gmap triple Z).
Context (vals : gmap cell Q) (ix : IndexSets) (w : string).
Context (Hnd : NoDup (weeks ix)) (Hw : w ∈ weeks ix).

Abbreviation share := (week_share demand priority vals w).

Lemma share_other_week (k : cell) : k.2 ≠ w → (share k == 0)%Q.
Proof.
  intros Hk. unfold week_share.
  destruct (filter _ _) as [|row rows] eqn:Hf; [reflexivity|].
  assert (row ∈ filter (λ row, r_week row = w)
            (row_at demand priority vals k)) as Hin by (rewrite Hf; left).
  apply list_elem_of_filter in Hin as [Hweek Hin].
  apply elem_of_row_at in Hin as (Hkey & _). destruct Hk.
  rewrite <- Hkey. done.
Qed.

Lemma share_le (k : cell) :
  in_bounds vals (allocation_var k) →
  (share k <= default 0%Q (vals !! k))%Q.
Proof.
  intros (a & Ha & Hlow). cbn in Ha, Hlow. rewrite Ha. cbn.
  unfold week_share.
  destruct (filter _ _) as [|row rows] eqn:Hf; [done|].
  assert (∀ row', row' ∈ row :: rows → row_at demand priority vals k = [row'])
    as Hone.
  { intros row' Hin. rewrite <- Hf in Hin.
    apply list_elem_of_filter in Hin as [_ Hin]. revert Hin. unfold row_at.
    repeat (case_match; try by intros ?%elem_of_nil).
    by intros ->%list_elem_of_singleton. }
  pose proof (Hone row ltac:(left)) as Hrow. rewrite Hrow in Hf.
  assert (row ∈ row_at demand priority vals k) as Hin by (rewrite Hrow; left).
  apply elem_of_row_at in Hin as (_ & _ & _ & Ha' & _).
  rewrite Ha in Ha'. injection Ha' as ->.
  rewrite filter_cons, filter_nil in Hf. case_decide; [|done].
  injection Hf as <-. cbn. lra.
Qed.

(** The rows of week [w] sum to at most the left side of the supply
    cap of [w]. *)
Lemma week_rows_le_cap :
  (∀ t, t ∈ all_triples ix → in_bounds vals (allocation_var (t, w))) →
  (Qsum (r_allocation <$>
           filter (λ row, r_week row = w)
             (all_cells ix ≫= row_at demand priority vals))
   <= eval_expr vals (c_expr (supply_cap ix w 0)))%Q.
Proof.
  intros Hb. rewrite Qsum_filter_bind.
  change (λ a, Qsum (r_allocation <$>
                       filter (λ row, r_week row = w)
                         (row_at demand priority vals a)))
    with (week_share demand priority vals w).
  rewrite all_cells_triples, Qsum_fmap_bind.
  unfold eval_expr, supply_cap. cbn [c_expr].
  rewrite <- list_fmap_compose. apply Qsum_le. intros t Ht. cbn.
  unfold value_of. cbn [var_name allocation_var].
  rewrite bind_singleton_fmap, <- list_fmap_compose.
  rewrite (Qsum_single _ _ w Hnd Hw).
  - cbn. pose proof (share_le (t, w) (Hb t Ht)). lra.
  - intros w' _ Hne. cbn. by apply share_other_week.
Qed.
End week_sum.

(** ** C1 *)

(** C1, as the code has it.  For a week that occurs in the demand data
    and in the supply table, the allocations of the returned rows of
    that week sum to at most the supply of the week.  For a week that
    the supply table lacks no supply constraint is stated: the sum is
    bounded by the demand of the rows of that week, and by nothing
    else. *)
Theorem supply_cap_respected
    (float_of_str : string → option Q) (solve : LpProblem → Solution)
    (data : Data) (pp cp rp : option (gmap string Z))
    (sc : option (list (gmap string pyval))) (m : Model) (df : ResultFrame)
    (w : string) :
  distinct_labels data →
  lp_model float_of_str data pp cp rp sc = inr m →
  solver_sound solve (m_prob m) →
  optimize_supply_allocation float_of_str solve data pp cp rp sc = inr df →
  w ∈ weeks (m_ix m) →
  match m_supply m !! w with
  | Some s =>
      (status (solve (m_prob m)) = Optimal ∨ (0 <= s)%Q) →
      (week_allocation df w <= s)%Q
  | None =>
      (∀ c, c ∈ constraints (m_prob m) → c_sense c = LE →
            (∃ w' s', m_supply m !! w' = Some s' ∧ c = supply_cap (m_ix m) w' s')
            ∨ (∃ k d, m_demand m !! k = Some d ∧ c = demand_cap k d)) ∧
      (week_allocation df w <= week_demand df w)%Q
  end.
Proof.
  intros Hlabels Hm Hsound Hopt Hw.
  destruct (model_parts _ _ _ _ _ _ _ Hm)
    as (Hix & _ & _ & _ & Hx & c3 & Hc3 & _ & Hcs).
  destruct (index_sets_NoDup _ _ Hix Hlabels) as (_ & _ & _ & Hnd).
  pose proof Hopt as Hopt'.
  rewrite (optimize_unfold _ _ _ _ _ _ _ Hm) in Hopt.
  destruct (m_supply m !! w) as [s|] eqn:Hs.
  - intros Hcase.
    destruct (decide (status (solve (m_prob m)) = Optimal)) as [Hst|Hst].
    + rewrite (results_of_optimal _ _ _ _ _ _ _ Hm _ Hst) in Hopt.
      injection Hopt as <-. unfold week_allocation. cbn [r_rows].
      pose proof (Hsound Hst) as Hf.
      pose proof (model_supply_cap _ _ _ _ _ _ _ Hm _ _ Hw Hs) as Hcap.
      eapply Qle_trans.
      * apply week_rows_le_cap; [done..|]. intros t Ht.
        apply (feasible_in_bounds _ _ _ (1%Q, allocation_var (t, w)) Hf Hcap).
        cbn. apply list_elem_of_fmap. by exists t.
      * apply (feasible_holds _ _ _ Hf) in Hcap. exact Hcap.
    + rewrite (results_of_not_optimal _ _ Hst) in Hopt. injection Hopt as <-.
      destruct Hcase as [?|Hs0]; [done|]. exact Hs0.
  - split.
    + intros c Hc Hle. rewrite Hcs, !elem_of_app in Hc.
      destruct Hc as [Hc | [Hc | Hc]].
      * left. apply list_elem_of_bind in Hc as (w' & Hc & _).
        destruct (m_supply m !! w') as [s'|] eqn:Hs';
          [|by apply elem_of_nil in Hc].
        apply list_elem_of_singleton in Hc as ->. by exists w', s'.
      * right. apply list_elem_of_bind in Hc as (k & Hc & _).
        destruct (m_demand m !! k) as [d|] eqn:Hd;
          [|by apply elem_of_nil in Hc].
        apply list_elem_of_singleton in Hc as ->. by exists k, d.
      * exfalso. destruct sc as [cs|];
          [|injection Hc3 as <-; by apply elem_of_nil in Hc].
        rewrite special_constraints_of_for_each in Hc3.
        apply (for_each_elem_of _ _ _ c Hc3) in Hc as (o & bs & _ & Hb & Hc).
        unfold special_constraint in Hb.
        repeat (case_match; try (injection Hb as <-; by apply elem_of_nil in Hc)).
        apply bind_inr in Hb as (v & _ & Hb).
        apply bind_inr in Hb as (fl & _ & Hb). injection Hb as <-.
        apply list_elem_of_singleton in Hc as ->. done.
    + unfold week_allocation, week_demand. apply Qsum_le. intros row Hrow.
      apply list_elem_of_filter in Hrow as [_ Hrow].
      by apply (rows_within_demand _ _ _ _ _ _ _ _ _ _ Hm Hsound Hopt').
Qed.


(** ** The allocation a result gives to a cell *)

Lemma allocation_of_rows (demand : gmap cell Q) (priority : gmap triple Z)
    (vals : gmap cell Q) (cells : list cell) (k : cell) (d a : Q) :
  k ∈ cells → demand !! k = Some d → (0 < d)%Q →
  vals !! k = Some a → (0 <= a)%Q →
  (allocation_of {| r_columns := result_columns;
                    r_rows := cells ≫= row_at demand priority vals |} k
   == a)%Q.
Proof.
  intros Hk Hd Hdp Ha Hap. unfold allocation_of. cbn [r_rows].
  destruct (filter _ _) as [|row rows] eqn:Hf.
  - destruct (Qlt_le_dec 0 a) as [Hpos|Hle]; [|lra].
    destruct (row_at_intro demand priority vals k d a Hd Hdp Ha Hpos)
      as (row & Hrow & Hkey & _).
    assert (row ∈ filter (λ row, r_key row = k)
              (cells ≫= row_at demand priority vals)) as Hin.
    { apply list_elem_of_filter. split; [done|].
      apply list_elem_of_bind. exists k. rewrite Hrow. split; [by left|done]. }
    rewrite Hf in Hin. by apply elem_of_nil in Hin.
  - assert (row ∈ filter (λ row, r_key row = k)
              (cells ≫= row_at demand priority vals)) as Hin
      by (rewrite Hf; left).
    apply list_elem_of_filter in Hin as [Hkey Hin].
    apply list_elem_of_bind in Hin as (k' & Hin & _).
    apply elem_of_row_at in Hin as (Hkey' & _ & _ & Ha' & _).
    rewrite Hkey in Hkey'. subst k'. rewrite Ha in Ha'.
    injection Ha' as ->. reflexivity.
Qed.

(** ** C3 *)

(** C3, as the code has it.  An override record passes the guard when its
    four identifying fields are all truthy; for such a record whose cell
    has demand above 0, the allocation that an optimal result gives to
    the cell is at least rate times demand.  A record with a falsy field,
    or whose cell has no positive demand, adds no constraint. *)
Theorem override_floor_met
    (float_of_str : string → option Q) (solve : LpProblem → Solution)
    (data : Data) (pp cp rp : option (gmap string Z))
    (cs : list (gmap string pyval)) (m : Model) (df : ResultFrame)
    (c : gmap string pyval) (k : cell) (q : Q) :
  lp_model float_of_str data pp cp rp (Some cs) = inr m →
  solver_sound solve (m_prob m) →
  status (solve (m_prob m)) = Optimal →
  optimize_supply_allocation float_of_str solve data pp cp rp (Some cs)
    = inr df →
  c ∈ cs →
  override_cell c = Some k →
  py_get c "satisfaction_rate" (PyNum 1) = PyNum q →
  (forallb truthy (override_fields c) = true →
   ∀ d, m_demand m !! k = Some d → (0 < d)%Q →
        (q * d <= allocation_of df k)%Q) ∧
  (forallb truthy (override_fields c) = false ∨
   m_demand m !! k = None ∨
   (∃ d, m_demand m !! k = Some d ∧ (d <= 0)%Q) →
   special_constraint (m_demand m) (m_x m) c = inr []).
Proof.
  intros Hm Hsound Hst Hopt Hc Hcell Hrate. split.
  - intros Htruthy d Hd Hpos.
    destruct (model_override_floor _ _ _ _ _ _ _ Hm cs c k d q
                eq_refl Hc Htruthy Hcell Hd Hpos Hrate) as [Hk Hfloor].
    pose proof (Hsound Hst) as Hf.
    pose proof (model_demand_cap _ _ _ _ _ _ _ Hm _ _ Hk Hd) as Hcap.
    destruct (feasible_demand_cap _ _ _ _ Hf Hcap) as (a & Ha & Ha0 & _).
    apply (feasible_holds _ _ _ Hf) in Hfloor.
    unfold holds, override_floor in Hfloor.
    cbn [c_sense c_expr c_rhs] in Hfloor.
    rewrite eval_expr_singleton, Ha in Hfloor. cbn in Hfloor.
    rewrite (optimize_unfold _ _ _ _ _ _ _ Hm) in Hopt.
    rewrite (results_of_optimal _ _ _ _ _ _ _ Hm _ Hst) in Hopt.
    injection Hopt as <-.
    rewrite (allocation_of_rows _ _ _ _ k d a Hk Hd Hpos Ha Ha0). done.
  - unfold special_constraint. unfold override_fields, override_cell in *.
    intros [Hfalsy | [Hnone | (d & Hd & Hle)]].
    + by rewrite Hfalsy.
    + rewrite Hcell, Hnone. by destruct (forallb _ _).
    + rewrite Hcell, Hd. apply Qpos_false in Hle. rewrite Hle.
      by destruct (forallb _ _).
Qed.

(** ** C5 *)

Lemma NoDup_keys_bind (g : cell → list ResultRow) (l : list cell) :
  NoDup l →
  (∀ k row, row ∈ g k → g k = [row] ∧ r_key row = k) →
  NoDup (r_key <$> (l ≫= g)).
Proof.
  intros Hnd Hg. induction Hnd as [|k l Hk Hnd IH]; [constructor|].
  rewrite bind_cons, fmap_app. apply NoDup_app. split_and!.
  - destruct (g k) as [|row rows] eqn:E; [constructor|].
    destruct (Hg k row) as [Hone _]; [rewrite E; left|].
    rewrite E in Hone. injection Hone as ->. apply NoDup_singleton.
  - intros k' (row & -> & Hrow)%list_elem_of_fmap
      (row' & Hkey & (k'' & Hrow' & Hk'')%list_elem_of_bind)%list_elem_of_fmap.
    destruct (Hg _ _ Hrow) as [_ <-]. destruct (Hg _ _ Hrow') as [_ <-].
    by rewrite Hkey in Hk.
  - exact IH.
Qed.

Lemma row_at_single (demand : gmap cell Q) (priority : gmap triple Z)
    (vals : gmap cell Q) (k : cell) (row : ResultRow) :
  row ∈ row_at demand priority vals k →
  row_at demand priority vals k = [row] ∧ r_key row = k.
Proof.
  intros Hrow. split; [|by apply elem_of_row_at in Hrow as [? _]].
  revert Hrow. unfold row_at.
  repeat (case_match; try by intros ?%elem_of_nil).
  by intros ->%list_elem_of_singleton.
Qed.

Lemma cell_has_variable
    (float_of_str : string → option Q)
    (data : Data) (pp cp rp : option (gmap string Z))
    (sc : option (list (gmap string pyval))) (m : Model) (k : cell) :
  lp_model float_of_str data pp cp rp sc = inr m →
  k ∈ all_cells (m_ix m) →
  is_Some (m_x m !! k) ∧ allocation_var k ∈ variables (m_prob m).
Proof.
  intros Hm Hk.
  destruct (model_parts _ _ _ _ _ _ _ Hm) as (_ & _ & Hdem & _ & Hx & _).
  split.
  { rewrite Hx, x_lookup, decide_True by done. by eexists. }
  destruct (demand_dict_is_Some float_of_str (m_ix m)
              (customer_demand_df data) _ Hk) as [d Hd].
  rewrite <- Hdem in Hd.
  pose proof (model_demand_cap _ _ _ _ _ _ _ Hm _ _ Hk Hd) as Hcap.
  unfold variables. apply elem_of_app. right. apply elem_of_concat.
  exists ((c_expr (demand_cap k d)).*2). split; [by left|].
  apply list_elem_of_fmap. by exists (demand_cap k d).
Qed.

(** C5, as the code has it.  Every cell of the index space gets a
    decision variable, the cells with demand 0 included; the bounds of
    such a cell fix it at 0.  The result table has exactly one row for
    each cell with demand above 0 and a solver value above 0, and no
    other row: a cell with zero demand or with zero allocation has no
    row. *)
Theorem one_row_per_positive_cell
    (float_of_str : string → option Q) (solve : LpProblem → Solution)
    (data : Data) (pp cp rp : option (gmap string Z))
    (sc : option (list (gmap string pyval))) (m : Model) (df : ResultFrame) :
  distinct_labels data →
  lp_model float_of_str data pp cp rp sc = inr m →
  solver_sound solve (m_prob m) →
  optimize_supply_allocation float_of_str solve data pp cp rp sc = inr df →
  (∀ k, k ∈ all_cells (m_ix m) →
        is_Some (m_x m !! k) ∧ allocation_var k ∈ variables (m_prob m)) ∧
  (status (solve (m_prob m)) = Optimal →
   ∀ k d, k ∈ all_cells (m_ix m) → m_demand m !! k = Some d → (d == 0)%Q →
          ∃ a, var_values (solve (m_prob m)) !! k = Some a ∧ (a == 0)%Q) ∧
  NoDup (r_key <$> r_rows df) ∧
  (∀ row, row ∈ r_rows df →
     r_key row ∈ all_cells (m_ix m) ∧
     m_demand m !! r_key row = Some (r_demand row) ∧ (0 < r_demand row)%Q ∧
     var_values (solve (m_prob m)) !! r_key row = Some (r_allocation row) ∧
     (0 < r_allocation row)%Q) ∧
  (status (solve (m_prob m)) = Optimal →
   ∀ k d a, k ∈ all_cells (m_ix m) →
     m_demand m !! k = Some d → (0 < d)%Q →
     var_values (solve (m_prob m)) !! k = Some a → (0 < a)%Q →
     ∃ row, row ∈ r_rows df ∧ r_key row = k ∧
            r_demand row = d ∧ r_allocation row = a).
Proof.
  intros Hlabels Hm Hsound Hopt.
  destruct (model_parts _ _ _ _ _ _ _ Hm)
    as (Hix & _ & Hdem & _ & Hx & _).
  destruct (index_sets_NoDup _ _ Hix Hlabels) as (Hp & Hc & Hr & Hw).
  rewrite (optimize_unfold _ _ _ _ _ _ _ Hm) in Hopt.
  split_and!.
  - intros k Hk. by eapply cell_has_variable.
  - intros Hst k d Hk Hd Hd0.
    pose proof (model_demand_cap _ _ _ _ _ _ _ Hm _ _ Hk Hd) as Hcap.
    destruct (feasible_demand_cap _ _ _ _ (Hsound Hst) Hcap)
      as (a & Ha & Ha0 & Had).
    exists a. split; [done|]. lra.
  - destruct (decide (status (solve (m_prob m)) = Optimal)) as [Hst|Hst].
    + rewrite (results_of_optimal _ _ _ _ _ _ _ Hm _ Hst) in Hopt.
      injection Hopt as <-. cbn [r_rows]. apply NoDup_keys_bind.
      * by apply NoDup_all_cells.
      * intros k row. apply row_at_single.
    + rewrite (results_of_not_optimal _ _ Hst) in Hopt. injection Hopt as <-.
      constructor.
  - intros row Hrow.
    destruct (decide (status (solve (m_prob m)) = Optimal)) as [Hst|Hst].
    + rewrite (results_of_optimal _ _ _ _ _ _ _ Hm _ Hst) in Hopt.
      injection Hopt as <-. cbn [r_rows] in Hrow.
      apply list_elem_of_bind in Hrow as (k & Hrow & Hk).
      apply elem_of_row_at in Hrow as (<- & ? & ? & ? & ? & _). done.
    + rewrite (results_of_not_optimal _ _ Hst) in Hopt. injection Hopt as <-.
      by apply elem_of_nil in Hrow.
  - intros Hst k d a Hk Hd Hdp Ha Hap.
    rewrite (results_of_optimal _ _ _ _ _ _ _ Hm _ Hst) in Hopt.
    injection Hopt as <-. cbn [r_rows].
    destruct (row_at_intro (m_demand m) (m_priority m) _ k d a
                Hd Hdp Ha Hap) as (row & Hrow & Hkey & Hrd & Hra).
    exists row. split_and!; [|done..].
    apply list_elem_of_bind. exists k. rewrite Hrow. split; [by left|done].
Qed.

(** ** C6 *)

(** C6.  The priority of every triple of the index space is the product
    of three weights, one from each of the three priority maps: the value
    that the map holds for the product, the channel and the region, and
    for an entry that its map lacks 5 for a product and 1 for a channel
    or a region.  The maps are those of the caller, each replaced by the
    default map of the function where the caller passes none.  None of
    the defaults 5 and 1 is 0. *)
Theorem composite_priority_is_product
    (float_of_str : string → option Q)
    (data : Data) (pp cp rp : option (gmap string Z))
    (sc : option (list (gmap string pyval))) (m : Model) (p c r : string) :
  lp_model float_of_str data pp cp rp sc = inr m →
  p ∈ products (m_ix m) → c ∈ channels (m_ix m) → r ∈ regions (m_ix m) →
  m_priority m !! (p, c, r) =
    Some (default 5
            (default (default_product_priorities (products (m_ix m))) pp
               !! p) *
          default 1 (default default_channel_priorities cp !! c) *
          default 1
            (default (default_region_priorities (regions (m_ix m))) rp
               !! r))%Z ∧
  (5 ≠ 0)%Z ∧ (1 ≠ 0)%Z.
Proof.
  intros Hm Hp Hc Hr.
  destruct (model_parts _ _ _ _ _ _ _ Hm) as (_ & _ & _ & Hprio & _).
  split_and!; try done.
  rewrite Hprio, priority_lookup, decide_True; [done|].
  by apply elem_of_all_triples.
Qed.

(** ** C10 *)

Lemma special_constraint_falsy (demand : gmap cell Q)
    (x : gmap cell LpVariable) (c : gmap string pyval) :
  forallb truthy (override_fields c) = false →
  special_constraint demand x c = inr [].
Proof.
  intros H. unfold special_constraint. unfold override_fields in H.
  by rewrite H.
Qed.

Lemma for_each_skip {A B} (l1 l2 : list A) (a : A)
    (body : A → result (list B)) :
  body a = inr [] → for_each (l1 ++ a :: l2) body = for_each (l1 ++ l2) body.
Proof.
  intros Ha. rewrite !for_each_app. cbn [for_each]. rewrite Ha. cbn.
  destruct (for_each l1 body) as [e|o1]; [done|]. cbn.
  by destruct (for_each l2 body).
Qed.

Lemma lp_model_ext (float_of_str : string → option Q) (data : Data)
    (pp cp rp : option (gmap string Z))
    (sc1 sc2 : option (list (gmap string pyval))) :
  (∀ demand x, special_constraints_of demand x sc1 =
               special_constraints_of demand x sc2) →
  lp_model float_of_str data pp cp rp sc1 =
  lp_model float_of_str data pp cp rp sc2.
Proof.
  intros H. unfold lp_model.
  destruct (index_sets data) as [e|ix]; [done|].
  cbn -[special_constraints_of].
  destruct (objective_terms _ _ _ _) as [e|obj]; [done|].
  cbn -[special_constraints_of].
  destruct (supply_constraints _ _ _) as [e|c1]; [done|].
  cbn -[special_constraints_of].
  destruct (demand_constraints _ _ _) as [e|c2]; [done|].
  cbn -[special_constraints_of]. by rewrite H.
Qed.

(** C10.  An override record one of whose fields product, channel, region
    or week is missing, [None], empty or otherwise falsy yields no
    constraint: the linear program built with the record in the list is
    the program built without it, and so is the returned table, whatever
    the solver. *)
Theorem falsy_override_is_skipped
    (float_of_str : string → option Q) (solve : LpProblem → Solution)
    (data : Data) (pp cp rp : option (gmap string Z))
    (cs1 cs2 : list (gmap string pyval)) (bad : gmap string pyval) :
  forallb truthy (override_fields bad) = false →
  (∀ demand x, special_constraint demand x bad = inr []) ∧
  lp_model float_of_str data pp cp rp (Some (cs1 ++ bad :: cs2)) =
  lp_model float_of_str data pp cp rp (Some (cs1 ++ cs2)) ∧
  optimize_supply_allocation float_of_str solve data pp cp rp
    (Some (cs1 ++ bad :: cs2)) =
  optimize_supply_allocation float_of_str solve data pp cp rp
    (Some (cs1 ++ cs2)).
Proof.
  intros Hbad.
  assert (lp_model float_of_str data pp cp rp (Some (cs1 ++ bad :: cs2)) =
          lp_model float_of_str data pp cp rp (Some (cs1 ++ cs2))) as Heq.
  { apply lp_model_ext. intros demand x.
    rewrite !special_constraints_of_for_each.
    apply for_each_skip. by apply special_constraint_falsy. }
  split_and!; [|done|].
  - intros demand x. by apply special_constraint_falsy.
  - unfold optimize_supply_allocation. by rewrite Heq.
Qed.


(** ** Grouped views *)

Lemma groupby_standard (cols : list string) (df : ResultFrame) :
  r_columns df = result_columns →
  cols ⊆ ["product"; "channel"; "region"; "week"] →
  groupby cols df =
  inr (group_of cols (r_rows df)
         <$> merge_sort key_le (remove_dups (group_key cols <$> r_rows df))).
Proof.
  intros Hcols Hsub. unfold groupby. rewrite Hcols.
  assert (filter (λ col, col ∉ result_columns)
            (cols ++ ["demand"; "allocation"]) = []) as ->; [|done].
  rewrite filter_app.
  assert (filter (λ col, col ∉ result_columns) cols = []) as ->; [|done].
  induction cols as [|col cols IH]; [done|].
  rewrite filter_cons. rewrite decide_False.
  - apply IH. intros x Hx. apply Hsub. by right.
  - intros Hnot. apply Hnot. assert (col ∈ ["product"; "channel"; "region"; "week"])
      as Hin by (apply Hsub; left).
    unfold result_columns.
    repeat (apply elem_of_cons in Hin as [->|Hin]; [compute_done|]).
    by apply elem_of_nil in Hin.
Qed.

Lemma groupby_grouped_view (cols : list string) (rows : list ResultRow) :
  grouped_view cols rows
    (group_of cols rows
       <$> merge_sort key_le (remove_dups (group_key cols <$> rows))).
Proof.
  assert (∀ l : list (list string), g_key <$> (group_of cols rows <$> l) = l)
    as Hkeys.
  { intros l. rewrite <- list_fmap_compose. rewrite <- (list_fmap_id l) at 2.
    by apply list_fmap_ext. }
  unfold grouped_view. rewrite Hkeys. split_and!.
  - rewrite merge_sort_Permutation. apply NoDup_remove_dups.
  - intros k. rewrite merge_sort_Permutation, elem_of_remove_dups.
    rewrite list_elem_of_fmap. split.
    + intros (row & -> & Hrow). by exists row.
    + intros (row & Hrow & <-). by exists row.
  - intros g (k & -> & _)%list_elem_of_fmap. done.
Qed.

(** Summing the group totals over distinct keys that cover the rows
    gives the total of the column. *)
Lemma Qsum_plus {A} (f g : A → Q) (l : list A) :
  (Qsum ((λ a, f a + g a) <$> l) == Qsum (f <$> l) + Qsum (g <$> l))%Q.
Proof.
  induction l as [|a l IH]; [cbn; lra|].
  rewrite !fmap_cons, !Qsum_cons, IH. lra.
Qed.

Lemma Qsum_groups {A K} `{EqDecision K} (key : A → K)
    (col : A → Q) (keys : list K) (rows : list A) :
  NoDup keys → (∀ row, row ∈ rows → key row ∈ keys) →
  (Qsum ((λ k, Qsum (col <$> filter (λ row, key row = k) rows)) <$> keys)
   == Qsum (col <$> rows))%Q.
Proof.
  intros Hnd. induction rows as [|row rows IH]; intros Hcover.
  - cbn. apply (Qsum_zero keys).
  - pose proof (IH (λ r Hr, Hcover r (list_elem_of_further _ _ _ Hr))) as IH'.
    set (one := λ k : K, if decide (key row = k) then col row else 0%Q).
    set (rest := λ k : K, Qsum (col <$> filter (λ row, key row = k) rows)).
    assert (Qsum (one <$> keys) == one (key row))%Q as E1.
    { apply Qsum_single; [done|apply Hcover; left|].
      intros k _ Hne. unfold one. by rewrite decide_False. }
    unfold one at 2 in E1. rewrite decide_True in E1 by done.
    assert (Qsum ((λ k, Qsum (col <$> filter (λ row', key row' = k)
                                 (row :: rows))) <$> keys)
            == Qsum ((λ k, one k + rest k) <$> keys))%Q as E2.
    { apply Qsum_eq. intros k _. unfold one, rest. rewrite filter_cons.
      case_decide; [rewrite fmap_cons, Qsum_cons|]; lra. }
    pose proof (Qsum_plus one rest keys) as E3.
    rewrite fmap_cons, Qsum_cons. fold rest in IH'. lra.
Qed.

Lemma get_summary_stats_nonempty (df : ResultFrame) :
  r_columns df = result_columns → r_rows df ≠ [] →
  get_summary_stats df =
  inr (<["week" := group_of ["week"] (r_rows df) <$>
          merge_sort key_le (remove_dups (group_key ["week"] <$> r_rows df))]>
       (<["channel_region" :=
            group_of ["product"; "channel"; "region"] (r_rows df) <$>
            merge_sort key_le
              (remove_dups (group_key ["product"; "channel"; "region"]
                              <$> r_rows df))]>
       (<["product_week" :=
            group_of ["product"; "week"] (r_rows df) <$>
            merge_sort key_le
              (remove_dups (group_key ["product"; "week"] <$> r_rows df))]>
       (<["product" :=
            group_of ["product"] (r_rows df) <$>
            merge_sort key_le
              (remove_dups (group_key ["product"] <$> r_rows df))]> ∅)))).
Proof.
  intros Hcols Hrows. unfold get_summary_stats, result_empty.
  assert (is_nil (r_rows df) = false) as -> by (by destruct (r_rows df)).
  rewrite Hcols. cbn [is_nil result_columns orb negb].
  rewrite !groupby_standard by first [done | compute_done]. done.
Qed.

(** ** C8 *)

(** C8, as the code has it.  For a non-empty result table the aggregator
    returns exactly the four views named product, product_week,
    channel_region and week, each a grouped view (summed demand, summed
    allocation, ratio) by its key columns.  For an empty table it returns
    the empty dict: no view at all. *)
Theorem summary_has_four_views (df : ResultFrame) :
  r_columns df = result_columns →
  (r_rows df = [] → get_summary_stats df = inr ∅) ∧
  (r_rows df ≠ [] →
   ∃ summary, get_summary_stats df = inr summary ∧
     dom summary = {["product"; "product_week"; "channel_region"; "week"]} ∧
     ∀ name cols,
       (name, cols) ∈ [("product", ["product"]);
                       ("product_week", ["product"; "week"]);
                       ("channel_region", ["product"; "channel"; "region"]);
                       ("week", ["week"])] →
       ∃ view, summary !! name = Some view ∧
               grouped_view cols (r_rows df) view).
Proof.
  intros Hcols. split.
  - intros Hrows. unfold get_summary_stats, result_empty. by rewrite Hrows.
  - intros Hrows. eexists. split; [by apply get_summary_stats_nonempty|].
    split; [rewrite !dom_insert_L, dom_empty_L; compute_done|].
    intros name cols Hin. eexists.
    split; [|apply groupby_grouped_view].
    repeat (apply elem_of_cons in Hin as [[= -> ->] | Hin]; [done|]).
    by apply elem_of_nil in Hin.
Qed.

(** ** Validation of the loaded tables *)

Lemma lower_ascii_idemp (a : ascii) : lower_ascii (lower_ascii a) = lower_ascii a.
Proof. destruct a as [[] [] [] [] [] [] [] []]; reflexivity. Qed.

Lemma lower_idemp (s : string) : lower (lower s) = lower s.
Proof.
  induction s as [|a s IH]; [done|]. cbn. by rewrite lower_ascii_idemp, IH.
Qed.

Lemma has_all_false (cols wanted : list string) (col : string) :
  col ∈ wanted → lower col ∉ cols → has_all cols wanted = false.
Proof.
  intros Hin Hnot. unfold has_all.
  destruct (forallb _ _) eqn:E; [|done].
  rewrite forallb_forall in E. specialize (E col).
  rewrite <- list_elem_of_In in E. specialize (E Hin).
  by apply bool_decide_eq_true in E.
Qed.

Lemma validate_missing_column (data : gmap string Frame) (table col : string) :
  missing_column data table col → validate_case2_data data = false.
Proof.
  intros (cols & f & Hreq & Hcol & Hf & Hmiss).
  unfold validate_case2_data.
  destruct (forallb _ _); [|done]. cbn [negb].
  unfold required_columns in Hreq.
  repeat (apply elem_of_cons in Hreq as [[= -> ->] | Hreq];
          [rewrite ?Hf; cbn [default]|]).
  - rewrite (has_all_false _ _ col); [done..|].
    repeat (apply elem_of_cons in Hcol as [-> | Hcol]; [done|]).
    by apply elem_of_nil in Hcol.
  - destruct (has_all _ ["week"; "total_supply"]); [|done]. cbn [negb].
    rewrite (has_all_false _ _ col); [done..|].
    repeat (apply elem_of_cons in Hcol as [-> | Hcol]; [done|]).
    by apply elem_of_nil in Hcol.
  - destruct (has_all _ ["week"; "total_supply"]); [|done]. cbn [negb].
    destruct (has_all _ ["week"; "product"; "actual_build"]); [|done].
    cbn [negb]. apply list_elem_of_singleton in Hcol as ->.
    destruct (existsb _ _) eqn:E; [|done].
    apply existsb_exists in E as (c & Hc & Heq).
    apply list_elem_of_In in Hc. apply String.eqb_eq in Heq.
    destruct Hmiss. apply list_elem_of_fmap in Hc as (c0 & -> & Hc0).
    rewrite lower_idemp in Heq. apply list_elem_of_fmap. by exists c0.
  - destruct (has_all _ ["week"; "total_supply"]); [|done]. cbn [negb].
    destruct (has_all _ ["week"; "product"; "actual_build"]); [|done].
    cbn [negb]. destruct (existsb _ _); [|done]. cbn [negb].
    rewrite (has_all_false _ _ col); [done..|].
    repeat (apply elem_of_cons in Hcol as [-> | Hcol]; [done|]).
    by apply elem_of_nil in Hcol.
  - by apply elem_of_nil in Hreq.
Qed.

(** ** C7 *)

(** C7, as the code has it.  When one of the four tables lacks a required
    identifying column, [validate_case2_data] answers [False] (it raises
    nothing and names no column), and the loader recovers internally: it
    shows a warning and returns the generated mock tables. *)
Theorem missing_column_falls_back_to_mock
    (total_supply_data actual_build_data demand_forecast_data
       customer_demand_data : list record) (table col : string) :
  missing_column
    (data_dict_of total_supply_data actual_build_data demand_forecast_data
       customer_demand_data) table col →
  validate_case2_data
    (data_dict_of total_supply_data actual_build_data demand_forecast_data
       customer_demand_data) = false ∧
  load_case2_data total_supply_data actual_build_data demand_forecast_data
    customer_demand_data = ([WarnMockData], MockData).
Proof.
  intros Hmiss. pose proof (validate_missing_column _ _ _ Hmiss) as Hv.
  split; [done|]. unfold load_case2_data. rewrite Hv.
  by rewrite !andb_false_r.
Qed.


(** ** The function returns a table *)

Lemma for_each_total {A B} (l : list A) (body : A → result (list B)) :
  (∀ a, a ∈ l → ∃ bs, body a = inr bs) → ∃ out, for_each l body = inr out.
Proof.
  induction l as [|a l IH]; intros Hb; [by eexists|].
  destruct (Hb a) as [bs Hbs]; [left|].
  destruct IH as [out Hout]; [intros; apply Hb; by right|].
  exists (bs ++ out). cbn [for_each]. by rewrite Hbs, Hout.
Qed.

Lemma labels_of_inr (df : DemandFrame) (label : string)
    (field : DemandRow → string) :
  (demand_empty df = false → label ∈ d_columns df) →
  labels_of df label field =
  inr (if demand_empty df then [] else unique (field <$> d_rows df)).
Proof.
  intros H. unfold labels_of, demand_column.
  destruct (demand_empty df); [done|].
  by rewrite bool_decide_eq_true_2 by auto.
Qed.

Lemma labels_of_inv (df : DemandFrame) (label : string)
    (field : DemandRow → string) (l : list string) :
  labels_of df label field = inr l →
  l = if demand_empty df then [] else unique (field <$> d_rows df).
Proof.
  unfold labels_of, demand_column. destruct (demand_empty df); [by intros [= <-]|].
  case_bool_decide; [|discriminate]. by intros [= <-].
Qed.


Lemma default_in_with_default (l : list string) : "Default" ∈ with_default l.
Proof.
  unfold with_default. case_bool_decide; [done|].
  apply elem_of_app. right. by left.
Qed.




Lemma subscript_priority (ix : IndexSets) (pp cp rp : gmap string Z)
    (t : triple) :
  t ∈ all_triples ix →
  subscript "priority" (priority_dict ix pp cp rp) t
  = inr (composite_priority pp cp rp t).
Proof.
  intros Ht. unfold subscript. by rewrite priority_lookup, decide_True.
Qed.

Lemma objective_terms_total (ix : IndexSets) (demand : gmap cell Q)
    (pp cp rp : gmap string Z) :
  ∃ obj, objective_terms ix demand (priority_dict ix pp cp rp)
           (LpVariable_dicts (all_cells ix)) = inr obj.
Proof.
  unfold objective_terms. apply for_each_total.
  intros [[[p c] r] w] Hk. cbv beta iota.
  destruct (demand !! (p, c, r, w)) as [d|]; [|by eexists].
  destruct (Qpos d); [|by eexists].
  rewrite subscript_priority, subscript_x; [by eexists|done|].
  apply elem_of_all_cells in Hk as (? & ? & ? & _).
  by apply elem_of_all_triples.
Qed.


Lemma index_sets_total (data : Data) :
  has_label_columns (customer_demand_df data) →
  ∃ ix, index_sets data = inr ix.
Proof.
  intros Hcols. unfold index_sets.
  rewrite !labels_of_inr by (intros He; by destruct (Hcols He) as (? & ? & ?)).
  by eexists.
Qed.


(** X2.  A non-empty Table 4 without a product column makes the function
    raise [KeyError] on that label, before any program is built. *)
Theorem missing_product_column_raises
    (float_of_str : string → option Q) (solve : LpProblem → Solution)
    (data : Data) (pp cp rp : option (gmap string Z))
    (sc : option (list (gmap string pyval))) :
  demand_empty (customer_demand_df data) = false →
  "product" ∉ d_columns (customer_demand_df data) →
  optimize_supply_allocation float_of_str solve data pp cp rp sc
  = inl (KeyError "product").
Proof.
  intros He Hcol.
  assert (labels_of (customer_demand_df data) "product" d_product
          = inl (KeyError "product")) as Hraise.
  { unfold labels_of, demand_column. rewrite He.
    by rewrite bool_decide_eq_false_2. }
  unfold optimize_supply_allocation, lp_model, index_sets.
  by rewrite Hraise.
Qed.

(** ** The rows of the result *)

(** X3.  Under the solver's contract every row of the returned table
    reports satisfaction = allocation / demand, a ratio above 0 and at
    most 1, and the composite priority of its (product, channel,
    region). *)
Theorem row_satisfaction_and_priority
    (float_of_str : string → option Q) (solve : LpProblem → Solution)
    (data : Data) (pp cp rp : option (gmap string Z))
    (sc : option (list (gmap string pyval))) (m : Model) (df : ResultFrame)
    (row : ResultRow) :
  lp_model float_of_str data pp cp rp sc = inr m →
  solver_sound solve (m_prob m) →
  optimize_supply_allocation float_of_str solve data pp cp rp sc = inr df →
  row ∈ r_rows df →
  r_satisfaction row = (r_allocation row / r_demand row)%Q ∧
  (0 < r_satisfaction row)%Q ∧ (r_satisfaction row <= 1)%Q ∧
  r_priority row =
    composite_priority (product_priorities_or_default (m_ix m) pp)
      (channel_priorities_or_default cp)
      (region_priorities_or_default (m_ix m) rp)
      (r_product row, r_channel row, r_region row).
Proof.
  intros Hm Hsound Hopt Hrow.
  pose proof (rows_within_demand _ _ _ _ _ _ _ _ _ _ Hm Hsound Hopt Hrow)
    as Hle.
  destruct (model_parts _ _ _ _ _ _ _ Hm) as (_ & _ & _ & Hprio & _).
  rewrite (optimize_unfold _ _ _ _ _ _ _ Hm) in Hopt.
  destruct (decide (status (solve (m_prob m)) = Optimal)) as [Hs|Hs];
    [|rewrite (results_of_not_optimal _ _ Hs) in Hopt; injection Hopt as <-;
      by apply elem_of_nil in Hrow].
  rewrite (results_of_optimal _ _ _ _ _ _ _ Hm _ Hs) in Hopt.
  injection Hopt as <-. cbn [r_rows] in Hrow.
  apply list_elem_of_bind in Hrow as ([[[p c] r] w] & Hrow & Hk).
  apply elem_of_row_at in Hrow as (Hkey & _ & Hd & _ & Ha & Hsat & Hpr).
  unfold r_key in Hkey. injection Hkey as Ep Ec Er _.
  rewrite Hsat, Ep, Ec, Er. split_and!; [done| | |].
  - apply Qlt_shift_div_l; [done|]. lra.
  - apply Qle_shift_div_r; [done|]. lra.
  - rewrite Hpr, Hprio. cbn [fst]. rewrite priority_lookup, decide_True; [done|].
    apply elem_of_all_cells in Hk as (? & ? & ? & _).
    by apply elem_of_all_triples.
Qed.

(** ** The objective *)

(** X4.  The objective of the built program has one term per cell with
    demand above 0, the variable of the cell with coefficient composite
    priority / demand, in loop order. *)
Theorem objective_is_weighted_satisfaction
    (float_of_str : string → option Q)
    (data : Data) (pp cp rp : option (gmap string Z))
    (sc : option (list (gmap string pyval))) (m : Model) :
  lp_model float_of_str data pp cp rp sc = inr m →
  objective (m_prob m) =
  all_cells (m_ix m) ≫=
    objective_term (m_demand m)
      (composite_priority (product_priorities_or_default (m_ix m) pp)
         (channel_priorities_or_default cp)
         (region_priorities_or_default (m_ix m) rp)).
Proof.
  intros Hm.
  destruct (model_parts _ _ _ _ _ _ _ Hm)
    as (_ & _ & _ & Hprio & Hx & c3 & _ & Hobj & _).
  rewrite Hprio, Hx in Hobj. unfold objective_terms in Hobj.
  erewrite for_each_pure in Hobj; [by injection Hobj as <-|].
  intros [[[p c] r] w] Hk. cbv beta iota. unfold objective_term.
  destruct (m_demand m !! (p, c, r, w)) as [d|]; [|done].
  destruct (Qpos d); [|done].
  rewrite subscript_priority, subscript_x; [done..|].
  apply elem_of_all_cells in Hk as (? & ? & ? & _).
  by apply elem_of_all_triples.
Qed.

(** ** The index sets *)

(** X5.  The channels and the regions always hold the [Default] bucket;
    the products are those of a non-empty Table 4 together with those of
    Table 2; no index set repeats a product, channel or region. *)
Theorem index_sets_contents (data : Data) (ix : IndexSets) :
  index_sets data = inr ix →
  "Default" ∈ channels ix ∧ "Default" ∈ regions ix ∧
  (∀ p, p ∈ products ix ↔
        (demand_empty (customer_demand_df data) = false ∧
         p ∈ d_product <$> d_rows (customer_demand_df data)) ∨
        p ∈ b_product <$> actual_build_df data) ∧
  NoDup (products ix) ∧ NoDup (channels ix) ∧ NoDup (regions ix).
Proof.
  intros Hix. unfold index_sets in Hix.
  apply bind_inr in Hix as (ps & Hps%labels_of_inv & Hix).
  apply bind_inr in Hix as (cs & Hcs%labels_of_inv & Hix).
  apply bind_inr in Hix as (rs & Hrs%labels_of_inv & Hix).
  injection Hix as <-. cbn. split_and!; try apply NoDup_sorted_set.
  - apply elem_of_sorted_set, default_in_with_default.
  - apply elem_of_sorted_set, default_in_with_default.
  - intros p. rewrite elem_of_sorted_set, elem_of_app. subst ps.
    assert (p ∈ (if is_nil (actual_build_df data) then []
                 else unique (b_product <$> actual_build_df data)) ↔
            p ∈ b_product <$> actual_build_df data) as ->.
    { destruct (actual_build_df data); [done|]. apply elem_of_unique. }
    destruct (demand_empty (customer_demand_df data)).
    + split; [intros [?%elem_of_nil|?]; [done|by right]|].
      intros [[? _]|?]; [done|by right].
    + rewrite elem_of_unique. split; [intros [?|?]; [by left|by right]|].
      intros [[_ ?]|?]; [by left|by right].
Qed.


(** ** The demand table sums the rows of a cell *)

(** What a row adds to cell [k] when its weeks [ws] are read. *)
Lemma add_demand_row_lookup (float_of_str : string → option Q)
    (columns ws : list string) (dem : gmap cell Q) (row : DemandRow)
    (k : cell) :
  NoDup ws →
  (default 0 (add_demand_row float_of_str columns ws dem row !! k) ==
   default 0 (dem !! k) +
   (if bool_decide (row_labels row = k.1 ∧ k.2 ∈ ws)
    then week_value float_of_str columns row k.2 else 0))%Q.
Proof.
  unfold add_demand_row. intros Hnd. revert dem.
  induction Hnd as [|w ws Hw Hnd IH]; intros dem.
  - cbn [foldl]. rewrite bool_decide_eq_false_2; [lra|].
    by intros [_ ?%elem_of_nil].
  - cbn [foldl]. rewrite IH. clear IH.
    set (key := (d_product row, d_channel row, d_region row, w)).
    destruct (decide (key = k)) as [<-|Hne].
    + rewrite (bool_decide_eq_false_2 (_ ∧ _ ∈ ws)) by (by intros [_ ?]).
      rewrite (bool_decide_eq_true_2 (_ ∧ _ ∈ w :: ws))
        by (split; [done|left]).
      unfold week_value. cbn [snd key].
      destruct (_ && _); [|lra].
      destruct (to_float _ _) as [v|]; [|cbn; lra].
      rewrite lookup_insert_eq. cbn. lra.
    + assert (bool_decide (row_labels row = k.1 ∧ k.2 ∈ w :: ws) =
              bool_decide (row_labels row = k.1 ∧ k.2 ∈ ws)) as ->.
      { apply bool_decide_ext. split; intros [Hl Hin]; (split; [done|]).
        - apply elem_of_cons in Hin as [Hw'|?]; [|done]. destruct Hne.
          unfold key. destruct k as [[[p c] r] w']. unfold row_labels in Hl.
          cbn in Hl, Hw'. injection Hl as -> -> ->. by subst w'.
        - by right. }
      assert (default 0%Q
                ((if bool_decide (w ∈ columns) && notna (row_get row w)
                  then match to_float float_of_str (row_get row w) with
                       | Some demand_value =>
                           <[key := (default 0 (dem !! key) + demand_value)%Q]> dem
                       | None => dem
                       end
                  else dem) !! k) = default 0%Q (dem !! k)) as ->; [|lra].
      destruct (_ && _); [|done]. destruct (to_float _ _); [|done].
      by rewrite lookup_insert_ne.
Qed.

Lemma demand_rows_lookup (float_of_str : string → option Q)
    (columns ws : list string) (rows : list DemandRow) (dem : gmap cell Q)
    (k : cell) :
  NoDup ws → k.2 ∈ ws →
  (default 0 (foldl (add_demand_row float_of_str columns ws) dem rows !! k) ==
   default 0 (dem !! k) +
   Qsum ((λ row, week_value float_of_str columns row k.2) <$>
           filter (λ row, row_labels row = k.1) rows))%Q.
Proof.
  intros Hnd Hk. revert dem. induction rows as [|row rows IH]; intros dem.
  - cbn. lra.
  - cbn [foldl]. rewrite IH, add_demand_row_lookup by done.
    rewrite filter_cons. destruct (decide (row_labels row = k.1)) as [Hl|Hl].
    + rewrite bool_decide_eq_true_2 by done. rewrite fmap_cons, Qsum_cons. lra.
    + rewrite bool_decide_eq_false_2 by (by intros [? _]). lra.
Qed.

(** X6.  For distinct column labels, the demand of every cell of the
    index space is the sum, over the rows of Table 4 that carry the
    (product, channel, region) of the cell, of what each row asks for in
    the week of the cell; cells that no row names have demand 0. *)
Theorem demand_sums_matching_rows
    (float_of_str : string → option Q)
    (data : Data) (pp cp rp : option (gmap string Z))
    (sc : option (list (gmap string pyval))) (m : Model) (k : cell) :
  distinct_labels data →
  lp_model float_of_str data pp cp rp sc = inr m →
  k ∈ all_cells (m_ix m) →
  ∃ d, m_demand m !! k = Some d ∧
       (d == if demand_empty (customer_demand_df data) then 0
             else Qsum ((λ row, week_value float_of_str
                                  (d_columns (customer_demand_df data)) row k.2)
                          <$> filter (λ row, row_labels row = k.1)
                                (d_rows (customer_demand_df data))))%Q.
Proof.
  intros Hlabels Hm Hk.
  destruct (model_parts _ _ _ _ _ _ _ Hm) as (Hix & _ & Hdem & _).
  destruct (index_sets_NoDup _ _ Hix Hlabels) as (_ & _ & _ & Hnd).
  destruct (demand_dict_is_Some float_of_str (m_ix m)
              (customer_demand_df data) _ Hk) as [d Hd].
  exists d. rewrite Hdem. split; [done|].
  assert (k.2 ∈ weeks (m_ix m)) as Hw.
  { destruct k as [[[p c] r] w]. by apply elem_of_all_cells in Hk as (_ & _ & _ & ?). }
  assert (d = default 0%Q (demand_dict float_of_str (m_ix m)
                             (customer_demand_df data) !! k)) as ->
    by (by rewrite Hd).
  unfold demand_dict.
  assert (default 0%Q (dict_of ((λ k, (k, 0%Q)) <$> all_cells (m_ix m)) !! k)
          = 0%Q) as Hzero
    by (by rewrite dict_of_fn_lookup, decide_True).
  destruct (demand_empty (customer_demand_df data)); cbn [negb].
  - by rewrite Hzero.
  - rewrite demand_rows_lookup by done. rewrite Hzero. lra.
Qed.


(** ** Checking a point by computation *)

Lemma feasibleb_correct (prob : LpProblem) (vals : gmap cell Q) :
  feasibleb prob vals = true → feasible prob vals.
Proof.
  unfold feasibleb, feasible. intros [Hb Hc]%andb_prop. split.
  - apply Forall_forall. intros v Hv%list_elem_of_In.
    rewrite forallb_forall in Hb. specialize (Hb v Hv).
    unfold in_boundsb in Hb. unfold in_bounds.
    destruct (vals !! var_name v) as [q|]; [|discriminate].
    exists q. split; [done|]. by apply Qle_bool_iff.
  - apply Forall_forall. intros c Hc'%list_elem_of_In.
    rewrite forallb_forall in Hc. specialize (Hc c Hc').
    unfold holdsb in Hc. unfold holds.
    destruct (c_sense c); by apply Qle_bool_iff.
Qed.

(** ** The small instance *)

Lemma phone_model_built :
  lp_model no_text_number phone_data None None None None = inr phone_model.
Proof. reflexivity. Qed.

Lemma phone_result_returned :
  optimize_supply_allocation no_text_number phone_solve phone_data
    None None None None = inr phone_result.
Proof. vm_compute. reflexivity. Qed.

Lemma phone_labels : distinct_labels phone_data.
Proof. split; cbn; compute_done. Qed.

Lemma phone_feasible : feasible (m_prob phone_model) phone_values.
Proof. apply feasibleb_correct. vm_compute. reflexivity. Qed.

Lemma phone_sound : solver_sound phone_solve (m_prob phone_model).
Proof. intros _. exact phone_feasible. Qed.

(** ** Bounds that every feasible point of a built model obeys *)

Section feasible_points.
Context (float_of_str : string → option Q) (data : Data).
Context (pp cp rp : option (gmap string Z)).
Context (sc : option (list (gmap string pyval))).
Context (m : Model).
Context (Hm : lp_model float_of_str data pp cp rp sc = inr m).
Context (vals : gmap cell Q) (Hf : feasible (m_prob m) vals).

Lemma model_cell_bounds (k : cell) (d : Q) :
  k ∈ all_cells (m_ix m) → m_demand m !! k = Some d →
  ∃ a, vals !! k = Some a ∧ (0 <= a)%Q ∧ (a <= d)%Q.
Proof.
  intros Hk Hd. eapply feasible_demand_cap; [done|].
  by eapply model_demand_cap.
Qed.

Lemma model_week_bound (w : string) (s : Q) :
  w ∈ weeks (m_ix m) → m_supply m !! w = Some s →
  (Qsum ((λ t : triple, default 0%Q (vals !! (t, w))) <$> all_triples (m_ix m))
   <= s)%Q.
Proof.
  intros Hw Hs.
  pose proof (model_supply_cap _ _ _ _ _ _ _ Hm _ _ Hw Hs) as Hcap.
  apply (feasible_holds _ _ _ Hf) in Hcap.
  unfold holds, supply_cap, eval_expr in Hcap.
  cbn [c_sense c_expr c_rhs] in Hcap.
  rewrite <- list_fmap_compose in Hcap.
  eapply Qle_trans; [|exact Hcap]. apply Qsum_le. intros t _. cbn.
  unfold value_of. cbn. lra.
Qed.

Lemma model_floor_bound (cs : list (gmap string pyval))
    (c : gmap string pyval) (k : cell) (d q : Q) :
  sc = Some cs → c ∈ cs →
  forallb truthy (override_fields c) = true →
  override_cell c = Some k →
  m_demand m !! k = Some d → (0 < d)%Q →
  py_get c "satisfaction_rate" (PyNum 1) = PyNum q →
  (q * d <= default 0%Q (vals !! k))%Q.
Proof.
  intros Hsc Hc Ht Hcell Hd Hpos Hrate.
  destruct (model_override_floor _ _ _ _ _ _ _ Hm cs c k d q
              Hsc Hc Ht Hcell Hd Hpos Hrate) as [_ Hfloor].
  apply (feasible_holds _ _ _ Hf) in Hfloor.
  unfold holds, override_floor in Hfloor.
  cbn [c_sense c_expr c_rhs] in Hfloor.
  by rewrite eval_expr_singleton in Hfloor.
Qed.
End feasible_points.

Lemma phone_maximal : maximal (m_prob phone_model) phone_values.
Proof.
  split; [exact phone_feasible|]. intros vals Hf.
  pose proof phone_model_built as Hm.
  cell_bounds (model_cell_bounds _ _ _ _ _ _ _ Hm _ Hf) phone_model phone_wk1 50%Q a1.
  cell_bounds (model_cell_bounds _ _ _ _ _ _ _ Hm _ Hf) phone_model phone_wk2 20%Q a2.
  cell_bounds (model_cell_bounds _ _ _ _ _ _ _ Hm _ Hf) phone_model ("Phone Plus", "Default", "AMR", "Jan-Wk1") 0%Q b1.
  cell_bounds (model_cell_bounds _ _ _ _ _ _ _ Hm _ Hf) phone_model ("Phone Plus", "Default", "Default", "Jan-Wk1") 0%Q b2.
  cell_bounds (model_cell_bounds _ _ _ _ _ _ _ Hm _ Hf) phone_model ("Phone Plus", "Online Store", "Default", "Jan-Wk1") 0%Q b3.
  assert ("Jan-Wk1" ∈ weeks (m_ix phone_model)) as Hw by compute_done.
  assert (m_supply phone_model !! "Jan-Wk1" = Some 30%Q) as Hs
    by (vm_compute; reflexivity).
  pose proof (model_week_bound _ _ _ _ _ _ _ Hm _ Hf _ _ Hw Hs) as Hweek.
  assert (all_triples (m_ix phone_model) =
          [("Phone Plus", "Default", "AMR"); ("Phone Plus", "Default", "Default");
           ("Phone Plus", "Online Store", "AMR");
           ("Phone Plus", "Online Store", "Default")]) as Etr
    by (vm_compute; reflexivity).
  rewrite Etr in Hweek. cbn [fmap list_fmap] in Hweek.
  unfold phone_wk1 in Hval. rewrite Hval, Hval1, Hval2, Hval3 in Hweek.
  cbn [default] in Hweek. rewrite !Qsum_cons in Hweek.
  change (Qsum []) with 0%Q in Hweek.
  assert (objective (m_prob phone_model) =
          [((56 # 50)%Q, allocation_var phone_wk1);
           ((56 # 20)%Q, allocation_var phone_wk2)]) as Eobj
    by (vm_compute; reflexivity).
  rewrite Eobj. unfold eval_expr, value_of.
  cbn [fmap list_fmap fst snd var_name allocation_var].
  assert (phone_values !! phone_wk1 = Some 30%Q) as -> by (vm_compute; reflexivity).
  assert (phone_values !! phone_wk2 = Some 20%Q) as -> by (vm_compute; reflexivity).
  unfold phone_wk1, phone_wk2 in *. rewrite Hval, Hval0. cbn [default].
  rewrite !Qsum_cons. change (Qsum []) with 0%Q. unfold id in *. lra.
Qed.


(** ** The statements on the small instance *)

(** C1 on the small instance, for the week the supply table lists. *)
Lemma supply_cap_respected_witness :
  distinct_labels phone_data ∧
  lp_model no_text_number phone_data None None None None = inr phone_model ∧
  solver_sound phone_solve (m_prob phone_model) ∧
  (week_allocation phone_result "Jan-Wk1" <= 30)%Q.
Proof.
  split_and!; [exact phone_labels | exact phone_model_built |
               exact phone_sound |].
  assert ("Jan-Wk1" ∈ weeks (m_ix phone_model)) as Hw by compute_done.
  pose proof (supply_cap_respected no_text_number phone_solve phone_data
                None None None None phone_model phone_result "Jan-Wk1"
                phone_labels phone_model_built phone_sound
                phone_result_returned Hw) as H.
  assert (m_supply phone_model !! "Jan-Wk1" = Some 30%Q) as E
    by (vm_compute; reflexivity).
  rewrite E in H. apply H. left. reflexivity.
Defined.

(** C1 fails as stated: the week that the supply table lacks gets its
    whole demand, 20 units, at the maximiser of the built program, where a
    zero cap would leave it 0. *)
Lemma absent_week_is_not_capped_at_zero :
  lp_model no_text_number phone_data None None None None = inr phone_model ∧
  status (phone_solve (m_prob phone_model)) = Optimal ∧
  maximal (m_prob phone_model) (var_values (phone_solve (m_prob phone_model))) ∧
  optimize_supply_allocation no_text_number phone_solve phone_data
    None None None None = inr phone_result ∧
  "Jan-Wk2" ∈ weeks (m_ix phone_model) ∧
  m_supply phone_model !! "Jan-Wk2" = None ∧
  (week_allocation phone_result "Jan-Wk2" == 20)%Q ∧
  ¬ (week_allocation phone_result "Jan-Wk2" == 0)%Q.
Proof.
  split_and!.
  - exact phone_model_built.
  - reflexivity.
  - exact phone_maximal.
  - exact phone_result_returned.
  - compute_done.
  - vm_compute. reflexivity.
  - vm_compute. reflexivity.
  - vm_compute. discriminate.
Qed.

(** C2 on the small instance. *)
Lemma allocation_within_demand_witness :
  lp_model no_text_number phone_data None None None None = inr phone_model ∧
  solver_sound phone_solve (m_prob phone_model) ∧
  optimize_supply_allocation no_text_number phone_solve phone_data
    None None None None = inr phone_result ∧
  (∀ row, row ∈ r_rows phone_result → (r_allocation row <= r_demand row)%Q) ∧
  (∀ v, v ∈ variables (m_prob phone_model) →
     ∃ k d, v = allocation_var k ∧ m_demand phone_model !! k = Some d ∧
            demand_cap k d ∈ constraints (m_prob phone_model)).
Proof.
  split_and!; [exact phone_model_built | exact phone_sound |
               exact phone_result_returned | |];
    apply (allocation_within_demand no_text_number phone_solve phone_data
             None None None None phone_model phone_result
             phone_model_built phone_sound phone_result_returned).
Defined.

(** ** An override on the small instance *)

Lemma phone_half_model_built :
  lp_model no_text_number phone_data None None None (Some [half_override])
  = inr phone_half_model.
Proof. reflexivity. Qed.

Lemma phone_half_result_returned :
  optimize_supply_allocation no_text_number phone_solve phone_data
    None None None (Some [half_override]) = inr phone_half_result.
Proof. vm_compute. reflexivity. Qed.

Lemma phone_half_sound : solver_sound phone_solve (m_prob phone_half_model).
Proof. intros _. apply feasibleb_correct. vm_compute. reflexivity. Qed.

(** C3 on the small instance: half of the demand of the first week. *)
Lemma override_floor_met_witness :
  lp_model no_text_number phone_data None None None (Some [half_override])
    = inr phone_half_model ∧
  solver_sound phone_solve (m_prob phone_half_model) ∧
  forallb truthy (override_fields half_override) = true ∧
  m_demand phone_half_model !! phone_wk1 = Some 50%Q ∧
  ((1 # 2) * 50 <= allocation_of phone_half_result phone_wk1)%Q.
Proof.
  assert (forallb truthy (override_fields half_override) = true) as Ht
    by (vm_compute; reflexivity).
  assert (m_demand phone_half_model !! phone_wk1 = Some 50%Q) as Hd
    by (vm_compute; reflexivity).
  split_and!; [exact phone_half_model_built | exact phone_half_sound |
               exact Ht | exact Hd |].
  assert (half_override ∈ [half_override]) as Hin by left.
  assert (override_cell half_override = Some phone_wk1) as Hcell
    by (vm_compute; reflexivity).
  assert (py_get half_override "satisfaction_rate" (PyNum 1) = PyNum (1 # 2))
    as Hrate by (vm_compute; reflexivity).
  assert (0 < 50)%Q as Hpos by reflexivity.
  exact (proj1 (override_floor_met no_text_number phone_solve phone_data
                  None None None [half_override] phone_half_model
                  phone_half_result half_override phone_wk1 (1 # 2)
                  phone_half_model_built phone_half_sound eq_refl
                  phone_half_result_returned Hin Hcell Hrate)
               Ht 50%Q Hd Hpos).
Defined.

(** ** The override that cannot be met *)

Lemma phone_full_model_built :
  lp_model no_text_number phone_data None None None (Some [full_override])
  = inr phone_full_model.
Proof. reflexivity. Qed.

(** Demand 50, supply 30 and a floor of all the demand: no point is
    feasible. *)
Lemma phone_full_infeasible (vals : gmap cell Q) :
  ¬ feasible (m_prob phone_full_model) vals.
Proof.
  intros Hf. pose proof phone_full_model_built as Hm.
  cell_bounds (model_cell_bounds _ _ _ _ _ _ _ Hm _ Hf) phone_full_model phone_wk1 50%Q a1.
  cell_bounds (model_cell_bounds _ _ _ _ _ _ _ Hm _ Hf) phone_full_model
    ("Phone Plus", "Default", "AMR", "Jan-Wk1") 0%Q b1.
  cell_bounds (model_cell_bounds _ _ _ _ _ _ _ Hm _ Hf) phone_full_model
    ("Phone Plus", "Default", "Default", "Jan-Wk1") 0%Q b2.
  cell_bounds (model_cell_bounds _ _ _ _ _ _ _ Hm _ Hf) phone_full_model
    ("Phone Plus", "Online Store", "Default", "Jan-Wk1") 0%Q b3.
  assert ("Jan-Wk1" ∈ weeks (m_ix phone_full_model)) as Hw by compute_done.
  assert (m_supply phone_full_model !! "Jan-Wk1" = Some 30%Q) as Hs
    by (vm_compute; reflexivity).
  pose proof (model_week_bound _ _ _ _ _ _ _ Hm _ Hf _ _ Hw Hs) as Hweek.
  assert (all_triples (m_ix phone_full_model) =
          [("Phone Plus", "Default", "AMR"); ("Phone Plus", "Default", "Default");
           ("Phone Plus", "Online Store", "AMR");
           ("Phone Plus", "Online Store", "Default")]) as Etr
    by (vm_compute; reflexivity).
  rewrite Etr in Hweek. cbn [fmap list_fmap] in Hweek.
  assert (m_demand phone_full_model !! phone_wk1 = Some 50%Q) as Hd
    by (vm_compute; reflexivity).
  pose proof (model_floor_bound _ _ _ _ _ _ _ Hm _ Hf [full_override]
                full_override phone_wk1 50%Q 1%Q eq_refl
                ltac:(left) ltac:(vm_compute; reflexivity)
                ltac:(vm_compute; reflexivity) Hd ltac:(reflexivity)
                ltac:(vm_compute; reflexivity)) as Hfloor.
  unfold phone_wk1 in *. rewrite Hval in Hfloor.
  rewrite Hval, Hval0, Hval1, Hval2 in Hweek.
  cbn [default] in Hweek, Hfloor. rewrite !Qsum_cons in Hweek.
  change (Qsum []) with 0%Q in Hweek. unfold id in *. lra.
Qed.

(** C4 on the override that cannot be met. *)
Lemma non_optimal_returns_empty_witness :
  lp_model no_text_number phone_data None None None (Some [full_override])
    = inr phone_full_model ∧
  solver_sound infeasible_solve (m_prob phone_full_model) ∧
  optimize_supply_allocation no_text_number infeasible_solve phone_data
    None None None (Some [full_override])
  = inr {| r_columns := result_columns; r_rows := [] |}.
Proof.
  assert (solver_sound infeasible_solve (m_prob phone_full_model)) as Hsound
    by (intros Hs; discriminate Hs).
  split_and!; [exact phone_full_model_built | exact Hsound |].
  exact (non_optimal_returns_empty no_text_number infeasible_solve phone_data
           None None None (Some [full_override]) phone_full_model
           phone_full_model_built
           (or_intror (conj Hsound phone_full_infeasible))).
Defined.

(** ** Rows and variables of the small instance *)

(** C5 on the small instance. *)
Lemma one_row_per_positive_cell_witness :
  distinct_labels phone_data ∧
  lp_model no_text_number phone_data None None None None = inr phone_model ∧
  solver_sound phone_solve (m_prob phone_model) ∧
  NoDup (r_key <$> r_rows phone_result) ∧
  (∀ row, row ∈ r_rows phone_result →
     (0 < r_demand row)%Q ∧ (0 < r_allocation row)%Q).
Proof.
  split_and!; [exact phone_labels | exact phone_model_built |
               exact phone_sound | |].
  - apply (one_row_per_positive_cell no_text_number phone_solve phone_data
             None None None None phone_model phone_result phone_labels
             phone_model_built phone_sound phone_result_returned).
  - intros row Hrow.
    destruct (one_row_per_positive_cell no_text_number phone_solve phone_data
                None None None None phone_model phone_result phone_labels
                phone_model_built phone_sound phone_result_returned)
      as (_ & _ & _ & Hrows & _).
    destruct (Hrows row Hrow) as (_ & _ & Hd & _ & Ha). by split.
Defined.

(** C5 fails as stated: a cell without demand has a decision variable
    all the same. *)
Lemma zero_demand_cell_has_a_variable :
  lp_model no_text_number phone_data None None None None = inr phone_model ∧
  ("Phone Plus", "Default", "Default", "Jan-Wk1") ∈ all_cells (m_ix phone_model) ∧
  m_demand phone_model !! ("Phone Plus", "Default", "Default", "Jan-Wk1")
    = Some 0%Q ∧
  m_x phone_model !! ("Phone Plus", "Default", "Default", "Jan-Wk1")
    = Some (allocation_var ("Phone Plus", "Default", "Default", "Jan-Wk1")) ∧
  allocation_var ("Phone Plus", "Default", "Default", "Jan-Wk1")
    ∈ variables (m_prob phone_model).
Proof.
  split_and!.
  - exact phone_model_built.
  - compute_done.
  - vm_compute. reflexivity.
  - vm_compute. reflexivity.
  - assert (("Phone Plus", "Default", "Default", "Jan-Wk1")
              ∈ all_cells (m_ix phone_model)) as Hk by compute_done.
    apply (cell_has_variable _ _ _ _ _ _ _ _ phone_model_built Hk).
Qed.

(** C6 on the small instance with priorities that list the online store
    at 3 and the region AMR at 2, and no product: 5 for the product that
    its map lacks, times 3, times 2. *)
Lemma tiered_model_built :
  lp_model no_text_number phone_data (Some tiered_product_priorities)
    (Some tiered_channel_priorities) (Some tiered_region_priorities) None
  = inr tiered_model.
Proof. reflexivity. Qed.

Lemma composite_priority_is_product_witness :
  lp_model no_text_number phone_data (Some tiered_product_priorities)
    (Some tiered_channel_priorities) (Some tiered_region_priorities) None
  = inr tiered_model ∧
  m_priority tiered_model !! ("Phone Plus", "Online Store", "AMR")
    = Some (5 * 3 * 2)%Z.
Proof.
  split; [exact tiered_model_built|].
  assert ("Phone Plus" ∈ products (m_ix tiered_model)) as Hp by compute_done.
  assert ("Online Store" ∈ channels (m_ix tiered_model)) as Hc by compute_done.
  assert ("AMR" ∈ regions (m_ix tiered_model)) as Hr by compute_done.
  exact (proj1 (composite_priority_is_product no_text_number phone_data
                  (Some tiered_product_priorities)
                  (Some tiered_channel_priorities)
                  (Some tiered_region_priorities) None tiered_model
                  "Phone Plus" "Online Store" "AMR"
                  tiered_model_built Hp Hc Hr)).
Defined.

(** C10 on an override whose region is [None]. *)
Lemma falsy_override_is_skipped_witness :
  forallb truthy (override_fields regionless_override) = false ∧
  optimize_supply_allocation no_text_number phone_solve phone_data
    None None None (Some ([half_override] ++ regionless_override :: [])) =
  optimize_supply_allocation no_text_number phone_solve phone_data
    None None None (Some ([half_override] ++ [])).
Proof.
  assert (forallb truthy (override_fields regionless_override) = false) as H
    by (vm_compute; reflexivity).
  split; [exact H|].
  apply (falsy_override_is_skipped no_text_number phone_solve phone_data
           None None None [half_override] [] regionless_override H).
Defined.


(** ** The instance with a blank region *)

Lemma blank_model_built :
  lp_model no_text_number blank_data None None None (Some [blank_override])
  = inr blank_model.
Proof. reflexivity. Qed.

Lemma blank_result_returned :
  optimize_supply_allocation no_text_number blank_solve blank_data
    None None None (Some [blank_override]) = inr blank_result.
Proof. vm_compute. reflexivity. Qed.

Lemma blank_feasible : feasible (m_prob blank_model) blank_values.
Proof. apply feasibleb_correct. vm_compute. reflexivity. Qed.

Lemma blank_maximal : maximal (m_prob blank_model) blank_values.
Proof.
  split; [exact blank_feasible|]. intros vals Hf.
  pose proof blank_model_built as Hm.
  cell_bounds (model_cell_bounds _ _ _ _ _ _ _ Hm _ Hf) blank_model blank_cell 50%Q a1.
  cell_bounds (model_cell_bounds _ _ _ _ _ _ _ Hm _ Hf) blank_model
    ("Phone Plus", "Default", "", "Jan-Wk1") 0%Q b1.
  cell_bounds (model_cell_bounds _ _ _ _ _ _ _ Hm _ Hf) blank_model
    ("Phone Plus", "Default", "Default", "Jan-Wk1") 0%Q b2.
  cell_bounds (model_cell_bounds _ _ _ _ _ _ _ Hm _ Hf) blank_model
    ("Phone Plus", "Online Store", "Default", "Jan-Wk1") 0%Q b3.
  assert ("Jan-Wk1" ∈ weeks (m_ix blank_model)) as Hw by compute_done.
  assert (m_supply blank_model !! "Jan-Wk1" = Some 30%Q) as Hs
    by (vm_compute; reflexivity).
  pose proof (model_week_bound _ _ _ _ _ _ _ Hm _ Hf _ _ Hw Hs) as Hweek.
  assert (all_triples (m_ix blank_model) =
          [("Phone Plus", "Default", ""); ("Phone Plus", "Default", "Default");
           ("Phone Plus", "Online Store", "");
           ("Phone Plus", "Online Store", "Default")]) as Etr
    by (vm_compute; reflexivity).
  rewrite Etr in Hweek. cbn [fmap list_fmap] in Hweek.
  unfold blank_cell in Hval. rewrite Hval, Hval0, Hval1, Hval2 in Hweek.
  cbn [default] in Hweek. rewrite !Qsum_cons in Hweek.
  change (Qsum []) with 0%Q in Hweek.
  assert (objective (m_prob blank_model) =
          [((56 # 50)%Q, allocation_var blank_cell)]) as Eobj
    by (vm_compute; reflexivity).
  rewrite Eobj. unfold eval_expr, value_of.
  cbn [fmap list_fmap fst snd var_name allocation_var].
  assert (blank_values !! blank_cell = Some 30%Q) as ->
    by (vm_compute; reflexivity).
  unfold blank_cell. rewrite Hval. cbn [default].
  rewrite !Qsum_cons. change (Qsum []) with 0%Q. unfold id in *. lra.
Qed.

(** C3 fails as stated: the override names a cell with demand 50 and asks for all of it; its
    region is the empty text, so the guard [all([p, c, r, w])] drops it,
    and the maximiser gives the cell the 30 units of supply. *)
Lemma override_with_blank_label_is_dropped :
  lp_model no_text_number blank_data None None None (Some [blank_override])
    = inr blank_model ∧
  status (blank_solve (m_prob blank_model)) = Optimal ∧
  maximal (m_prob blank_model) (var_values (blank_solve (m_prob blank_model))) ∧
  optimize_supply_allocation no_text_number blank_solve blank_data
    None None None (Some [blank_override]) = inr blank_result ∧
  override_cell blank_override = Some blank_cell ∧
  py_get blank_override "satisfaction_rate" (PyNum 1) = PyNum 1 ∧
  m_demand blank_model !! blank_cell = Some 50%Q ∧
  (allocation_of blank_result blank_cell == 30)%Q ∧
  ¬ (1 * 50 <= allocation_of blank_result blank_cell)%Q.
Proof.
  split_and!.
  - exact blank_model_built.
  - reflexivity.
  - exact blank_maximal.
  - exact blank_result_returned.
  - vm_compute. reflexivity.
  - vm_compute. reflexivity.
  - vm_compute. reflexivity.
  - vm_compute. reflexivity.
  - vm_compute. intros H. apply H. reflexivity.
Qed.

(** ** Summaries of the small instance *)

Lemma phone_result_columns : r_columns phone_result = result_columns.
Proof. vm_compute. reflexivity. Qed.

Lemma phone_result_rows : r_rows phone_result ≠ [].
Proof. vm_compute. discriminate. Qed.

(** C8 on the result of the small instance. *)
Lemma summary_has_four_views_witness :
  r_columns phone_result = result_columns ∧
  r_rows phone_result ≠ [] ∧
  ∃ summary, get_summary_stats phone_result = inr summary ∧
    dom summary = {["product"; "product_week"; "channel_region"; "week"]} ∧
    ∃ view, summary !! "week" = Some view ∧
            grouped_view ["week"] (r_rows phone_result) view.
Proof.
  split_and!; [exact phone_result_columns | exact phone_result_rows |].
  destruct (proj2 (summary_has_four_views phone_result phone_result_columns)
              phone_result_rows) as (summary & Hs & Hdom & Hviews).
  exists summary. split_and!; [exact Hs | exact Hdom |].
  apply Hviews. do 3 right. left.
Defined.

(** C8 fails as stated: the empty table gets no view at all. *)
Lemma empty_table_has_no_view :
  get_summary_stats {| r_columns := result_columns; r_rows := [] |} = inr ∅ ∧
  (∅ : gmap string (list GroupRow)) !! "product" = None ∧
  (∅ : gmap string (list GroupRow)) !! "product_week" = None ∧
  (∅ : gmap string (list GroupRow)) !! "channel_region" = None ∧
  (∅ : gmap string (list GroupRow)) !! "week" = None.
Proof. split_and!; reflexivity. Qed.

(** ** Loading tables that lack a column *)

Lemma demand_records_lack_region :
  missing_column
    (data_dict_of supply_records build_records forecast_records demand_records)
    "customer_demand" "region".
Proof.
  exists ["channel"; "region"], (DataFrame demand_records). split_and!.
  - unfold required_columns. do 3 right. left.
  - right. left.
  - vm_compute. reflexivity.
  - compute_done.
Qed.

(** C7 on tables whose customer demand has no region column. *)
Lemma missing_column_falls_back_to_mock_witness :
  missing_column
    (data_dict_of supply_records build_records forecast_records demand_records)
    "customer_demand" "region" ∧
  load_case2_data supply_records build_records forecast_records demand_records
  = ([WarnMockData], MockData).
Proof.
  split; [exact demand_records_lack_region|].
  exact (proj2 (missing_column_falls_back_to_mock supply_records build_records
                  forecast_records demand_records "customer_demand" "region"
                  demand_records_lack_region)).
Defined.

(** C7 fails as stated: the fourth table has no region column; nothing
    is raised, and the caller receives the generated tables. *)
Lemma missing_column_yields_mock_data :
  ("region" ∉ (lower <$> f_columns (DataFrame demand_records))) ∧
  validate_case2_data
    (data_dict_of supply_records build_records forecast_records demand_records)
    = false ∧
  load_case2_data supply_records build_records forecast_records demand_records
    = ([WarnMockData], MockData) ∧
  (∀ data_dict,
     load_case2_data supply_records build_records forecast_records
       demand_records ≠ ([], FromFile data_dict)).
Proof.
  split_and!.
  - compute_done.
  - vm_compute. reflexivity.
  - vm_compute. reflexivity.
  - intros d. vm_compute. discriminate.
Qed.


(** ** Further statements on the small instance *)



(** X2 on the small instance without its product column. *)
Lemma missing_product_column_raises_witness :
  demand_empty (customer_demand_df productless_data) = false ∧
  optimize_supply_allocation no_text_number phone_solve productless_data
    None None None None = inl (KeyError "product").
Proof.
  assert (demand_empty (customer_demand_df productless_data) = false) as He
    by reflexivity.
  split; [exact He|].
  apply (missing_product_column_raises no_text_number phone_solve
           productless_data None None None None He).
  compute_done.
Defined.

(** X3 on the small instance. *)
Lemma row_satisfaction_and_priority_witness :
  lp_model no_text_number phone_data None None None None = inr phone_model ∧
  solver_sound phone_solve (m_prob phone_model) ∧
  ∀ row, row ∈ r_rows phone_result →
    r_satisfaction row = (r_allocation row / r_demand row)%Q ∧
    (0 < r_satisfaction row)%Q ∧ (r_satisfaction row <= 1)%Q.
Proof.
  split_and!; [exact phone_model_built | exact phone_sound |].
  intros row Hrow.
  destruct (row_satisfaction_and_priority no_text_number phone_solve phone_data
              None None None None phone_model phone_result row
              phone_model_built phone_sound phone_result_returned Hrow)
    as (H1 & H2 & H3 & _).
  by split_and!.
Defined.

(** X4 on the small instance. *)
Lemma objective_is_weighted_satisfaction_witness :
  lp_model no_text_number phone_data None None None None = inr phone_model ∧
  objective (m_prob phone_model) =
  all_cells (m_ix phone_model) ≫=
    objective_term (m_demand phone_model)
      (composite_priority
         (product_priorities_or_default (m_ix phone_model) None)
         (channel_priorities_or_default None)
         (region_priorities_or_default (m_ix phone_model) None)).
Proof.
  split; [exact phone_model_built|].
  exact (objective_is_weighted_satisfaction no_text_number phone_data
           None None None None phone_model phone_model_built).
Defined.

Lemma phone_index_sets : index_sets phone_data = inr (m_ix phone_model).
Proof. vm_compute. reflexivity. Qed.

(** X5 on the small instance. *)
Lemma index_sets_contents_witness :
  index_sets phone_data = inr (m_ix phone_model) ∧
  "Default" ∈ channels (m_ix phone_model) ∧
  "Default" ∈ regions (m_ix phone_model) ∧
  NoDup (products (m_ix phone_model)).
Proof.
  split; [exact phone_index_sets|].
  destruct (index_sets_contents phone_data (m_ix phone_model) phone_index_sets)
    as (Hc & Hr & _ & Hp & _).
  by split_and!.
Defined.

(** X6 on the first week of the small instance. *)
Lemma demand_sums_matching_rows_witness :
  distinct_labels phone_data ∧
  lp_model no_text_number phone_data None None None None = inr phone_model ∧
  ∃ d, m_demand phone_model !! phone_wk1 = Some d ∧
       (d == Qsum [week_value no_text_number
                     (d_columns (customer_demand_df phone_data))
                     phone_row "Jan-Wk1"])%Q.
Proof.
  split_and!; [exact phone_labels | exact phone_model_built |].
  assert (phone_wk1 ∈ all_cells (m_ix phone_model)) as Hk by compute_done.
  destruct (demand_sums_matching_rows no_text_number phone_data
              None None None None phone_model phone_wk1
              phone_labels phone_model_built Hk) as (d & Hd & Heq).
  exists d. split; [exact Hd|]. exact Heq.
Defined.


(** * Lists of labels *)

Lemma filter_all {A} (P : A → Prop) `{∀ x, Decision (P x)} (l : list A) :
  (∀ x, x ∈ l → P x) → filter P l = l.
Proof.
  induction l as [|a l IH]; intros Hl; [done|].
  rewrite filter_cons_True by (apply Hl; left).
  f_equal. apply IH. intros; apply Hl. by right.
Qed.

Lemma filter_none {A} (P : A → Prop) `{∀ x, Decision (P x)} (l : list A) :
  (∀ x, x ∈ l → ¬ P x) → filter P l = [].
Proof.
  induction l as [|a l IH]; intros Hl; [done|].
  rewrite filter_cons_False by (apply Hl; left).
  apply IH. intros; apply Hl. by right.
Qed.

Lemma filter_ext_in {A} (P Q : A → Prop) `{∀ x, Decision (P x)}
    `{∀ x, Decision (Q x)} (l : list A) :
  (∀ x, x ∈ l → P x ↔ Q x) → filter P l = filter Q l.
Proof.
  induction l as [|a l IH]; intros Hl; [done|].
  assert (filter P l = filter Q l) as E
    by (apply IH; intros; apply Hl; by right).
  destruct (decide (P a)) as [Hp|Hp].
  - rewrite !filter_cons_True; [by rewrite E|by apply Hl; [left|]|done].
  - rewrite !filter_cons_False; [done| |done].
    intros Hq. apply Hp, Hl; [left|done].
Qed.

Lemma filter_filter_and {A} (P Q : A → Prop) `{∀ x, Decision (P x)}
    `{∀ x, Decision (Q x)} (l : list A) :
  filter P (filter Q l) = filter (λ x, P x ∧ Q x) l.
Proof.
  induction l as [|a l IH]; [done|].
  destruct (decide (Q a)) as [Hq|Hq].
  - rewrite (filter_cons_True Q) by done.
    destruct (decide (P a)) as [Hp|Hp].
    + rewrite !filter_cons_True by done. by rewrite IH.
    + rewrite !filter_cons_False by tauto. done.
  - rewrite (filter_cons_False Q) by done.
    rewrite (filter_cons_False (λ x, P x ∧ Q x)) by tauto. done.
Qed.

Lemma unique_NoDup (l : list string) : NoDup l → unique l = l.
Proof.
  induction 1 as [|a l Ha Hl IH]; [done|]. cbn. rewrite IH. f_equal.
  apply filter_all. by intros b Hb ->.
Qed.

Lemma unique_app (a b : list string) :
  unique (a ++ b) = unique a ++ filter (λ x, x ∉ a) (unique b).
Proof.
  induction a as [|x a IH].
  - cbn. symmetry. apply filter_all. intros ? _. apply not_elem_of_nil.
  - cbn. rewrite IH, filter_app. f_equal. f_equal.
    rewrite filter_filter_and. apply filter_ext_in.
    intros y _. rewrite not_elem_of_cons. tauto.
Qed.

Lemma unique_app_covered (a b : list string) :
  NoDup a → (∀ x, x ∈ b → x ∈ a) → unique (a ++ b) = a.
Proof.
  intros Hnd Hsub. rewrite unique_app, unique_NoDup by done.
  rewrite filter_none; [by rewrite app_nil_r|].
  intros x Hx Hn. apply Hn, Hsub. by apply elem_of_unique.
Qed.

(** The columns of a frame whose records all carry the same keys. *)
Lemma DataFrame_columns (keys : list string) (records : list record) :
  records ≠ [] → NoDup keys → Forall (λ r : record, r.*1 = keys) records →
  f_columns (DataFrame records) = keys.
Proof.
  intros Hne Hnd Hall. unfold DataFrame. cbn [f_columns].
  destruct Hall as [|r rs Hr Hrs]; [done|].
  cbn [fmap list_fmap concat]. rewrite Hr.
  apply unique_app_covered; [done|].
  intros x (l & Hx & Hl)%elem_of_concat.
  apply list_elem_of_fmap in Hl as (r' & -> & Hr').
  rewrite Forall_forall in Hrs. by rewrite (Hrs _ Hr') in Hx.
Qed.


(** * The parsing loops *)

(** ** Stripping *)

Lemma rstrip_with_idemp (space : ascii → bool) (s : string) :
  rstrip_with space (rstrip_with space s) = rstrip_with space s.
Proof.
  induction s as [|a s IH]; [done|]. cbn.
  destruct (rstrip_with space s) as [|b t] eqn:E.
  - destruct (space a) eqn:Ea; [done|]. cbn. by rewrite Ea.
  - cbn. cbn in IH. by rewrite IH.
Qed.

Lemma lstrip_with_no_lead (space : ascii → bool) (s : string) :
  no_lead space (lstrip_with space s).
Proof.
  induction s as [|a s IH]; [done|]. cbn.
  destruct (space a) eqn:Ea; [done|]. by cbn.
Qed.

Lemma lstrip_with_fixed (space : ascii → bool) (s : string) :
  no_lead space s → lstrip_with space s = s.
Proof. destruct s as [|a s]; [done|]. cbn. by intros ->. Qed.

Lemma rstrip_with_no_lead (space : ascii → bool) (s : string) :
  no_lead space s → no_lead space (rstrip_with space s).
Proof.
  destruct s as [|a s]; [done|]. cbn. intros Ha.
  destruct (rstrip_with space s); [by rewrite Ha|done].
Qed.

Lemma strip_idemp (s : string) : strip (strip s) = strip s.
Proof.
  unfold strip.
  rewrite (lstrip_with_fixed _ (rstrip_with is_space _)).
  - apply rstrip_with_idemp.
  - apply rstrip_with_no_lead, lstrip_with_no_lead.
Qed.

(** ** The lines that count *)

Lemma cleaned_clean (lines : list string) :
  Forall clean (cleaned lines).
Proof.
  apply Forall_forall. intros x. unfold cleaned.
  rewrite list_elem_of_filter, list_elem_of_fmap.
  intros (Hs & y & -> & _). split; [apply strip_idemp|done].
Qed.

Lemma cleaned_cons (line : string) (lines : list string) :
  cleaned (line :: lines) =
  if skipped (strip line) then cleaned lines else strip line :: cleaned lines.
Proof.
  unfold cleaned. rewrite fmap_cons.
  destruct (skipped (strip line)) eqn:E.
  - by rewrite filter_cons_False by congruence.
  - by rewrite filter_cons_True by done.
Qed.

Lemma total_supply_loop_cleaned (max_str_digits : nat) (started : bool)
    (lines : list string) :
  total_supply_loop max_str_digits started (cleaned lines)
  = total_supply_loop max_str_digits started lines.
Proof.
  revert started. induction lines as [|line lines IH]; intros started; [done|].
  rewrite cleaned_cons. cbn [total_supply_loop].
  destruct (skipped (strip line)) eqn:E; [apply IH|].
  cbn [total_supply_loop]. rewrite strip_idemp, E.
  destruct (is_supply_header _); [apply IH|].
  destruct started; [|apply IH].
  destruct (is_build_header _); [done|]. by rewrite IH.
Qed.

Lemma actual_build_loop_cleaned (max_str_digits : nat) (started : bool)
    (lines : list string) :
  actual_build_loop max_str_digits started (cleaned lines)
  = actual_build_loop max_str_digits started lines.
Proof.
  revert started. induction lines as [|line lines IH]; intros started; [done|].
  rewrite cleaned_cons. cbn [actual_build_loop].
  destruct (skipped (strip line)) eqn:E; [apply IH|].
  cbn [actual_build_loop]. rewrite strip_idemp, E.
  destruct (is_build_header _); [apply IH|].
  destruct started; [|apply IH].
  destruct (is_forecast_header _); [done|]. by rewrite IH.
Qed.

Lemma demand_forecast_loop_cleaned (max_str_digits : nat) (started : bool)
    (header : list string) (lines : list string) :
  demand_forecast_loop max_str_digits started header (cleaned lines)
  = demand_forecast_loop max_str_digits started header lines.
Proof.
  revert started header.
  induction lines as [|line lines IH]; intros started header; [done|].
  rewrite cleaned_cons. cbn [demand_forecast_loop].
  destruct (skipped (strip line)) eqn:E; [apply IH|].
  cbn [demand_forecast_loop]. rewrite strip_idemp, E.
  destruct (is_forecast_header _); [apply IH|].
  destruct started; [|apply IH].
  destruct (ends_forecast _); [done|]. by rewrite IH.
Qed.

Lemma customer_demand_loop_cleaned (max_str_digits : nat) (started : bool)
    (header : list string) (lines : list string) :
  customer_demand_loop max_str_digits started header (cleaned lines)
  = customer_demand_loop max_str_digits started header lines.
Proof.
  revert started header.
  induction lines as [|line lines IH]; intros started header; [done|].
  rewrite cleaned_cons. cbn [customer_demand_loop].
  destruct (skipped (strip line)) eqn:E; [apply IH|].
  cbn [customer_demand_loop]. rewrite strip_idemp, E.
  destruct (is_customer_header _); [apply IH|].
  destruct started; [|apply IH].
  destruct (_ <=? _)%nat; [|apply IH]. by rewrite IH.
Qed.

Lemma parse_tables_cleaned (max_str_digits : nat) (lines : list string) :
  parse_tables max_str_digits (cleaned lines)
  = parse_tables max_str_digits lines.
Proof.
  unfold parse_tables.
  by rewrite total_supply_loop_cleaned, actual_build_loop_cleaned,
    demand_forecast_loop_cleaned, customer_demand_loop_cleaned.
Qed.

Lemma cleaned_idemp (lines : list string) : cleaned (cleaned lines) = cleaned lines.
Proof.
  induction lines as [|line lines IH]; [done|].
  rewrite cleaned_cons. destruct (skipped (strip line)) eqn:E; [done|].
  by rewrite cleaned_cons, strip_idemp, E, IH.
Qed.

(** X19.  Blank lines, comment lines and the whitespace around a line
    mean nothing to the parser: two files with the same stripped lines,
    blank lines and [#] lines left out, give the same four lists of
    records (or both make the fourth loop raise). *)
Theorem parsing_ignores_comments_and_blanks (max_str_digits : nat)
    (lines lines' : list string) :
  cleaned lines = cleaned lines' →
  parse_tables max_str_digits lines = parse_tables max_str_digits lines'.
Proof.
  intros E.
  by rewrite <- (parse_tables_cleaned _ lines),
    <- (parse_tables_cleaned _ lines'), E.
Qed.

(** ** Text that contains a text *)

Lemma prefix_app_l (a b s : string) :
  String.prefix (String.append a b) s = true → String.prefix a s = true.
Proof.
  revert s. induction a as [|c a IH]; intros s; [by destruct s|].
  destruct s as [|d s]; [done|].
  change (String.append (String c a) b) with (String c (String.append a b)).
  cbn [String.prefix]. destruct (ascii_dec c d); [apply IH|done].
Qed.

Lemma contains_app_l (a b s : string) :
  contains (String.append a b) s = true → contains a s = true.
Proof.
  induction s as [|d s IH]; intros H; cbn [contains] in *.
  - rewrite orb_false_r in *. by eapply prefix_app_l.
  - apply orb_prop in H as [H|H]; apply orb_true_iff.
    + left. by eapply prefix_app_l.
    + right. by apply IH.
Qed.

Lemma contains_cons (a s : string) (d : ascii) :
  contains a s = true → contains a (String d s) = true.
Proof. intros H. cbn [contains]. rewrite H. apply orb_true_r. Qed.

Lemma prefix_contains (a s : string) :
  String.prefix a s = true → contains a s = true.
Proof. intros H. destruct s; cbn [contains]; by rewrite H. Qed.

Lemma prefix_app_r (a b s : string) :
  String.prefix (String.append a b) s = true → contains b s = true.
Proof.
  revert s. induction a as [|c a IH]; intros s.
  - apply prefix_contains.
  - destruct s as [|d s]; [done|].
    change (String.append (String c a) b) with (String c (String.append a b)).
    cbn [String.prefix]. destruct (ascii_dec c d); [|done]. intros H.
    by apply contains_cons, IH.
Qed.

Lemma contains_app_r (a b s : string) :
  contains (String.append a b) s = true → contains b s = true.
Proof.
  induction s as [|d s IH]; intros H; cbn [contains] in H.
  - rewrite orb_false_r in H. by eapply prefix_app_r.
  - apply orb_prop in H as [H|H]; [by eapply prefix_app_r|].
    by apply contains_cons, IH.
Qed.

Lemma not_contains_app_l (a b s : string) :
  contains a s = false → contains (String.append a b) s = false.
Proof.
  intros H. destruct (contains (String.append a b) s) eqn:E; [|done].
  apply contains_app_l in E. congruence.
Qed.

Lemma not_contains_app_r (a b s : string) :
  contains b s = false → contains (String.append a b) s = false.
Proof.
  intros H. destruct (contains (String.append a b) s) eqn:E; [|done].
  apply contains_app_r in E. congruence.
Qed.

(** ** What the header tests say of a data line *)

Lemma plain_row_no_header (line : string) :
  plain_row line →
  is_supply_header line = false ∧ is_build_header line = false ∧
  is_forecast_header line = false ∧ is_customer_header line = false.
Proof.
  intros [Hw Hp]. unfold is_supply_header, is_build_header,
    is_forecast_header, is_customer_header.
  assert (contains "week,total_supply" line = false) as ->
    by exact (not_contains_app_l "week" ",total_supply" _ Hw).
  assert (contains "week,product,actual_build" line = false) as ->
    by exact (not_contains_app_l "week" ",product,actual_build" _ Hw).
  assert (contains "product,channel,region" line = false) as ->
    by exact (not_contains_app_l "product" ",channel,region" _ Hp).
  by rewrite Hp.
Qed.

Lemma wide_row_no_header (line : string) :
  wide_row line →
  is_forecast_header line = false ∧ is_customer_header line = false ∧
  ends_forecast line = false.
Proof.
  unfold wide_row, is_forecast_header, is_customer_header, ends_forecast.
  intros ->. by rewrite !andb_false_r.
Qed.

Lemma forecast_header_no_week (line : string) :
  is_forecast_header line = true →
  is_supply_header line = false ∧ is_build_header line = false.
Proof.
  unfold is_forecast_header, is_supply_header, is_build_header.
  intros [[_ Hw%negb_true_iff]%andb_prop _]%andb_prop.
  assert (contains "week,total_supply" line = false) as ->
    by exact (not_contains_app_l "week" ",total_supply" _ Hw).
  assert (contains "week,product,actual_build" line = false) as ->
    by exact (not_contains_app_l "week" ",product,actual_build" _ Hw). done.
Qed.

Lemma supply_header_has_week (line : string) :
  is_supply_header line = true → is_forecast_header line = false.
Proof.
  unfold is_supply_header, is_forecast_header. intros H.
  assert (contains "week" line = true) as ->
    by exact (contains_app_l "week" ",total_supply" _ H).
  by rewrite andb_false_r.
Qed.

Lemma build_header_has_week (line : string) :
  is_build_header line = true → is_forecast_header line = false.
Proof.
  unfold is_build_header, is_forecast_header. intros H.
  assert (contains "week" line = true) as ->
    by exact (contains_app_l "week" ",product,actual_build" _ H).
  by rewrite andb_false_r.
Qed.

Lemma customer_header_ends_forecast (line : string) :
  is_customer_header line = true → ends_forecast line = true.
Proof.
  unfold is_customer_header, ends_forecast.
  intros [H ->]%andb_prop.
  assert (contains "channel,region" line = true) as ->
    by exact (contains_app_r "product," "channel,region" _ H). done.
Qed.

(** ** The loops, stretch by stretch *)

Section stretches.
Context (max_str_digits : nat).

(** Lines that a loop passes over. *)
Lemma total_supply_loop_pass (started : bool) (line : string)
    (rest : list string) :
  clean line → is_supply_header line = false →
  (started = true → is_build_header line = false ∧
                    supply_record max_str_digits (split "," line) = []) →
  total_supply_loop max_str_digits started (line :: rest)
  = total_supply_loop max_str_digits started rest.
Proof.
  intros [Hs Hk] Hh Hst. cbn [total_supply_loop]. rewrite Hs, Hk, Hh.
  destruct started; [|done]. destruct Hst as [-> ->]; done.
Qed.

Lemma total_supply_loop_rows (rows rest : list string) :
  Forall clean rows → Forall plain_row rows →
  total_supply_loop max_str_digits true (rows ++ rest)
  = supply_records_of max_str_digits rows ++
    total_supply_loop max_str_digits true rest.
Proof.
  induction rows as [|line rows IH]; intros Hc Hp; [done|].
  apply Forall_cons in Hc as [[Hs Hk] Hc].
  apply Forall_cons in Hp as [Hp Hps].
  destruct (plain_row_no_header _ Hp) as (H1 & H2 & _).
  cbn [app total_supply_loop]. rewrite Hs, Hk, H1, H2, IH by done.
  unfold supply_records_of. cbn [mbind list_bind].
  by rewrite <- app_assoc.
Qed.

Lemma total_supply_loop_skip_rows (rows rest : list string) :
  Forall clean rows → Forall plain_row rows →
  total_supply_loop max_str_digits false (rows ++ rest)
  = total_supply_loop max_str_digits false rest.
Proof.
  induction rows as [|line rows IH]; intros Hc Hp; [done|].
  apply Forall_cons in Hc as [[Hs Hk] Hc].
  apply Forall_cons in Hp as [Hp Hps].
  destruct (plain_row_no_header _ Hp) as (H1 & _).
  cbn [app total_supply_loop]. rewrite Hs, Hk, H1. by apply IH.
Qed.

Lemma actual_build_loop_rows (rows rest : list string) :
  Forall clean rows → Forall plain_row rows →
  actual_build_loop max_str_digits true (rows ++ rest)
  = build_records_of max_str_digits rows ++
    actual_build_loop max_str_digits true rest.
Proof.
  induction rows as [|line rows IH]; intros Hc Hp; [done|].
  apply Forall_cons in Hc as [[Hs Hk] Hc].
  apply Forall_cons in Hp as [Hp Hps].
  destruct (plain_row_no_header _ Hp) as (_ & H2 & H3 & _).
  cbn [app actual_build_loop]. rewrite Hs, Hk, H2, H3, IH by done.
  unfold build_records_of. cbn [mbind list_bind].
  by rewrite <- app_assoc.
Qed.

Lemma actual_build_loop_skip_rows (rows rest : list string) :
  Forall clean rows → Forall plain_row rows →
  actual_build_loop max_str_digits false (rows ++ rest)
  = actual_build_loop max_str_digits false rest.
Proof.
  induction rows as [|line rows IH]; intros Hc Hp; [done|].
  apply Forall_cons in Hc as [[Hs Hk] Hc].
  apply Forall_cons in Hp as [Hp Hps].
  destruct (plain_row_no_header _ Hp) as (_ & H2 & _).
  cbn [app actual_build_loop]. rewrite Hs, Hk, H2. by apply IH.
Qed.

Lemma demand_forecast_loop_skip_rows (header : list string)
    (rows rest : list string) :
  Forall clean rows → Forall plain_row rows →
  demand_forecast_loop max_str_digits false header (rows ++ rest)
  = demand_forecast_loop max_str_digits false header rest.
Proof.
  induction rows as [|line rows IH]; intros Hc Hp; [done|].
  apply Forall_cons in Hc as [[Hs Hk] Hc].
  apply Forall_cons in Hp as [Hp Hps].
  destruct (plain_row_no_header _ Hp) as (_ & _ & H3 & _).
  cbn [app demand_forecast_loop]. rewrite Hs, Hk, H3. by apply IH.
Qed.

Lemma demand_forecast_loop_rows (header : string) (rows rest : list string) :
  Forall clean rows → Forall wide_row rows →
  demand_forecast_loop max_str_digits true (split "," header) (rows ++ rest)
  = forecast_records_of max_str_digits header rows ++
    demand_forecast_loop max_str_digits true (split "," header) rest.
Proof.
  induction rows as [|line rows IH]; intros Hc Hp; [done|].
  apply Forall_cons in Hc as [[Hs Hk] Hc].
  apply Forall_cons in Hp as [Hp Hps].
  destruct (wide_row_no_header _ Hp) as (H1 & _ & H3).
  cbn [app demand_forecast_loop]. rewrite Hs, Hk, H1, H3, IH by done.
  unfold forecast_records_of. cbn [mbind list_bind].
  by rewrite <- app_assoc.
Qed.

Lemma customer_demand_loop_skip (header : list string)
    (rows rest : list string) :
  Forall clean rows →
  Forall (λ line, is_customer_header line = false) rows →
  customer_demand_loop max_str_digits false header (rows ++ rest)
  = customer_demand_loop max_str_digits false header rest.
Proof.
  induction rows as [|line rows IH]; intros Hc Hp; [done|].
  apply Forall_cons in Hc as [[Hs Hk] Hc].
  apply Forall_cons in Hp as [Hp Hps].
  cbn [app customer_demand_loop]. rewrite Hs, Hk, Hp. by apply IH.
Qed.

Lemma customer_demand_loop_rows (header : string) (rows : list string) :
  Forall clean rows → Forall wide_row rows →
  customer_demand_loop max_str_digits true (split "," header) rows
  = demand_records_of max_str_digits header rows.
Proof.
  unfold demand_records_of.
  induction rows as [|line rows IH]; intros Hc Hp; [done|].
  apply Forall_cons in Hc as [[Hs Hk] Hc].
  apply Forall_cons in Hp as [Hp Hps].
  destruct (wide_row_no_header _ Hp) as (_ & H2 & _).
  cbn [customer_demand_loop]. rewrite Hs, Hk, H2, IH by done.
  destruct (_ <=? _)%nat eqn:E.
  - apply Nat.leb_le in E. rewrite filter_cons_True by done.
    cbn [mapM]. unfold mret, option_ret.
    destruct (demand_record _ _ _); [|done]. cbn.
    by destruct (mapM _ _).
  - apply Nat.leb_gt in E. by rewrite filter_cons_False by lia.
Qed.
End stretches.

Lemma clean_pass_customer (max_str_digits : nat) (header : list string)
    (line : string) (rest : list string) :
  clean line → is_customer_header line = false →
  customer_demand_loop max_str_digits false header (line :: rest)
  = customer_demand_loop max_str_digits false header rest.
Proof. intros [Hs Hk] Hh. cbn [customer_demand_loop]. by rewrite Hs, Hk, Hh. Qed.

(** ** A file in the layout of the example *)

Section layout.
Context (max_str_digits : nat) (f : Layout).
Context (Hclean : Forall clean (layout_lines f)).
Context (Hlaid : well_laid f).

Lemma layout_clean :
  clean (supply_header f) ∧ Forall clean (supply_rows f) ∧
  clean (build_header f) ∧ Forall clean (build_rows f) ∧
  clean (forecast_header f) ∧ Forall clean (forecast_rows f) ∧
  clean (customer_header f) ∧ Forall clean (customer_rows f).
Proof.
  pose proof Hclean as H. unfold layout_lines in H.
  apply Forall_cons in H as [H1 H]. apply Forall_app in H as [H2 H].
  apply Forall_cons in H as [H3 H]. apply Forall_app in H as [H4 H].
  apply Forall_cons in H as [H5 H]. apply Forall_app in H as [H6 H].
  apply Forall_cons in H as [H7 H8]. done.
Qed.

Lemma layout_rows :
  Forall plain_row (supply_rows f) ∧ Forall plain_row (build_rows f) ∧
  Forall wide_row (forecast_rows f) ∧ Forall wide_row (customer_rows f).
Proof.
  destruct Hlaid as (_ & _ & _ & _ & _ & _ & _ & _ & _ & Hp & Hw).
  apply Forall_app in Hp as [? ?]. apply Forall_app in Hw as [? ?]. done.
Qed.

Lemma layout_total_supply :
  total_supply_loop max_str_digits false (layout_lines f)
  = supply_records_of max_str_digits (supply_rows f).
Proof.
  destruct layout_clean as ([Hs1 Hk1] & Hc1 & [Hs2 Hk2] & _).
  destruct layout_rows as (Hp1 & _).
  destruct Hlaid as (Hh1 & _ & _ & Hh2 & Hn2 & _).
  unfold layout_lines. cbn [total_supply_loop]. rewrite Hs1, Hk1, Hh1.
  rewrite total_supply_loop_rows by done.
  cbn [total_supply_loop]. rewrite Hs2, Hk2, Hn2, Hh2.
  by rewrite app_nil_r.
Qed.

Lemma layout_actual_build :
  actual_build_loop max_str_digits false (layout_lines f)
  = build_records_of max_str_digits (build_rows f).
Proof.
  destruct layout_clean
    as ([Hs1 Hk1] & Hc1 & [Hs2 Hk2] & Hc2 & [Hs3 Hk3] & _).
  destruct layout_rows as (Hp1 & Hp2 & _).
  destruct Hlaid as (_ & Hn1 & _ & Hh2 & _ & _ & Hh3 & _).
  destruct (forecast_header_no_week _ Hh3) as [_ Hn3].
  unfold layout_lines. cbn [actual_build_loop]. rewrite Hs1, Hk1, Hn1.
  rewrite actual_build_loop_skip_rows by done.
  cbn [actual_build_loop]. rewrite Hs2, Hk2, Hh2.
  rewrite actual_build_loop_rows by done.
  cbn [actual_build_loop]. rewrite Hs3, Hk3, Hn3, Hh3.
  by rewrite app_nil_r.
Qed.

Lemma layout_demand_forecast :
  demand_forecast_loop max_str_digits false [] (layout_lines f)
  = forecast_records_of max_str_digits (forecast_header f)
      (forecast_rows f) ++
    (if is_forecast_header (customer_header f)
     then forecast_records_of max_str_digits (customer_header f)
            (customer_rows f)
     else []).
Proof.
  destruct layout_clean
    as ([Hs1 Hk1] & Hc1 & [Hs2 Hk2] & Hc2 & [Hs3 Hk3] & Hc3 &
        [Hs4 Hk4] & Hc4).
  destruct layout_rows as (Hp1 & Hp2 & Hw3 & Hw4).
  destruct Hlaid as (Hh1 & _ & _ & Hh2 & _ & _ & Hh3 & _ & Hh4 & _).
  pose proof (supply_header_has_week _ Hh1) as Hn1.
  pose proof (build_header_has_week _ Hh2) as Hn2.
  pose proof (customer_header_ends_forecast _ Hh4) as He4.
  unfold layout_lines. cbn [demand_forecast_loop]. rewrite Hs1, Hk1, Hn1.
  rewrite demand_forecast_loop_skip_rows by done.
  cbn [demand_forecast_loop]. rewrite Hs2, Hk2, Hn2.
  rewrite demand_forecast_loop_skip_rows by done.
  cbn [demand_forecast_loop]. rewrite Hs3, Hk3, Hh3.
  rewrite demand_forecast_loop_rows by done. f_equal.
  cbn [demand_forecast_loop]. rewrite Hs4, Hk4.
  destruct (is_forecast_header (customer_header f)).
  - rewrite <- (app_nil_r (customer_rows f)) at 1.
    rewrite demand_forecast_loop_rows by done.
    cbn [demand_forecast_loop]. by rewrite app_nil_r.
  - by rewrite He4.
Qed.

Lemma layout_customer_demand :
  customer_demand_loop max_str_digits false [] (layout_lines f)
  = demand_records_of max_str_digits (customer_header f) (customer_rows f).
Proof.
  destruct layout_clean
    as (Hc1 & Hcr1 & Hc2 & Hcr2 & Hc3 & Hcr3 & [Hs4 Hk4] & Hcr4).
  destruct layout_rows as (Hp1 & Hp2 & Hw3 & Hw4).
  destruct Hlaid as (_ & _ & Hn1 & _ & _ & Hn2 & _ & Hn3 & Hh4 & _).
  assert (Forall (λ line, is_customer_header line = false) (supply_rows f))
    as Hq1.
  { eapply Forall_impl; [exact Hp1|]. intros l Hl.
    by destruct (plain_row_no_header _ Hl) as (_ & _ & _ & ?). }
  assert (Forall (λ line, is_customer_header line = false) (build_rows f))
    as Hq2.
  { eapply Forall_impl; [exact Hp2|]. intros l Hl.
    by destruct (plain_row_no_header _ Hl) as (_ & _ & _ & ?). }
  assert (Forall (λ line, is_customer_header line = false) (forecast_rows f))
    as Hq3.
  { eapply Forall_impl; [exact Hw3|]. intros l Hl.
    by destruct (wide_row_no_header _ Hl) as (_ & ? & _). }
  unfold layout_lines. rewrite clean_pass_customer by done.
  rewrite customer_demand_loop_skip by done.
  rewrite clean_pass_customer by done.
  rewrite customer_demand_loop_skip by done.
  rewrite clean_pass_customer by done.
  rewrite customer_demand_loop_skip by done.
  cbn [customer_demand_loop]. rewrite Hs4, Hk4, Hh4.
  by apply customer_demand_loop_rows.
Qed.
End layout.

(** X20.  A file in the layout of the example file.  Its supply table
    is the data lines under the first header and its build table those
    under the second, each line split at the commas; its
    customer-demand table is the lines under the fourth header that
    have a field for every column.  Its forecast table is the lines
    under the third header and, whenever the fourth header mentions
    neither week nor actual_build, the lines of the customer-demand
    table as well, read under the fourth header: the third loop takes
    that header for a new header of its own instead of stopping at
    it. *)
Theorem parse_of_the_example_layout (max_str_digits : nat)
    (lines : list string) (f : Layout) :
  cleaned lines = layout_lines f → well_laid f →
  parse_tables max_str_digits lines =
  rows ← demand_records_of max_str_digits (customer_header f)
            (customer_rows f);
  Some {| total_supply_data :=
            supply_records_of max_str_digits (supply_rows f);
          actual_build_data :=
            build_records_of max_str_digits (build_rows f);
          demand_forecast_data :=
            forecast_records_of max_str_digits (forecast_header f)
              (forecast_rows f) ++
            (if is_forecast_header (customer_header f)
             then forecast_records_of max_str_digits (customer_header f)
                    (customer_rows f)
             else []);
          customer_demand_data := rows |}.
Proof.
  intros Hlines Hlaid.
  assert (Forall clean (layout_lines f)) as Hclean
    by (rewrite <- Hlines; apply cleaned_clean).
  rewrite <- parse_tables_cleaned, Hlines. unfold parse_tables.
  rewrite layout_total_supply, layout_actual_build, layout_demand_forecast,
    layout_customer_demand by done.
  done.
Qed.


(** * The columns of a parsed record *)

Lemma dict_set_keys (col : string) (v : value) (row : record) :
  (dict_set col v row).*1 =
  if bool_decide (col ∈ row.*1) then row.*1 else row.*1 ++ [col].
Proof.
  induction row as [|[col' v'] row IH].
  - by rewrite bool_decide_eq_false_2 by apply not_elem_of_nil.
  - cbn [dict_set]. destruct (String.eqb col col') eqn:E.
    + apply String.eqb_eq in E as ->. cbn.
      by rewrite bool_decide_eq_true_2 by left.
    + apply String.eqb_neq in E. cbn. rewrite IH.
      destruct (decide (col ∈ row.*1)) as [Hin|Hin].
      * by rewrite !bool_decide_eq_true_2 by (done || by right).
      * rewrite !bool_decide_eq_false_2; [done| |done].
        by intros [?|?]%elem_of_cons.
Qed.

Lemma foldl_add_key (ks l : list string) :
  foldl (λ ks c, if bool_decide (c ∈ ks) then ks else ks ++ [c]) ks l
  = ks ++ filter (λ x, x ∉ ks) (unique l).
Proof.
  revert ks. induction l as [|c l IH]; intros ks.
  - cbn. by rewrite app_nil_r.
  - cbn [foldl unique]. rewrite IH. case_bool_decide as Hc.
    + f_equal. rewrite filter_cons_False by tauto.
      rewrite filter_filter_and. apply filter_ext_in.
      intros x _. split; [|tauto]. intros Hx. split; [done|].
      by intros ->.
    + rewrite filter_cons_True by done. rewrite <- app_assoc. cbn.
      do 2 f_equal. rewrite filter_filter_and. apply filter_ext_in.
      intros x _. rewrite not_elem_of_app, list_elem_of_singleton. tauto.
Qed.

Lemma foldl_add_key_nil (l : list string) :
  foldl (λ ks c, if bool_decide (c ∈ ks) then ks else ks ++ [c]) [] l
  = unique l.
Proof.
  rewrite foldl_add_key. cbn. apply filter_all.
  intros ? _. apply not_elem_of_nil.
Qed.

(** The keys of a row of Table 3. *)
Lemma forecast_fold_keys (max_str_digits : nat) (parts header : list string)
    (k : nat) (acc : record) :
  (length header + k <= length parts)%nat →
  (foldl (λ row_data ic,
            match parts !! ic.1 with
            | Some part =>
                if (0 <? ic.1)%nat
                then dict_set ic.2 (int_or_text max_str_digits part) row_data
                else dict_set ic.2 (VStr part) row_data
            | None => row_data
            end) acc (imap (λ i a, ((k + i)%nat, a)) header)).*1
  = foldl (λ ks c, if bool_decide (c ∈ ks) then ks else ks ++ [c])
      acc.*1 header.
Proof.
  revert k acc. induction header as [|col header IH]; intros k acc Hk; [done|].
  cbn [imap foldl fst snd length] in *. rewrite Nat.add_0_r.
  destruct (parts !! k) as [part|] eqn:Hp.
  2:{ apply lookup_ge_None in Hp. lia. }
  rewrite (imap_ext _ (λ i a, ((S k + i)%nat, a))).
  2:{ intros i a _. cbn. f_equal. lia. }
  rewrite IH by lia. f_equal.
  by destruct (0 <? k)%nat; rewrite dict_set_keys.
Qed.

Lemma forecast_row_keys (max_str_digits : nat) (header parts : list string) :
  (length header <= length parts)%nat →
  (forecast_row max_str_digits header parts).*1 = unique header.
Proof.
  intros Hlen. unfold forecast_row.
  change (enumerate header) with (imap (λ i a, ((0 + i)%nat, a)) header).
  rewrite forecast_fold_keys by lia. apply foldl_add_key_nil.
Qed.

(** The keys of a row of Table 4. *)
Lemma demand_fold_None (max_str_digits : nat) (parts : list string)
    (l : list (nat * string)) :
  foldl (λ row_data ic,
           row ← row_data;
           match parts !! ic.1 with
           | Some part =>
               v ← demand_cell max_str_digits ic.1 part;
               Some (dict_set ic.2 v row)
           | None => Some row
           end) None l = None.
Proof. induction l as [|x l IH]; [done|]. exact IH. Qed.

Lemma demand_fold_keys (max_str_digits : nat) (parts header : list string)
    (k : nat) (acc row : record) :
  (length header + k <= length parts)%nat →
  foldl (λ row_data ic,
           row ← row_data;
           match parts !! ic.1 with
           | Some part =>
               v ← demand_cell max_str_digits ic.1 part;
               Some (dict_set ic.2 v row)
           | None => Some row
           end) (Some acc) (imap (λ i a, ((k + i)%nat, a)) header)
  = Some row →
  row.*1 = foldl (λ ks c, if bool_decide (c ∈ ks) then ks else ks ++ [c])
             acc.*1 header.
Proof.
  revert k acc. induction header as [|col header IH]; intros k acc Hk.
  - cbn. by intros [= <-].
  - cbn [imap foldl fst snd length mbind option_bind] in *.
    rewrite Nat.add_0_r.
    destruct (parts !! k) as [part|] eqn:Hp.
    2:{ apply lookup_ge_None in Hp. lia. }
    rewrite (imap_ext _ (λ i a, ((S k + i)%nat, a))).
    2:{ intros i a _. cbn. f_equal. lia. }
    destruct (demand_cell max_str_digits k part) as [v|];
      cbn [mbind option_bind].
    + intros Hrow. apply IH in Hrow; [|lia]. rewrite Hrow.
      by rewrite dict_set_keys.
    + by rewrite demand_fold_None.
Qed.

Lemma demand_record_keys (max_str_digits : nat) (header parts : list string)
    (row : record) :
  (length header <= length parts)%nat →
  demand_record max_str_digits header parts = Some row →
  row.*1 = unique header.
Proof.
  intros Hlen. unfold demand_record.
  change (enumerate header) with (imap (λ i a, ((0 + i)%nat, a)) header).
  intros Hrow. apply demand_fold_keys in Hrow; [|lia]. rewrite Hrow.
  apply foldl_add_key_nil.
Qed.

(** ** What each loop collects *)

Lemma total_supply_loop_keys (max_str_digits : nat) (started : bool)
    (lines : list string) (r : record) :
  r ∈ total_supply_loop max_str_digits started lines →
  r.*1 = ["week"; "total_supply"].
Proof.
  revert started. induction lines as [|line lines IH]; intros started.
  - by intros ?%elem_of_nil.
  - cbn [total_supply_loop]. destruct (skipped _); [apply IH|].
    destruct (is_supply_header _); [apply IH|].
    destruct started; [|apply IH].
    destruct (is_build_header _); [by intros ?%elem_of_nil|].
    intros [Hr|Hr]%elem_of_app; [|by eapply IH].
    unfold supply_record in Hr.
    destruct (split "," (strip line)) as [|w [|s ?]];
      try (by apply elem_of_nil in Hr).
    by apply list_elem_of_singleton in Hr as ->.
Qed.

Lemma actual_build_loop_keys (max_str_digits : nat) (started : bool)
    (lines : list string) (r : record) :
  r ∈ actual_build_loop max_str_digits started lines →
  r.*1 = ["week"; "product"; "actual_build"].
Proof.
  revert started. induction lines as [|line lines IH]; intros started.
  - by intros ?%elem_of_nil.
  - cbn [actual_build_loop]. destruct (skipped _); [apply IH|].
    destruct (is_build_header _); [apply IH|].
    destruct started; [|apply IH].
    destruct (is_forecast_header _); [by intros ?%elem_of_nil|].
    intros [Hr|Hr]%elem_of_app; [|by eapply IH].
    unfold build_record in Hr.
    destruct (split "," (strip line)) as [|w [|p [|b ?]]];
      try (by apply elem_of_nil in Hr).
    by apply list_elem_of_singleton in Hr as ->.
Qed.

Lemma elem_of_cleaned (line : string) (lines : list string) :
  line ∈ lines → skipped (strip line) = false → strip line ∈ cleaned lines.
Proof.
  intros Hin Hs. unfold cleaned. apply list_elem_of_filter. split; [done|].
  apply list_elem_of_fmap. eauto.
Qed.

Lemma demand_forecast_loop_keys (max_str_digits : nat) (started : bool)
    (header : list string) (lines : list string) (r : record) :
  r ∈ demand_forecast_loop max_str_digits started header lines →
  (started = true ∧ r.*1 = unique header) ∨
  ∃ h, h ∈ cleaned lines ∧ is_forecast_header h = true ∧
       r.*1 = unique (split "," h).
Proof.
  revert started header.
  induction lines as [|line lines IH]; intros started header.
  - by intros ?%elem_of_nil.
  - assert (∀ st hd,
      r ∈ demand_forecast_loop max_str_digits st hd lines →
      (st = true ∧ r.*1 = unique hd) ∨
      ∃ h, h ∈ cleaned (line :: lines) ∧ is_forecast_header h = true ∧
           r.*1 = unique (split "," h)) as IH'.
    { intros st hd Hr. destruct (IH st hd Hr) as [?|(h & Hh & ?)]; [by left|].
      right. exists h. split; [|done]. rewrite cleaned_cons.
      destruct (skipped _); [done|by right]. }
    cbn [demand_forecast_loop].
    destruct (skipped (strip line)) eqn:Hs; [apply IH'|].
    destruct (is_forecast_header (strip line)) eqn:Hh.
    { intros Hr. destruct (IH' _ _ Hr) as [[_ Hk]|?]; [|by right].
      right. exists (strip line). split_and!; [|done..].
      apply elem_of_cleaned; [left|done]. }
    destruct started; [|apply IH'].
    destruct (ends_forecast _); [by intros ?%elem_of_nil|].
    intros [Hr|Hr]%elem_of_app; [|by apply IH'].
    destruct (_ <=? _)%nat eqn:El; [|by apply elem_of_nil in Hr].
    apply list_elem_of_singleton in Hr as ->. left. split; [done|].
    apply forecast_row_keys. by apply Nat.leb_le.
Qed.

Lemma customer_demand_loop_keys (max_str_digits : nat) (started : bool)
    (header : list string) (lines : list string) (rows : list record)
    (r : record) :
  customer_demand_loop max_str_digits started header lines = Some rows →
  r ∈ rows →
  (started = true ∧ r.*1 = unique header) ∨
  ∃ h, h ∈ cleaned lines ∧ is_customer_header h = true ∧
       r.*1 = unique (split "," h).
Proof.
  revert started header rows.
  induction lines as [|line lines IH]; intros started header rows.
  - intros [= <-]. by intros ?%elem_of_nil.
  - assert (∀ st hd rows,
      customer_demand_loop max_str_digits st hd lines = Some rows →
      r ∈ rows →
      (st = true ∧ r.*1 = unique hd) ∨
      ∃ h, h ∈ cleaned (line :: lines) ∧ is_customer_header h = true ∧
           r.*1 = unique (split "," h)) as IH'.
    { intros st hd rs Hrs Hr.
      destruct (IH st hd rs Hrs Hr) as [?|(h & Hh & ?)]; [by left|].
      right. exists h. split; [|done]. rewrite cleaned_cons.
      destruct (skipped _); [done|by right]. }
    cbn [customer_demand_loop].
    destruct (skipped (strip line)) eqn:Hs; [apply IH'|].
    destruct (is_customer_header (strip line)) eqn:Hh.
    { intros Hrs Hr. destruct (IH' _ _ _ Hrs Hr) as [[_ Hk]|?]; [|by right].
      right. exists (strip line). split_and!; [|done..].
      apply elem_of_cleaned; [left|done]. }
    destruct started; [|apply IH'].
    destruct (_ <=? _)%nat eqn:El; [|apply IH'].
    destruct (demand_record _ _ _) as [row|] eqn:Hrow; [|done].
    cbn [mbind option_bind].
    destruct (customer_demand_loop _ _ _ lines) as [rs|] eqn:Hrs; [|done].
    cbn. intros [= <-] [->|Hr]%elem_of_cons; [|by eapply IH'].
    left. split; [done|]. eapply demand_record_keys; [|done].
    by apply Nat.leb_le.
Qed.

(** X21.  Every parsed record has exactly the columns of the header it
    was read under, each once and in the order of the header: a data
    line with fewer fields than its header is dropped and the extra
    fields of a longer one are cut, so no record lacks a column of its
    header.  A supply record has week and total_supply, a build record
    week, product and actual_build. *)
Theorem records_carry_their_header (max_str_digits : nat)
    (lines : list string) (p : Parsed) :
  parse_tables max_str_digits lines = Some p →
  (∀ r, r ∈ total_supply_data p → r.*1 = ["week"; "total_supply"]) ∧
  (∀ r, r ∈ actual_build_data p →
        r.*1 = ["week"; "product"; "actual_build"]) ∧
  (∀ r, r ∈ demand_forecast_data p →
        ∃ h, h ∈ cleaned lines ∧ is_forecast_header h = true ∧
             r.*1 = unique (split "," h)) ∧
  (∀ r, r ∈ customer_demand_data p →
        ∃ h, h ∈ cleaned lines ∧ is_customer_header h = true ∧
             r.*1 = unique (split "," h)).
Proof.
  unfold parse_tables. intros Hp.
  destruct (customer_demand_loop _ _ _ _) as [rows|] eqn:Hrows; [|done].
  injection Hp as <-. cbn. split_and!.
  - intros r. apply total_supply_loop_keys.
  - intros r. apply actual_build_loop_keys.
  - intros r Hr.
    by destruct (demand_forecast_loop_keys _ _ _ _ _ Hr) as [[? _]|?].
  - intros r Hr.
    by destruct (customer_demand_loop_keys _ _ _ _ _ _ Hrows Hr) as [[? _]|?].
Qed.


(** * The generated tables and the loaders *)

(** ** Loops that draw *)

Lemma draw_each_length {G A B} (l : list A) (body : A → G → B * G) (g : G) :
  length (draw_each l body g).1 = length l.
Proof.
  revert g. induction l as [|a l IH]; intros g; [done|].
  cbn. by rewrite IH.
Qed.

Lemma draw_each_Forall {G A B} (P : B → Prop) (l : list A)
    (body : A → G → B * G) (g : G) :
  (∀ a g, a ∈ l → P (body a g).1) → Forall P (draw_each l body g).1.
Proof.
  revert g. induction l as [|a l IH]; intros g Hb; [by constructor|].
  cbn. constructor; [apply Hb; left|]. apply IH. intros; apply Hb. by right.
Qed.

(** ** Dropping the fraction of a float *)

Lemma int_of_float_bounds (lo hi : Z) (q : Q) :
  (0 <= lo)%Z → (inject_Z lo <= q)%Q → (q <= inject_Z hi)%Q →
  (lo <= int_of_float q <= hi)%Z.
Proof.
  intros Hlo Hl Hh. unfold int_of_float. destruct q as [n d].
  unfold Qle in Hl, Hh. cbn in *.
  assert (0 <= n)%Z by nia.
  rewrite Z.quot_div_nonneg by lia. split.
  - apply Z.div_le_lower_bound; lia.
  - apply Z.div_le_upper_bound; lia.
Qed.

(** ** The generated tables of case 2 *)

Lemma mock_case2_validates {G} `{NumpyRandom G} :
  validate_case2_data _generate_mock_case2_data = true.
Proof. vm_compute. reflexivity. Qed.

Lemma mock_case2_dom {G} `{NumpyRandom G} :
  dom (_generate_mock_case2_data (G := G)) =
  {["total_supply"; "actual_build"; "demand_forecast"; "customer_demand"]}.
Proof.
  unfold _generate_mock_case2_data, data_dict_of, dict_of. cbn [foldl fst snd].
  rewrite !dom_insert_L, dom_empty_L. compute_done.
Qed.

(** X14.  Whatever the file and whatever numpy draws, the tables that
    [load_case2_data] returns are the four tables and they pass
    [validate_case2_data]; so the check that [case2_app.py] makes after
    loading never stops the page. *)
Theorem loaded_tables_always_validate {G} `{NumpyRandom G}
    (max_str_digits : nat) (disk : Disk) (file_path : option string) :
  validate_case2_data
    (load_case2_file (G := G) max_str_digits disk file_path).2 = true ∧
  dom (load_case2_file (G := G) max_str_digits disk file_path).2 =
    {["total_supply"; "actual_build"; "demand_forecast"; "customer_demand"]} ∧
  case2_app_load (G := G) max_str_digits disk
    = Some (load_case2_file (G := G) max_str_digits disk None).2.
Proof.
  assert (∀ fp,
    validate_case2_data
      (load_case2_file (G := G) max_str_digits disk fp).2 = true ∧
    dom (load_case2_file (G := G) max_str_digits disk fp).2 =
      {["total_supply"; "actual_build"; "demand_forecast";
        "customer_demand"]}) as Hall.
  { intros fp. unfold load_case2_file.
    destruct (negb _); [split; [apply mock_case2_validates|apply mock_case2_dom]|].
    destruct (readlines _ _) as [lines|];
      [|split; [apply mock_case2_validates|apply mock_case2_dom]].
    destruct (parse_tables _ _) as [t|];
      [|split; [apply mock_case2_validates|apply mock_case2_dom]].
    unfold load_case2_data.
    destruct (_ && validate_case2_data _) eqn:E;
      [|split; [apply mock_case2_validates|apply mock_case2_dom]].
    apply andb_prop in E as [_ E]. cbn [snd]. split; [done|].
    unfold data_dict_of, dict_of. cbn [foldl fst snd].
    rewrite !dom_insert_L, dom_empty_L. compute_done. }
  split_and!; [apply Hall..|].
  unfold case2_app_load. by rewrite (proj1 (Hall None)).
Qed.

(** ** The four generated lists *)

Lemma f_records_DataFrame (records : list record) :
  f_records (DataFrame records) = records.
Proof. reflexivity. Qed.

Lemma mock_supply_fields {G} `{NumpyRandom G} (g : G) :
  Forall (λ r, ∃ week s,
            dict_get "week" r = Some (VStr week) ∧
            dict_get "total_supply" r = Some (number s))
         (mock_total_supply g).1.
Proof.
  apply draw_each_Forall. intros week g' _. cbn. by eexists _, _.
Qed.

Lemma mock_build_fields {G} `{NumpyRandom G} (g : G) :
  Forall (λ r, ∃ week product b,
            dict_get "week" r = Some (VStr week) ∧
            dict_get "product" r = Some (VStr product) ∧
            dict_get "actual_build" r = Some (number b))
         (mock_actual_build g).1.
Proof.
  apply draw_each_Forall. intros wp g' _. cbn. by eexists _, _, _.
Qed.

Lemma mock_customer_fields {G} `{NumpyRandom G} (g : G) :
  Forall (λ r, r.*1 = ["channel"; "region"; "Jan-Wk1"; "Jan-Wk2"; "Jan-Wk3";
                       "Jan-Wk4"; "Jan-Wk5"] ∧
               ∃ channel region,
                 dict_get "channel" r = Some (VStr channel) ∧
                 dict_get "region" r = Some (VStr region))
         (mock_customer_demand g).1.
Proof.
  apply draw_each_Forall. intros cr g' _. cbn. split; [done|].
  by eexists _, _.
Qed.

Lemma mock_customer_length {G} `{NumpyRandom G} (g : G) :
  length (mock_customer_demand g).1 = 9%nat.
Proof. unfold mock_customer_demand. by rewrite draw_each_length. Qed.

Lemma mock_customer_columns {G} `{NumpyRandom G} (g : G) :
  f_columns (DataFrame (mock_customer_demand g).1)
  = ["channel"; "region"; "Jan-Wk1"; "Jan-Wk2"; "Jan-Wk3"; "Jan-Wk4";
     "Jan-Wk5"].
Proof.
  apply DataFrame_columns.
  - intros E. pose proof (mock_customer_length g) as Hl. by rewrite E in Hl.
  - compute_done.
  - eapply Forall_impl; [apply mock_customer_fields|]. by intros r [? _].
Qed.

(** ** From loaded tables to the input of the optimizer *)

Lemma optimizer_input_Some (data : gmap string Frame)
    (supply build demand : Frame) :
  data !! "total_supply" = Some supply →
  data !! "actual_build" = Some build →
  data !! "customer_demand" = Some demand →
  Forall (λ r, ∃ week s, dict_get "week" r = Some (VStr week) ∧
                         dict_get "total_supply" r = Some (VNum s))
         (f_records supply) →
  Forall (λ r, ∃ week product b,
            dict_get "week" r = Some (VStr week) ∧
            dict_get "product" r = Some (VStr product) ∧
            dict_get "actual_build" r = Some (VNum b))
         (f_records build) →
  Forall (λ r, ∀ col, col ∈ ["product"; "channel"; "region"] →
                      col ∈ f_columns demand →
                      ∃ label, dict_get col r = Some (VStr label))
         (f_records demand) →
  ∃ input,
    optimizer_input data = Some input ∧
    d_columns (customer_demand_df input) = f_columns demand ∧
    length (d_rows (customer_demand_df input)) = length (f_records demand).
Proof.
  intros L1 L2 L4 Hs Hb Hd.
  assert (is_Some (mapM (λ r,
            week ← text_of (dict_get "week" r);
            total ← number_of (dict_get "total_supply" r);
            Some {| s_week := week; s_total_supply := total |})
            (f_records supply))) as [srows Es].
  { apply mapM_is_Some_2. eapply Forall_impl; [exact Hs|].
    intros r (week & s & Hw & Ht). unfold compose. rewrite Hw, Ht.
    by eexists. }
  assert (is_Some (mapM (λ r,
            week ← text_of (dict_get "week" r);
            product ← text_of (dict_get "product" r);
            actual ← number_of (dict_get "actual_build" r);
            Some {| b_week := week; b_product := product;
                    b_actual_build := actual |})
            (f_records build))) as [brows Eb].
  { apply mapM_is_Some_2. eapply Forall_impl; [exact Hb|].
    intros r (week & product & b & Hw & Hp & Ha). unfold compose.
    rewrite Hw, Hp, Ha. by eexists. }
  assert (is_Some (mapM (λ r,
            product ← label_of (f_columns demand) "product" r;
            channel ← label_of (f_columns demand) "channel" r;
            region ← label_of (f_columns demand) "region" r;
            Some {| d_product := product; d_channel := channel;
                    d_region := region; d_cells := dict_of r |})
            (f_records demand))) as [drows Ed].
  { apply mapM_is_Some_2. eapply Forall_impl; [exact Hd|].
    intros r Hr. unfold compose.
    assert (∀ col, col ∈ ["product"; "channel"; "region"] →
                   is_Some (label_of (f_columns demand) col r)) as Hl.
    { intros col Hcol. unfold label_of. case_bool_decide; [|by eexists].
      destruct (Hr col Hcol) as [label ->]; [done|]. by eexists. }
    destruct (Hl "product") as [p ->]; [compute_done|].
    destruct (Hl "channel") as [c ->]; [compute_done|].
    destruct (Hl "region") as [rg ->]; [compute_done|]. by eexists. }
  eexists. split_and!.
  - unfold optimizer_input. rewrite L1, L2, L4. cbn [mbind option_bind].
    rewrite Es, Eb. cbn [mbind option_bind]. rewrite Ed.
    cbn [mbind option_bind]. reflexivity.
  - reflexivity.
  - cbn [customer_demand_df d_rows]. symmetry. by eapply length_mapM.
Qed.

Lemma mock_case2_lookups {G} `{NumpyRandom G} :
  _generate_mock_case2_data (G := G) !! "total_supply"
    = Some (DataFrame (total_supply_data mock_case2_tables)) ∧
  _generate_mock_case2_data (G := G) !! "actual_build"
    = Some (DataFrame (actual_build_data mock_case2_tables)) ∧
  _generate_mock_case2_data (G := G) !! "demand_forecast"
    = Some (DataFrame (demand_forecast_data mock_case2_tables)) ∧
  _generate_mock_case2_data (G := G) !! "customer_demand"
    = Some (DataFrame (customer_demand_data mock_case2_tables)).
Proof.
  unfold _generate_mock_case2_data, data_dict_of, dict_of.
  generalize (mock_case2_tables (G := G)). intros t.
  cbn [foldl fst snd].
  split_and!.
  - by rewrite !lookup_insert_ne, lookup_insert_eq by done.
  - by rewrite !lookup_insert_ne, lookup_insert_eq by done.
  - by rewrite !lookup_insert_ne, lookup_insert_eq by done.
  - by rewrite lookup_insert_eq.
Qed.

(** A non-empty Table 4 that has no product column. *)
Lemma optimize_without_product_column
    (float_of_str : string → option Q) (solve : LpProblem → Solution)
    (data : Data) (pp cp rp : option (gmap string Z))
    (sc : option (list (gmap string pyval))) :
  d_rows (customer_demand_df data) ≠ [] →
  d_columns (customer_demand_df data) ≠ [] →
  "product" ∉ d_columns (customer_demand_df data) →
  optimize_supply_allocation float_of_str solve data pp cp rp sc
  = inl (KeyError "product").
Proof.
  intros Hrows Hcols Hno.
  assert (labels_of (customer_demand_df data) "product" d_product
          = inl (KeyError "product")) as Hraise.
  { unfold labels_of, demand_column, demand_empty.
    destruct (d_rows (customer_demand_df data)); [done|].
    destruct (d_columns (customer_demand_df data)) eqn:E; [done|].
    by rewrite bool_decide_eq_false_2. }
  unfold optimize_supply_allocation, lp_model, index_sets.
  by rewrite Hraise.
Qed.

(** X15.  The generated tables cannot be optimized.  Their customer
    demand has the columns channel, region and the five weeks and no
    product column, so on the tables that the loader falls back to,
    [optimize_supply_allocation] raises [KeyError] on [product],
    whatever numpy draws, whatever the priorities, the overrides and
    the solver. *)
Theorem generated_tables_raise_in_the_optimizer {G} `{NumpyRandom G}
    (float_of_str : string → option Q) (solve : LpProblem → Solution)
    (pp cp rp : option (gmap string Z))
    (sc : option (list (gmap string pyval))) :
  ∃ data,
    optimizer_input (_generate_mock_case2_data (G := G)) = Some data ∧
    d_columns (customer_demand_df data) =
      ["channel"; "region"; "Jan-Wk1"; "Jan-Wk2"; "Jan-Wk3"; "Jan-Wk4";
       "Jan-Wk5"] ∧
    length (d_rows (customer_demand_df data)) = 9%nat ∧
    optimize_supply_allocation float_of_str solve data pp cp rp sc
    = inl (KeyError "product").
Proof.
  destruct (mock_case2_lookups (G := G)) as (L1 & L2 & _ & L4).
  unfold mock_case2_tables in L1, L2, L4.
  cbv zeta in L1, L2, L4.
  cbn [total_supply_data actual_build_data customer_demand_data] in L1, L2, L4.
  set (g2 := (mock_actual_build (mock_total_supply (seed 42)).2).2) in *.
  set (g3 := (mock_demand_forecast g2).2) in *.
  clearbody g3.
  destruct (optimizer_input_Some _ _ _ _ L1 L2 L4) as (data & Hin & Hc & Hl).
  - clear L1 L2 L4. rewrite f_records_DataFrame.
    eapply Forall_impl; [apply mock_supply_fields|].
    intros r (week & s & Hw & Hs). exists week, (inject_Z s). by split.
  - clear L1 L2 L4. rewrite f_records_DataFrame.
    eapply Forall_impl; [apply mock_build_fields|].
    intros r (week & p & b & Hw & Hp & Hb). exists week, p, (inject_Z b).
    by split_and!.
  - clear L1 L2 L4. rewrite f_records_DataFrame, mock_customer_columns.
    eapply Forall_impl; [apply mock_customer_fields|].
    intros r (_ & channel & region & Hch & Hr) col Hcol Hin.
    repeat (apply elem_of_cons in Hcol as [->|Hcol]);
      [exfalso; revert Hin; compute_done|by eexists|by eexists|].
    by apply elem_of_nil in Hcol.
  - rewrite f_records_DataFrame, mock_customer_length in Hl.
    rewrite mock_customer_columns in Hc.
    exists data. split_and!; [done..|].
    apply optimize_without_product_column.
    + intros E. by rewrite E in Hl.
    + by rewrite Hc.
    + rewrite Hc. compute_done.
Qed.

(** X16.  The figures of the generated tables, when numpy's draws keep
    within their bounds: 5 weekly supplies between 800 and 1000, 15
    builds between 150 and 350, 3 forecast rows with every week between
    200 and 400, and 9 customer rows whose every week is at least 50
    (this last bound whatever numpy draws). *)
Theorem generated_figures_are_in_range {G} `{NumpyRandom G} :
  draws_in_range (G := G) →
  (length (total_supply_data (mock_case2_tables (G := G))) = 5%nat ∧
   ∀ r, r ∈ total_supply_data (mock_case2_tables (G := G)) →
     ∃ s, dict_get "total_supply" r = Some (number s) ∧
          (800 <= s <= 1000)%Z) ∧
  (length (actual_build_data (mock_case2_tables (G := G))) = 15%nat ∧
   ∀ r, r ∈ actual_build_data (mock_case2_tables (G := G)) →
     ∃ b, dict_get "actual_build" r = Some (number b) ∧
          (150 <= b <= 350)%Z) ∧
  (length (demand_forecast_data (mock_case2_tables (G := G))) = 3%nat ∧
   ∀ r week, r ∈ demand_forecast_data (mock_case2_tables (G := G)) →
     week ∈ mock_weeks →
     ∃ d, dict_get week r = Some (number d) ∧ (200 <= d <= 400)%Z) ∧
  (length (customer_demand_data (mock_case2_tables (G := G))) = 9%nat ∧
   ∀ r week, r ∈ customer_demand_data (mock_case2_tables (G := G)) →
     week ∈ mock_weeks →
     ∃ d, dict_get week r = Some (number d) ∧ (50 <= d)%Z).
Proof.
  intros [Hint _].
  assert (∀ lo hi g lo' hi', (lo < hi)%Z → (lo' <= lo)%Z → (hi <= hi' + 1)%Z →
            (lo' <= (randint lo hi g).1 <= hi')%Z) as Hr.
  { intros lo hi g lo' hi' ? ? ?. pose proof (Hint lo hi g). lia. }
  unfold mock_case2_tables. cbv zeta.
  cbn [total_supply_data actual_build_data demand_forecast_data
       customer_demand_data].
  generalize (seed 42). intros g1.
  generalize ((mock_total_supply g1).2). intros g2.
  generalize ((mock_actual_build g2).2). intros g3.
  generalize ((mock_demand_forecast g3).2). intros g4.
  split_and!.
  - unfold mock_total_supply. by rewrite draw_each_length.
  - apply Forall_forall, draw_each_Forall. intros week g _. cbn.
    eexists. split; [done|]. apply Hr; lia.
  - unfold mock_actual_build. by rewrite draw_each_length.
  - apply Forall_forall, draw_each_Forall. intros wp g _. cbn.
    eexists. split; [done|].
    destruct (String.eqb wp.2 "Superman Plus"); [apply Hr; lia|].
    destruct (String.eqb wp.2 "Dwarf Plus"); apply Hr; lia.
  - unfold mock_demand_forecast. by rewrite draw_each_length.
  - intros r week Hin Hweek. revert r Hin. apply Forall_forall.
    apply draw_each_Forall. intros product g _.
    assert (∀ g, (200 <= (if String.eqb product "Superman Plus"
                          then randint 280 351 g
                          else if String.eqb product "Dwarf Plus"
                               then randint 200 281 g
                               else randint 300 401 g).1 <= 400)%Z) as Hd.
    { intros g'. destruct (String.eqb product "Superman Plus");
        [apply Hr; lia|].
      destruct (String.eqb product "Dwarf Plus"); apply Hr; lia. }
    unfold mock_weeks in *. cbn -[randint].
    repeat (apply elem_of_cons in Hweek as [->|Hweek];
            [cbn; eexists; split; [reflexivity|apply Hd]|]).
    by apply elem_of_nil in Hweek.
  - apply mock_customer_length.
  - intros r week Hin Hweek. revert r Hin. apply Forall_forall.
    apply draw_each_Forall. intros cr g _.
    unfold mock_weeks in *. cbn -[normal Z.max int_of_float mock_base_demand].
    repeat (apply elem_of_cons in Hweek as [->|Hweek];
            [cbn -[normal Z.max int_of_float mock_base_demand];
             eexists; split; [reflexivity|lia]|]).
    by apply elem_of_nil in Hweek.
Qed.

(** ** Case 1 *)

Lemma mock_case1_validates {G} `{NumpyRandom G} :
  validate_case1_data (_generate_mock_case1_data (G := G)) = true.
Proof. vm_compute. reflexivity. Qed.

Lemma mock_case1_lookup {G} `{NumpyRandom G} :
  _generate_mock_case1_data (G := G) !! "historical_sales"
  = Some (DataFrame mock_case1_records).
Proof.
  unfold _generate_mock_case1_data, dict_of. cbn [foldl fst snd].
  by rewrite lookup_insert_eq.
Qed.

Lemma forallb_subseteq (cols wanted : list string) :
  forallb (λ col, bool_decide (col ∈ cols)) wanted
  = bool_decide (wanted ⊆ cols).
Proof.
  apply eq_true_iff_eq. rewrite forallb_forall, bool_decide_eq_true. split.
  - intros Hall col Hcol. apply list_elem_of_In, Hall in Hcol.
    by apply bool_decide_eq_true in Hcol.
  - intros Hsub col Hcol. apply bool_decide_eq_true, Hsub.
    by apply list_elem_of_In.
Qed.

(** X17.  [load_data] of the case-1 page.  It returns the generated
    table when the file is missing or cannot be read, and the table of
    the file otherwise; it returns [None], which stops the page,
    exactly when the file was read and its table lacks one of the
    columns date, product, region, sales and price under exactly these
    names. *)
Theorem load_data_outcomes {G} `{NumpyRandom G} (disk : Disk) :
  ((path_exists disk (CASE1_DATA_PATH disk) = false ∨
    read_csv disk (CASE1_DATA_PATH disk) = None) →
   load_data (G := G) disk = Some (DataFrame mock_case1_records)) ∧
  (∀ df, path_exists disk (CASE1_DATA_PATH disk) = true →
     read_csv disk (CASE1_DATA_PATH disk) = Some df →
     load_data (G := G) disk =
     if bool_decide (["date"; "product"; "region"; "sales"; "price"]
                       ⊆ f_columns df)
     then Some df else None).
Proof.
  unfold load_data, load_case1_data, path_or. split.
  - intros Hmiss.
    assert ((if negb (path_exists disk (CASE1_DATA_PATH disk))
             then ([ErrorNoFile (CASE1_DATA_PATH disk)],
                   _generate_mock_case1_data (G := G))
             else match read_csv disk (CASE1_DATA_PATH disk) with
                  | Some df => ([], dict_of [("historical_sales", df)])
                  | None => ([ErrorLoading], _generate_mock_case1_data)
                  end).2 = _generate_mock_case1_data) as ->.
    { destruct Hmiss as [-> | Hr]; [done|]. rewrite Hr.
      by destruct (negb _). }
    by rewrite mock_case1_validates, mock_case1_lookup.
  - intros df -> ->. cbn [negb snd].
    unfold validate_case1_data, dict_of. cbn [foldl fst snd].
    rewrite lookup_insert_eq. cbn [default].
    rewrite bool_decide_eq_true_2 by (by eexists). cbn [negb].
    rewrite forallb_subseteq. unfold id.
    by destruct (bool_decide _).
Qed.

(** X18.  The generated sales table: 72 records, each with sales of at
    least 10, with the new-technology flag set exactly for Superman
    Plus in December and, when numpy's draws keep within their bounds,
    a price within 50 of the list price of its product. *)
Theorem generated_sales_records {G} `{NumpyRandom G} :
  draws_in_range (G := G) →
  length (mock_case1_records (G := G)) = 72%nat ∧
  ∀ r, r ∈ mock_case1_records (G := G) →
    ∃ product date sales price,
      dict_get "product" r = Some (VStr product) ∧
      dict_get "date" r = Some (VStr date) ∧
      dict_get "sales" r = Some (number sales) ∧ (10 <= sales)%Z ∧
      dict_get "price" r = Some (number price) ∧
      (mock_base_price product - 50 <= price
         <= mock_base_price product + 50)%Z ∧
      dict_get "new_tech" r =
        Some (number (if String.eqb product "Superman Plus" &&
                         contains "Dec" date then 1 else 0)).
Proof.
  intros [_ Hu]. unfold mock_case1_records. split.
  - by rewrite draw_each_length.
  - apply Forall_forall, draw_each_Forall. intros [[product region] date] g _.
    cbn -[normal uniform Z.max int_of_float mock_base_sales mock_base_price
          mock_new_tech].
    set (u := (uniform (-50) 50 (normal 0 20 g).2).1).
    assert ((-50 <= u)%Q ∧ (u <= 50)%Q) as [Hl Hh]
      by (apply Hu; discriminate).
    assert (699 <= mock_base_price product)%Z as Hbase.
    { unfold mock_base_price.
      destruct (String.eqb product "Superman Plus"); [lia|].
      destruct (String.eqb product "Dwarf Plus"); lia. }
    assert (mock_base_price product - 50
            <= int_of_float (inject_Z (mock_base_price product) + u)
            <= mock_base_price product + 50)%Z as Hprice.
    { apply int_of_float_bounds; [lia|..].
      - unfold Z.sub. rewrite inject_Z_plus, inject_Z_opp.
        change (inject_Z 50) with 50%Q. clearbody u. lra.
      - rewrite inject_Z_plus. change (inject_Z 50) with 50%Q.
        clearbody u. lra. }
    eexists product, date, _, _.
    split_and!; try reflexivity; [lia|apply Hprice..].
Qed.


(** * The optimizer and its summaries, continued *)

(** ** Rows of a returned table *)

Lemma returned_rows
    (float_of_str : string → option Q) (solve : LpProblem → Solution)
    (data : Data) (pp cp rp : option (gmap string Z))
    (sc : option (list (gmap string pyval))) (m : Model) (df : ResultFrame) :
  lp_model float_of_str data pp cp rp sc = inr m →
  optimize_supply_allocation float_of_str solve data pp cp rp sc = inr df →
  r_columns df = result_columns ∧
  ∀ row, row ∈ r_rows df → (0 < r_allocation row)%Q ∧ (0 < r_demand row)%Q.
Proof.
  intros Hm Hopt. rewrite (optimize_unfold _ _ _ _ _ _ _ Hm) in Hopt.
  destruct (decide (status (solve (m_prob m)) = Optimal)) as [Hs|Hs].
  - rewrite (results_of_optimal _ _ _ _ _ _ _ Hm _ Hs) in Hopt.
    injection Hopt as <-. split; [done|]. cbn. intros row Hrow.
    apply list_elem_of_bind in Hrow as (k & Hrow & Hk).
    by apply elem_of_row_at in Hrow as (_ & _ & ? & _ & ? & _).
  - rewrite (results_of_not_optimal _ _ Hs) in Hopt. injection Hopt as <-.
    split; [done|]. by intros row ?%elem_of_nil.
Qed.

Lemma Qsum_pos {A} (f : A → Q) (l : list A) :
  l ≠ [] → (∀ a, a ∈ l → (0 < f a)%Q) → (0 < Qsum (f <$> l))%Q.
Proof.
  intros Hne Hpos. induction l as [|a l IH]; [done|].
  rewrite fmap_cons, Qsum_cons.
  assert (0 < f a)%Q by (apply Hpos; left).
  destruct l as [|b l]; [cbn; lra|].
  assert (0 < Qsum (f <$> b :: l))%Q; [|lra].
  apply IH; [done|]. intros; apply Hpos. by right.
Qed.

(** A group of rows that are served within their demand is served
    within its demand. *)
Lemma group_well_served (cols : list string) (rows : list ResultRow)
    (k : list string) :
  (∀ row, row ∈ rows →
     (0 < r_allocation row)%Q ∧ (r_allocation row <= r_demand row)%Q) →
  k ∈ group_key cols <$> rows →
  well_served (group_of cols rows k).
Proof.
  intros Hrows (row0 & -> & Hrow0)%list_elem_of_fmap.
  set (grp := filter (λ row, group_key cols row = group_key cols row0) rows).
  assert (grp ≠ []) as Hne.
  { assert (row0 ∈ grp) as Hin by (by apply list_elem_of_filter).
    intros E. rewrite E in Hin. by apply elem_of_nil in Hin. }
  assert (∀ row, row ∈ grp → row ∈ rows) as Hsub
    by (by intros row [_ ?]%list_elem_of_filter).
  assert (0 < Qsum (r_allocation <$> grp))%Q as Ha.
  { apply Qsum_pos; [done|]. intros row Hr. by apply Hrows, Hsub. }
  assert (Qsum (r_allocation <$> grp) <= Qsum (r_demand <$> grp))%Q as Hle.
  { apply Qsum_le. intros row Hr. by apply Hrows, Hsub. }
  unfold well_served, group_of. cbn [g_satisfaction]. fold grp.
  unfold float_div. destruct (Qeq_bool _ 0) eqn:E.
  - apply Qeq_bool_iff in E. lra.
  - eexists. split; [done|]. split.
    + apply Qlt_shift_div_l; lra.
    + apply Qle_shift_div_r; lra.
Qed.

Lemma view_lookup (df : ResultFrame)
    (summary : gmap string (list GroupRow)) (name : string)
    (view : list GroupRow) :
  r_columns df = result_columns →
  get_summary_stats df = inr summary → summary !! name = Some view →
  ∃ cols,
    view = group_of cols (r_rows df) <$>
             merge_sort key_le (remove_dups (group_key cols <$> r_rows df)).
Proof.
  intros Hcols Hsum Hview. destruct (r_rows df) as [|row rows] eqn:Hrows.
  - unfold get_summary_stats, result_empty in Hsum. rewrite Hrows in Hsum.
    injection Hsum as <-. by rewrite lookup_empty in Hview.
  - rewrite get_summary_stats_nonempty in Hsum by (by rewrite ?Hrows).
    injection Hsum as <-. rewrite Hrows in Hview.
    repeat (apply lookup_insert_Some in Hview as [[_ <-] | [_ Hview]];
            [by eexists|]).
    by rewrite lookup_empty in Hview.
Qed.

Lemma get_summary_stats_total (df : ResultFrame) :
  r_columns df = result_columns → ∃ summary, get_summary_stats df = inr summary.
Proof.
  intros Hcols. destruct (r_rows df) as [|row rows] eqn:Hrows.
  - exists ∅. unfold get_summary_stats, result_empty. by rewrite Hrows.
  - eexists. apply get_summary_stats_nonempty; [done|]. by rewrite Hrows.
Qed.

(** X7.  The summaries of a table that the optimizer returned.  Under
    the solver's contract [get_summary_stats] raises nothing on it, and
    every row of every view has a satisfaction that is defined (its
    summed demand is not 0), above 0 and at most 1. *)
Theorem views_of_returned_table_are_well_served
    (float_of_str : string → option Q) (solve : LpProblem → Solution)
    (data : Data) (pp cp rp : option (gmap string Z))
    (sc : option (list (gmap string pyval))) (m : Model) (df : ResultFrame) :
  lp_model float_of_str data pp cp rp sc = inr m →
  solver_sound solve (m_prob m) →
  optimize_supply_allocation float_of_str solve data pp cp rp sc = inr df →
  ∃ summary,
    get_summary_stats df = inr summary ∧
    ∀ name view g, summary !! name = Some view → g ∈ view → well_served g.
Proof.
  intros Hm Hsound Hopt.
  destruct (returned_rows _ _ _ _ _ _ _ _ _ Hm Hopt) as [Hcols Hpos].
  destruct (get_summary_stats_total df Hcols) as [summary Hsum].
  exists summary. split; [done|]. intros name view g Hview Hg.
  destruct (view_lookup _ _ _ _ Hcols Hsum Hview) as [cols ->].
  apply list_elem_of_fmap in Hg as (k & -> & Hk).
  rewrite merge_sort_Permutation, elem_of_remove_dups in Hk.
  apply group_well_served; [|done]. intros row Hrow. split.
  - by apply Hpos.
  - by eapply rows_within_demand.
Qed.

(** ** The order of a view *)

Lemma key_le_total : Total key_le.
Proof.
  intros a. unfold key_le. induction a as [|x a IH]; intros b; [by left|].
  destruct b as [|y b]; [by right|]. cbn.
  rewrite (String.compare_antisym y x).
  destruct (String.compare x y) eqn:E; cbn; [apply IH|by left|by right].
Qed.

(** X9.  Every view lists its groups in ascending order of their keys
    and names no key twice. *)
Theorem views_are_sorted_by_key (df : ResultFrame)
    (summary : gmap string (list GroupRow)) (name : string)
    (view : list GroupRow) :
  r_columns df = result_columns →
  get_summary_stats df = inr summary → summary !! name = Some view →
  Sorted key_le (g_key <$> view) ∧ NoDup (g_key <$> view).
Proof.
  intros Hcols Hsum Hview.
  destruct (view_lookup _ _ _ _ Hcols Hsum Hview) as [cols ->].
  assert (∀ l : list (list string),
            g_key <$> (group_of cols (r_rows df) <$> l) = l) as Hkeys.
  { intros l. rewrite <- list_fmap_compose. rewrite <- (list_fmap_id l) at 2.
    by apply list_fmap_ext. }
  rewrite Hkeys. split.
  - apply Sorted_merge_sort, key_le_total.
  - rewrite merge_sort_Permutation. apply NoDup_remove_dups.
Qed.

(** ** The run step of the page *)

Lemma overall_satisfaction_standard (df : ResultFrame) :
  r_columns df = result_columns →
  overall_satisfaction df =
  inr ((λ ratio, (ratio * 100)%Q) <$>
       float_div (Qsum (r_allocation <$> r_rows df))
                 (Qsum (r_demand <$> r_rows df))).
Proof. intros Hcols. unfold overall_satisfaction. by rewrite Hcols. Qed.

(** X10.  A run of the optimization page.  When the program can be
    built, the page either reports that there is no result (the returned
    table has no row) or shows the returned table with its four views
    and an overall satisfaction that is defined, above 0 and at most
    100 per cent: the ratio of the summed allocation to the summed
    demand. *)
Theorem run_shows_a_percentage
    (float_of_str : string → option Q) (solve : LpProblem → Solution)
    (data : Data) (pp cp rp : gmap string Z)
    (sc : list (gmap string pyval)) (m : Model) :
  lp_model float_of_str data (Some pp) (Some cp) (Some rp) (Some sc)
    = inr m →
  solver_sound solve (m_prob m) →
  ∃ df,
    optimize_supply_allocation float_of_str solve data (Some pp) (Some cp)
      (Some rp) (Some sc) = inr df ∧
    (r_rows df = [] →
     run_optimization float_of_str solve data pp cp rp sc = inr ShowNoResult) ∧
    (r_rows df ≠ [] →
     ∃ summary pct,
       run_optimization float_of_str solve data pp cp rp sc
         = inr (ShowResults summary (Some pct) df) ∧
       dom summary = {["product"; "product_week"; "channel_region"; "week"]} ∧
       (pct == Qsum (r_allocation <$> r_rows df)
               / Qsum (r_demand <$> r_rows df) * 100)%Q ∧
       (0 < pct)%Q ∧ (pct <= 100)%Q).
Proof.
  intros Hm Hsound.
  assert (∃ df, optimize_supply_allocation float_of_str solve data (Some pp)
                  (Some cp) (Some rp) (Some sc) = inr df) as [df Hopt].
  { rewrite (optimize_unfold _ _ _ _ _ _ _ Hm).
    destruct (decide (status (solve (m_prob m)) = Optimal)) as [Hs|Hs].
    - rewrite (results_of_optimal _ _ _ _ _ _ _ Hm _ Hs). by eexists.
    - rewrite (results_of_not_optimal _ _ Hs). by eexists. }
  exists df. split; [done|].
  destruct (returned_rows _ _ _ _ _ _ _ _ _ Hm Hopt) as [Hcols Hpos].
  unfold run_optimization. rewrite Hopt. cbn [mbind result_bind].
  unfold result_empty. rewrite Hcols. split.
  - intros ->. done.
  - intros Hrows.
    assert (is_nil (r_rows df) = false) as -> by (by destruct (r_rows df)).
    cbn [is_nil result_columns orb negb].
    rewrite (get_summary_stats_nonempty df Hcols Hrows).
    cbn [mbind result_bind].
    rewrite (overall_satisfaction_standard df Hcols).
    assert (0 < Qsum (r_allocation <$> r_rows df))%Q as Ha.
    { apply Qsum_pos; [done|]. intros row Hr. by apply Hpos. }
    assert (Qsum (r_allocation <$> r_rows df) <= Qsum (r_demand <$> r_rows df))%Q
      as Hle.
    { apply Qsum_le. intros row Hr. by eapply rows_within_demand. }
    unfold float_div. destruct (Qeq_bool _ 0) eqn:E.
    { apply Qeq_bool_iff in E. lra. }
    cbn [fmap option_fmap option_map mbind result_bind].
    eexists _, _. split; [reflexivity|].
    split; [rewrite !dom_insert_L, dom_empty_L; compute_done|].
    split; [reflexivity|].
    set (a := Qsum (r_allocation <$> r_rows df)) in *.
    set (d := Qsum (r_demand <$> r_rows df)) in *.
    assert (0 < a / d)%Q by (apply Qlt_shift_div_l; lra).
    assert (a / d <= 1)%Q by (apply Qle_shift_div_r; lra).
    split; lra.
Qed.

(** ** The default priorities *)

Lemma default_product_priorities_fold (l : list string) (m0 : gmap string Z)
    (p : string) :
  foldl (λ m q,
           if contains "plus" (lower q) then <[q := 8%Z]> m
           else if contains "mini" (lower q) then <[q := 3%Z]> m
           else m) m0 l !! p
  = if decide (p ∈ l) then
      if contains "plus" (lower p) then Some 8%Z
      else if contains "mini" (lower p) then Some 3%Z
      else m0 !! p
    else m0 !! p.
Proof.
  revert m0. induction l as [|q l IH]; intros m0.
  - by rewrite decide_False by apply not_elem_of_nil.
  - cbn [foldl]. rewrite IH. clear IH.
    destruct (decide (q = p)) as [->|Hne].
    + rewrite (decide_True (P := p ∈ p :: l)) by left.
      destruct (contains "plus" (lower p)) eqn:Eplus.
      { rewrite lookup_insert_eq. by destruct (decide (p ∈ l)). }
      destruct (contains "mini" (lower p)) eqn:Emini.
      { rewrite lookup_insert_eq. by destruct (decide (p ∈ l)). }
      by destruct (decide (p ∈ l)).
    + assert ((if contains "plus" (lower q) then <[q := 8%Z]> m0
               else if contains "mini" (lower q) then <[q := 3%Z]> m0
               else m0) !! p = m0 !! p) as ->.
      { destruct (contains "plus" (lower q));
          [by rewrite lookup_insert_ne|].
        destruct (contains "mini" (lower q));
          [by rewrite lookup_insert_ne|done]. }
      destruct (decide (p ∈ l)) as [Hl|Hl].
      * by rewrite decide_True by (by right).
      * rewrite decide_False; [done|].
        intros [?|?]%elem_of_cons; [by subst|done].
Qed.

(** X11.  The priorities that the optimizer gives to the products when
    the caller passes none are the defaults of the page's sliders: 8
    for a product whose name mentions plus, 3 for one that mentions mini
    (and not plus), 5 otherwise, whatever the case of the letters. *)
Theorem default_priority_is_the_slider_default (ps : list string)
    (p : string) :
  p ∈ ps →
  default_product_priorities ps !! p = Some (slider_default_priority p) ∧
  product_weight (default_product_priorities ps) p
    = slider_default_priority p.
Proof.
  intros Hp.
  assert (default_product_priorities ps !! p
          = Some (slider_default_priority p)) as Hl.
  { unfold default_product_priorities.
    rewrite default_product_priorities_fold, decide_True by done.
    rewrite dict_of_fn_lookup, decide_True by done.
    unfold slider_default_priority.
    by destruct (contains "plus" (lower p)), (contains "mini" (lower p)). }
  split; [done|]. unfold product_weight. by rewrite Hl.
Qed.

(** ** When the program has a solution *)

Lemma bind_nil_all {A B} (f : A → list B) (l : list A) :
  (∀ a, a ∈ l → f a = []) → l ≫= f = [].
Proof.
  induction l as [|a l IH]; intros Hf; [done|].
  cbn. rewrite Hf by left. cbn. apply IH. intros; apply Hf. by right.
Qed.

Lemma zero_allocation_lookup (ix : IndexSets) (k : cell) :
  k ∈ all_cells ix → zero_allocation ix !! k = Some 0%Q.
Proof.
  intros Hk. unfold zero_allocation. by rewrite dict_of_fn_lookup, decide_True.
Qed.

Lemma eval_expr_zero (vals : gmap cell Q) (e : list (Q * LpVariable)) :
  (∀ t, t ∈ e → (value_of vals t.2 == 0)%Q) → (eval_expr vals e == 0)%Q.
Proof.
  intros Hz. unfold eval_expr. induction e as [|t e IH]; [reflexivity|].
  rewrite fmap_cons, Qsum_cons, IH by (intros; apply Hz; by right).
  rewrite (Hz t) by left. lra.
Qed.

(** What a row of Table 4 adds keeps the demands at 0 or above. *)
Lemma add_demand_row_nonneg (float_of_str : string → option Q)
    (columns ws : list string) (dem : gmap cell Q) (row : DemandRow) :
  (∀ w, (0 <= week_value float_of_str columns row w)%Q) →
  (∀ k d, dem !! k = Some d → (0 <= d)%Q) →
  ∀ k d, add_demand_row float_of_str columns ws dem row !! k = Some d →
         (0 <= d)%Q.
Proof.
  intros Hrow. unfold add_demand_row. revert dem.
  induction ws as [|w ws IH]; intros dem Hdem; [done|].
  cbn [foldl]. apply IH. intros k d.
  pose proof (Hrow w) as Hw. unfold week_value in Hw.
  destruct (_ && _); [|apply Hdem].
  destruct (to_float _ _) as [v|]; [|apply Hdem]. cbn in Hw.
  set (key := (d_product row, d_channel row, d_region row, w)).
  destruct (decide (key = k)) as [<-|Hne].
  - rewrite lookup_insert_eq. intros [= <-].
    destruct (dem !! key) as [d0|] eqn:E; cbn.
    + pose proof (Hdem _ _ E). lra.
    + lra.
  - rewrite lookup_insert_ne by done. apply Hdem.
Qed.

Lemma demand_dict_nonneg (float_of_str : string → option Q) (ix : IndexSets)
    (cd : DemandFrame) :
  (∀ row w, row ∈ d_rows cd →
            (0 <= week_value float_of_str (d_columns cd) row w)%Q) →
  ∀ k d, demand_dict float_of_str ix cd !! k = Some d → (0 <= d)%Q.
Proof.
  intros Hrows. unfold demand_dict.
  assert (∀ k d, dict_of ((λ k, (k, 0%Q)) <$> all_cells ix) !! k = Some d →
                 (0 <= d)%Q) as Hzero.
  { intros k d. rewrite dict_of_fn_lookup. case_decide; [|done].
    intros [= <-]. lra. }
  destruct (negb (demand_empty cd)); [|done].
  revert Hzero. generalize (dict_of ((λ k, (k, 0%Q)) <$> all_cells ix)).
  induction (d_rows cd) as [|row rows IH]; intros dem Hdem; [done|].
  cbn [foldl]. apply IH.
  - intros; apply Hrows. by right.
  - apply add_demand_row_nonneg; [|done]. intros w. apply Hrows. left.
Qed.

(** X12.  Without overrides the program always has a solution: when no
    weekly supply and no demand figure is negative, giving nothing to
    any cell satisfies every bound and every constraint of the program
    that the function builds. *)
Theorem zero_allocation_is_feasible
    (float_of_str : string → option Q) (data : Data)
    (pp cp rp : option (gmap string Z)) (m : Model) :
  lp_model float_of_str data pp cp rp None = inr m →
  (∀ row, row ∈ total_supply_df data → (0 <= s_total_supply row)%Q) →
  (∀ row w, row ∈ d_rows (customer_demand_df data) →
     (0 <= week_value float_of_str (d_columns (customer_demand_df data))
             row w)%Q) →
  feasible (m_prob m) (zero_allocation (m_ix m)).
Proof.
  intros Hm Hsupply Hdemand.
  destruct (model_parts _ _ _ _ _ _ _ Hm)
    as (_ & Hsup & Hdem & _ & _ & c3 & Hc3 & _ & Hcs).
  cbn in Hc3. injection Hc3 as <-.
  assert (∀ v, v ∈ variables (m_prob m) →
               zero_allocation (m_ix m) !! var_name v = Some 0%Q ∧
               lowBound v = 0%Q) as Hvars.
  { intros v Hv.
    destruct (model_variables _ _ _ _ _ _ _ Hm v Hv) as (k & d & -> & Hk & _).
    split; [by apply zero_allocation_lookup|done]. }
  split.
  - apply Forall_forall. intros v Hv. destruct (Hvars v Hv) as [Hz Hl].
    exists 0%Q. split; [done|]. rewrite Hl. lra.
  - apply Forall_forall. intros c Hc.
    assert (eval_expr (zero_allocation (m_ix m)) (c_expr c) == 0)%Q as Hzero.
    { apply eval_expr_zero. intros t Ht.
      assert (t.2 ∈ variables (m_prob m)) as Hv.
      { unfold variables. apply elem_of_app. right. apply elem_of_concat.
        exists ((c_expr c).*2). split; apply list_elem_of_fmap; eauto. }
      destruct (Hvars _ Hv) as [Hz _]. unfold value_of. rewrite Hz.
      reflexivity. }
    rewrite Hcs, app_nil_r, elem_of_app in Hc. unfold holds.
    destruct Hc as [Hc|Hc].
    + apply list_elem_of_bind in Hc as (w & Hc & Hw).
      destruct (m_supply m !! w) as [s|] eqn:Hs; [|by apply elem_of_nil in Hc].
      apply list_elem_of_singleton in Hc as ->. cbn [c_sense supply_cap c_rhs].
      rewrite Hzero. rewrite Hsup in Hs. unfold supply_dict in Hs.
      apply dict_of_lookup_Some in Hs.
      apply list_elem_of_fmap in Hs as (row & [= -> ->] & Hrow).
      by apply Hsupply.
    + apply list_elem_of_bind in Hc as (k & Hc & Hk).
      destruct (m_demand m !! k) as [d|] eqn:Hd; [|by apply elem_of_nil in Hc].
      apply list_elem_of_singleton in Hc as ->. cbn [c_sense demand_cap c_rhs].
      rewrite Hzero. rewrite Hdem in Hd.
      by eapply demand_dict_nonneg.
Qed.

(** ** An empty demand table *)

Lemma special_constraint_no_demand (demand : gmap cell Q)
    (x : gmap cell LpVariable) (c : gmap string pyval) :
  (∀ k d, demand !! k = Some d → Qpos d = false) →
  special_constraint demand x c = inr [].
Proof.
  intros Hz. unfold special_constraint.
  destruct (forallb _ _); [|done].
  destruct (py_cell _ _ _ _) as [k|]; [|done].
  destruct (demand !! k) as [d|] eqn:Hd; [|done].
  by rewrite (Hz _ _ Hd).
Qed.

Lemma for_each_nil_all {A B} (l : list A) (body : A → result (list B)) :
  (∀ a, a ∈ l → body a = inr []) → for_each l body = inr [].
Proof.
  induction l as [|a l IH]; intros Hb; [done|].
  cbn [for_each]. rewrite Hb by left. cbn.
  rewrite IH by (intros; apply Hb; by right). done.
Qed.

(** X13.  An empty customer-demand table.  Whatever the other tables,
    the priorities, the overrides and the answer of the solver, the
    function raises nothing and returns the empty table with the
    standard columns. *)
Theorem empty_demand_gives_empty_table
    (float_of_str : string → option Q) (solve : LpProblem → Solution)
    (data : Data) (pp cp rp : option (gmap string Z))
    (sc : option (list (gmap string pyval))) :
  demand_empty (customer_demand_df data) = true →
  optimize_supply_allocation float_of_str solve data pp cp rp sc
  = inr empty_result.
Proof.
  intros He.
  assert (has_label_columns (customer_demand_df data)) as Hcols
    by (intros He'; congruence).
  destruct (index_sets_total data Hcols) as [ix Hix].
  set (demand := demand_dict float_of_str ix (customer_demand_df data)).
  assert (∀ k d, demand !! k = Some d → Qpos d = false) as Hzero.
  { intros k d. unfold demand, demand_dict. rewrite He. cbn [negb].
    rewrite dict_of_fn_lookup. case_decide; [|done]. by intros [= <-]. }
  assert (∃ m, lp_model float_of_str data pp cp rp sc = inr m ∧
               m_ix m = ix ∧ m_demand m = demand) as (m & Hm & Hmix & Hmd).
  { unfold lp_model. rewrite Hix. cbn -[special_constraints_of].
    destruct (objective_terms_total ix demand
                (product_priorities_or_default ix pp)
                (channel_priorities_or_default cp)
                (region_priorities_or_default ix rp)) as [obj Hobj].
    fold demand. rewrite Hobj. cbn -[special_constraints_of].
    rewrite supply_constraints_pure, demand_constraints_pure.
    cbn -[special_constraints_of].
    assert (special_constraints_of demand (LpVariable_dicts (all_cells ix)) sc
            = inr []) as ->.
    { destruct sc as [cs|]; [|done].
      rewrite special_constraints_of_for_each. apply for_each_nil_all.
      intros c _. by apply special_constraint_no_demand. }
    by eexists. }
  rewrite (optimize_unfold _ _ _ _ _ _ _ Hm).
  destruct (decide (status (solve (m_prob m)) = Optimal)) as [Hs|Hs].
  - rewrite (results_of_optimal _ _ _ _ _ _ _ Hm _ Hs).
    rewrite bind_nil_all; [done|].
    intros k _. unfold row_at. rewrite Hmd.
    destruct (demand !! k) as [d|] eqn:Hd; [|done].
    by rewrite (Hzero _ _ Hd).
  - by rewrite (results_of_not_optimal _ _ Hs).
Qed.


(** * A file that is loaded as it is *)

Lemma elem_of_DataFrame_columns (records : list record) (col : string) :
  col ∈ f_columns (DataFrame records) ↔ ∃ r, r ∈ records ∧ col ∈ r.*1.
Proof.
  unfold DataFrame. cbn [f_columns].
  rewrite elem_of_unique, elem_of_concat. split.
  - intros (l & Hc & (r & -> & Hr)%list_elem_of_fmap). eauto.
  - intros (r & Hr & Hc). exists (r.*1). split; [done|].
    apply list_elem_of_fmap. eauto.
Qed.

Lemma has_all_true (columns wanted : list string) :
  (∀ col, col ∈ wanted → lower col = col ∧ col ∈ columns) →
  has_all (lower <$> columns) wanted = true.
Proof.
  intros Hw. unfold has_all. apply forallb_forall. intros col Hcol.
  apply list_elem_of_In, Hw in Hcol as [Hl Hc].
  apply bool_decide_eq_true. rewrite Hl. apply list_elem_of_fmap.
  exists col. by rewrite Hl.
Qed.

(** Tables that have the columns the validation looks for, under their
    lower-case names. *)
Lemma validate_case2_data_true (t1 t2 t3 t4 : list record) :
  (∀ col, col ∈ ["week"; "total_supply"] → col ∈ f_columns (DataFrame t1)) →
  (∀ col, col ∈ ["week"; "product"; "actual_build"] →
          col ∈ f_columns (DataFrame t2)) →
  "product" ∈ f_columns (DataFrame t3) →
  (∀ col, col ∈ ["channel"; "region"] → col ∈ f_columns (DataFrame t4)) →
  validate_case2_data (data_dict_of t1 t2 t3 t4) = true.
Proof.
  intros H1 H2 H3 H4. unfold validate_case2_data.
  assert (data_dict_of t1 t2 t3 t4 !! "total_supply" = Some (DataFrame t1) ∧
          data_dict_of t1 t2 t3 t4 !! "actual_build" = Some (DataFrame t2) ∧
          data_dict_of t1 t2 t3 t4 !! "demand_forecast" = Some (DataFrame t3) ∧
          data_dict_of t1 t2 t3 t4 !! "customer_demand" = Some (DataFrame t4))
    as (L1 & L2 & L3 & L4).
  { unfold data_dict_of, dict_of. cbn [foldl fst snd]. split_and!.
    - by rewrite !lookup_insert_ne, lookup_insert_eq by done.
    - by rewrite !lookup_insert_ne, lookup_insert_eq by done.
    - by rewrite !lookup_insert_ne, lookup_insert_eq by done.
    - by rewrite lookup_insert_eq. }
  assert (forallb (λ table, bool_decide
                     (is_Some (data_dict_of t1 t2 t3 t4 !! table)))
            ["total_supply"; "actual_build"; "demand_forecast";
             "customer_demand"] = true) as ->.
  { cbn [forallb]. rewrite L1, L2, L3, L4.
    by rewrite !bool_decide_eq_true_2 by (by eexists). }
  cbn [negb]. rewrite L1, L2, L3, L4. cbn [default]. unfold id.
  rewrite has_all_true.
  2:{ intros col Hcol. split; [|by apply H1].
      repeat (apply elem_of_cons in Hcol as [->|Hcol]; [done|]).
      by apply elem_of_nil in Hcol. }
  rewrite has_all_true.
  2:{ intros col Hcol. split; [|by apply H2].
      repeat (apply elem_of_cons in Hcol as [->|Hcol]; [done|]).
      by apply elem_of_nil in Hcol. }
  rewrite has_all_true.
  2:{ intros col Hcol. split; [|by apply H4].
      repeat (apply elem_of_cons in Hcol as [->|Hcol]; [done|]).
      by apply elem_of_nil in Hcol. }
  cbn [negb].
  assert (existsb (λ col, String.eqb (lower col) "product")
            (lower <$> f_columns (DataFrame t3)) = true) as ->; [|done].
  apply existsb_exists. exists "product". split; [|done].
  apply list_elem_of_In, list_elem_of_fmap. by exists "product".
Qed.

Lemma supply_records_of_keys (max_str_digits : nat) (rows : list string)
    (r : record) :
  r ∈ supply_records_of max_str_digits rows → r.*1 = ["week"; "total_supply"].
Proof.
  intros (line & Hr & _)%list_elem_of_bind. unfold supply_record in Hr.
  destruct (split "," line) as [|w [|s ?]]; try (by apply elem_of_nil in Hr).
  by apply list_elem_of_singleton in Hr as ->.
Qed.

Lemma build_records_of_keys (max_str_digits : nat) (rows : list string)
    (r : record) :
  r ∈ build_records_of max_str_digits rows →
  r.*1 = ["week"; "product"; "actual_build"].
Proof.
  intros (line & Hr & _)%list_elem_of_bind. unfold build_record in Hr.
  destruct (split "," line) as [|w [|p [|b ?]]];
    try (by apply elem_of_nil in Hr).
  by apply list_elem_of_singleton in Hr as ->.
Qed.

Lemma forecast_records_of_keys (max_str_digits : nat) (header : string)
    (rows : list string) (r : record) :
  r ∈ forecast_records_of max_str_digits header rows →
  r.*1 = unique (split "," header).
Proof.
  intros (line & Hr & _)%list_elem_of_bind.
  destruct (_ <=? _)%nat eqn:E; [|by apply elem_of_nil in Hr].
  apply list_elem_of_singleton in Hr as ->.
  apply forecast_row_keys. by apply Nat.leb_le.
Qed.

Lemma demand_records_of_keys (max_str_digits : nat) (header : string)
    (rows : list string) (records : list record) (r : record) :
  demand_records_of max_str_digits header rows = Some records →
  r ∈ records → r.*1 = unique (split "," header).
Proof.
  unfold demand_records_of. intros Hm%mapM_Some_1 Hr.
  apply list_elem_of_lookup in Hr as [i Hi].
  destruct (Forall2_lookup_r _ _ _ _ _ Hm Hi) as (line & Hl & Hrec).
  apply list_elem_of_lookup_2, list_elem_of_filter in Hl as [Hlen _].
  by eapply demand_record_keys.
Qed.

Lemma nonempty_elem {A} (l : list A) : l ≠ [] → ∃ a, a ∈ l.
Proof. destruct l as [|a l]; [done|]. intros _. exists a. left. Qed.

(** X22.  A file in the layout of the example file is loaded as it is.
    When each table has a record, the forecast header has a column
    product and the customer header the columns channel and region,
    [load_case2_data] shows no message and returns the four parsed
    tables, not the generated ones. *)
Theorem laid_out_file_is_loaded {G} `{NumpyRandom G}
    (max_str_digits : nat) (disk : Disk) (file_path : option string)
    (lines : list string) (f : Layout) (rows : list record) :
  path_exists disk (path_or file_path (CASE2_DATA_PATH disk)) = true →
  readlines disk (path_or file_path (CASE2_DATA_PATH disk)) = Some lines →
  cleaned lines = layout_lines f → well_laid f →
  supply_records_of max_str_digits (supply_rows f) ≠ [] →
  build_records_of max_str_digits (build_rows f) ≠ [] →
  forecast_records_of max_str_digits (forecast_header f) (forecast_rows f)
    ≠ [] →
  demand_records_of max_str_digits (customer_header f) (customer_rows f)
    = Some rows →
  rows ≠ [] →
  "product" ∈ split "," (forecast_header f) →
  "channel" ∈ split "," (customer_header f) →
  "region" ∈ split "," (customer_header f) →
  load_case2_file (G := G) max_str_digits disk file_path =
  ([], data_dict_of
         (supply_records_of max_str_digits (supply_rows f))
         (build_records_of max_str_digits (build_rows f))
         (forecast_records_of max_str_digits (forecast_header f)
            (forecast_rows f) ++
          (if is_forecast_header (customer_header f)
           then forecast_records_of max_str_digits (customer_header f)
                  (customer_rows f)
           else []))
         rows).
Proof.
  intros Hex Hread Hlines Hlaid Hn1 Hn2 Hn3 Hrows Hn4 Hp Hc Hr.
  assert (Forall clean (layout_lines f)) as Hclean
    by (rewrite <- Hlines; apply cleaned_clean).
  unfold load_case2_file. rewrite Hex, Hread. cbn [negb].
  rewrite <- parse_tables_cleaned, Hlines. unfold parse_tables.
  rewrite layout_total_supply, layout_actual_build, layout_demand_forecast,
    layout_customer_demand by done.
  rewrite Hrows. cbn [mbind option_bind total_supply_data actual_build_data
                      demand_forecast_data customer_demand_data].
  unfold load_case2_data.
  set (t1 := supply_records_of _ _) in *.
  set (t2 := build_records_of _ _) in *.
  set (t3 := forecast_records_of _ (forecast_header f) _) in *.
  set (t3' := if is_forecast_header _ then _ else _).
  assert (validate_case2_data (data_dict_of t1 t2 (t3 ++ t3') rows) = true)
    as ->.
  { apply validate_case2_data_true.
    - intros col Hcol. apply elem_of_DataFrame_columns.
      destruct (nonempty_elem _ Hn1) as [r Hr0]. exists r. split; [done|].
      by rewrite (supply_records_of_keys _ _ _ Hr0).
    - intros col Hcol. apply elem_of_DataFrame_columns.
      destruct (nonempty_elem _ Hn2) as [r Hr0]. exists r. split; [done|].
      by rewrite (build_records_of_keys _ _ _ Hr0).
    - apply elem_of_DataFrame_columns.
      destruct (nonempty_elem _ Hn3) as [r Hr0]. exists r.
      split; [apply elem_of_app; by left|].
      rewrite (forecast_records_of_keys _ _ _ _ Hr0). by apply elem_of_unique.
    - intros col Hcol. apply elem_of_DataFrame_columns.
      destruct (nonempty_elem _ Hn4) as [r Hr0]. exists r. split; [done|].
      rewrite (demand_records_of_keys _ _ _ _ _ Hrows Hr0).
      apply elem_of_unique.
      repeat (apply elem_of_cons in Hcol as [->|Hcol]; [done|]).
      by apply elem_of_nil in Hcol. }
  assert (is_nil t1 = false) as -> by (by destruct t1).
  assert (is_nil t2 = false) as -> by (by destruct t2).
  assert (is_nil (t3 ++ t3') = false) as -> by (by destruct t3).
  assert (is_nil rows = false) as -> by (by destruct rows).
  done.
Qed.


(** * The statements on the instances *)

(** ** The summaries of the small instance *)

Lemma phone_summary_returned :
  get_summary_stats phone_result = inr phone_summary.
Proof. vm_compute. reflexivity. Qed.

Lemma phone_week_view_found : phone_summary !! "week" = Some phone_week_view.
Proof. vm_compute. reflexivity. Qed.

(** X7 on the small instance. *)
Lemma views_of_returned_table_are_well_served_witness :
  lp_model no_text_number phone_data None None None None = inr phone_model ∧
  solver_sound phone_solve (m_prob phone_model) ∧
  optimize_supply_allocation no_text_number phone_solve phone_data
    None None None None = inr phone_result ∧
  ∃ summary,
    get_summary_stats phone_result = inr summary ∧
    ∀ name view g, summary !! name = Some view → g ∈ view → well_served g.
Proof.
  split_and!;
    [exact phone_model_built | exact phone_sound
    | exact phone_result_returned |].
  exact (views_of_returned_table_are_well_served no_text_number phone_solve
           phone_data None None None None phone_model phone_result
           phone_model_built phone_sound phone_result_returned).
Defined.

(** X9 on the by-week view of the small instance. *)
Lemma views_are_sorted_by_key_witness :
  r_columns phone_result = result_columns ∧
  get_summary_stats phone_result = inr phone_summary ∧
  phone_summary !! "week" = Some phone_week_view ∧
  Sorted key_le (g_key <$> phone_week_view) ∧
  NoDup (g_key <$> phone_week_view).
Proof.
  split_and!;
    [exact phone_result_columns | exact phone_summary_returned
    | exact phone_week_view_found | |];
    apply (views_are_sorted_by_key phone_result phone_summary "week"
             phone_week_view phone_result_columns phone_summary_returned
             phone_week_view_found).
Defined.

(** ** A run of the page on the small instance *)

Lemma phone_run_model_built :
  lp_model no_text_number phone_data (Some phone_product_priorities)
    (Some phone_channel_priorities) (Some phone_region_priorities)
    (Some [half_override]) = inr phone_run_model.
Proof. reflexivity. Qed.

Lemma phone_run_sound : solver_sound phone_solve (m_prob phone_run_model).
Proof. intros _. apply feasibleb_correct. vm_compute. reflexivity. Qed.

(** X10 on the small instance with the override for half of the
    demand. *)
Lemma run_shows_a_percentage_witness :
  lp_model no_text_number phone_data (Some phone_product_priorities)
    (Some phone_channel_priorities) (Some phone_region_priorities)
    (Some [half_override]) = inr phone_run_model ∧
  solver_sound phone_solve (m_prob phone_run_model) ∧
  ∃ df,
    optimize_supply_allocation no_text_number phone_solve phone_data
      (Some phone_product_priorities) (Some phone_channel_priorities)
      (Some phone_region_priorities) (Some [half_override]) = inr df ∧
    (r_rows df = [] →
     run_optimization no_text_number phone_solve phone_data
       phone_product_priorities phone_channel_priorities
       phone_region_priorities [half_override] = inr ShowNoResult) ∧
    (r_rows df ≠ [] →
     ∃ summary pct,
       run_optimization no_text_number phone_solve phone_data
         phone_product_priorities phone_channel_priorities
         phone_region_priorities [half_override]
         = inr (ShowResults summary (Some pct) df) ∧
       dom summary = {["product"; "product_week"; "channel_region"; "week"]} ∧
       (pct == Qsum (r_allocation <$> r_rows df)
               / Qsum (r_demand <$> r_rows df) * 100)%Q ∧
       (0 < pct)%Q ∧ (pct <= 100)%Q).
Proof.
  split_and!; [exact phone_run_model_built | exact phone_run_sound |].
  exact (run_shows_a_percentage no_text_number phone_solve phone_data
           phone_product_priorities phone_channel_priorities
           phone_region_priorities [half_override] phone_run_model
           phone_run_model_built phone_run_sound).
Defined.

(** ** The default priorities *)

(** X11 on a list of two products. *)
Lemma default_priority_is_the_slider_default_witness :
  "Phone Mini Plus" ∈ ["Phone Mini Plus"; "Phone Mini"] ∧
  default_product_priorities ["Phone Mini Plus"; "Phone Mini"]
    !! "Phone Mini Plus" = Some (slider_default_priority "Phone Mini Plus") ∧
  product_weight
    (default_product_priorities ["Phone Mini Plus"; "Phone Mini"])
    "Phone Mini Plus" = slider_default_priority "Phone Mini Plus".
Proof.
  assert ("Phone Mini Plus" ∈ ["Phone Mini Plus"; "Phone Mini"]) as Hin
    by (by left).
  split; [exact Hin|].
  exact (default_priority_is_the_slider_default
           ["Phone Mini Plus"; "Phone Mini"] "Phone Mini Plus" Hin).
Defined.

(** ** Programs that have a solution *)

Lemma phone_supply_nonneg (row : SupplyRow) :
  row ∈ total_supply_df phone_data → (0 <= s_total_supply row)%Q.
Proof.
  cbn. intros ->%list_elem_of_singleton. cbn. discriminate.
Qed.

Lemma phone_demand_nonneg (row : DemandRow) (w : string) :
  row ∈ d_rows (customer_demand_df phone_data) →
  (0 <= week_value no_text_number (d_columns (customer_demand_df phone_data))
          row w)%Q.
Proof.
  cbn [phone_data customer_demand_df d_rows d_columns].
  intros ->%list_elem_of_singleton. unfold week_value.
  destruct (_ && _); [|discriminate]. unfold row_get.
  destruct (d_cells phone_row !! w) as [v|] eqn:E; [|cbn; discriminate].
  apply dict_of_lookup_Some in E.
  repeat (apply elem_of_cons in E as [[= -> ->]|E]; [cbn; discriminate|]).
  by apply elem_of_nil in E.
Qed.

(** X12 on the small instance. *)
Lemma zero_allocation_is_feasible_witness :
  lp_model no_text_number phone_data None None None None = inr phone_model ∧
  feasible (m_prob phone_model) (zero_allocation (m_ix phone_model)).
Proof.
  split; [exact phone_model_built|].
  exact (zero_allocation_is_feasible no_text_number phone_data None None None
           phone_model phone_model_built phone_supply_nonneg
           phone_demand_nonneg).
Defined.

(** X13 on the small instance without its demand lines. *)
Lemma empty_demand_gives_empty_table_witness :
  demand_empty (customer_demand_df demandless_data) = true ∧
  optimize_supply_allocation no_text_number phone_solve demandless_data
    None None None (Some [full_override]) = inr empty_result.
Proof.
  assert (demand_empty (customer_demand_df demandless_data) = true) as He
    by reflexivity.
  split; [exact He|].
  exact (empty_demand_gives_empty_table no_text_number phone_solve
           demandless_data None None None (Some [full_override]) He).
Defined.

(** ** The generated tables *)

Lemma lowest_draws_in_range : draws_in_range (G := nat).
Proof.
  split.
  - intros low high g Hlt. cbn. lia.
  - intros low high g Hle. cbn. split; [apply Qle_refl|exact Hle].
Qed.

(** X16 with the generator that draws the lowest figures. *)
Lemma generated_figures_are_in_range_witness :
  draws_in_range (G := nat) ∧
  (length (total_supply_data (mock_case2_tables (G := nat))) = 5%nat ∧
   ∀ r, r ∈ total_supply_data (mock_case2_tables (G := nat)) →
     ∃ s, dict_get "total_supply" r = Some (number s) ∧
          (800 <= s <= 1000)%Z) ∧
  (length (actual_build_data (mock_case2_tables (G := nat))) = 15%nat ∧
   ∀ r, r ∈ actual_build_data (mock_case2_tables (G := nat)) →
     ∃ b, dict_get "actual_build" r = Some (number b) ∧
          (150 <= b <= 350)%Z) ∧
  (length (demand_forecast_data (mock_case2_tables (G := nat))) = 3%nat ∧
   ∀ r week, r ∈ demand_forecast_data (mock_case2_tables (G := nat)) →
     week ∈ mock_weeks →
     ∃ d, dict_get week r = Some (number d) ∧ (200 <= d <= 400)%Z) ∧
  (length (customer_demand_data (mock_case2_tables (G := nat))) = 9%nat ∧
   ∀ r week, r ∈ customer_demand_data (mock_case2_tables (G := nat)) →
     week ∈ mock_weeks →
     ∃ d, dict_get week r = Some (number d) ∧ (50 <= d)%Z).
Proof.
  split; [exact lowest_draws_in_range|].
  exact (generated_figures_are_in_range (G := nat) lowest_draws_in_range).
Defined.

(** X18 with the generator that draws the lowest figures. *)
Lemma generated_sales_records_witness :
  draws_in_range (G := nat) ∧
  length (mock_case1_records (G := nat)) = 72%nat ∧
  ∀ r, r ∈ mock_case1_records (G := nat) →
    ∃ product date sales price,
      dict_get "product" r = Some (VStr product) ∧
      dict_get "date" r = Some (VStr date) ∧
      dict_get "sales" r = Some (number sales) ∧ (10 <= sales)%Z ∧
      dict_get "price" r = Some (number price) ∧
      (mock_base_price product - 50 <= price
         <= mock_base_price product + 50)%Z ∧
      dict_get "new_tech" r =
        Some (number (if String.eqb product "Superman Plus" &&
                         contains "Dec" date then 1 else 0)).
Proof.
  split; [exact lowest_draws_in_range|].
  exact (generated_sales_records (G := nat) lowest_draws_in_range).
Defined.

(** ** The example file *)

Lemma example_cleaned : cleaned example_lines = cleaned bare_lines.
Proof. vm_compute. reflexivity. Qed.

(** X19 on the example file and the same file without its comments. *)
Lemma parsing_ignores_comments_and_blanks_witness :
  cleaned example_lines = cleaned bare_lines ∧
  parse_tables 4300 example_lines = parse_tables 4300 bare_lines.
Proof.
  split; [exact example_cleaned|].
  exact (parsing_ignores_comments_and_blanks 4300 example_lines bare_lines
           example_cleaned).
Defined.

Lemma example_laid_out : cleaned example_lines = layout_lines example_layout.
Proof. vm_compute. reflexivity. Qed.

Lemma example_well_laid : well_laid example_layout.
Proof.
  unfold well_laid. split_and!; try (vm_compute; reflexivity).
  - repeat constructor; vm_compute; reflexivity.
  - repeat constructor; vm_compute; reflexivity.
Qed.

(** X20 on the example file. *)
Lemma parse_of_the_example_layout_witness :
  cleaned example_lines = layout_lines example_layout ∧
  well_laid example_layout ∧
  parse_tables 4300 example_lines = Some example_parsed.
Proof.
  split_and!; [exact example_laid_out | exact example_well_laid |].
  rewrite (parse_of_the_example_layout 4300 example_lines example_layout
             example_laid_out example_well_laid).
  vm_compute. reflexivity.
Defined.

Lemma example_parses : parse_tables 4300 example_lines = Some example_parsed.
Proof. vm_compute. reflexivity. Qed.

(** X21 on the example file. *)
Lemma records_carry_their_header_witness :
  parse_tables 4300 example_lines = Some example_parsed ∧
  (∀ r, r ∈ total_supply_data example_parsed →
        r.*1 = ["week"; "total_supply"]) ∧
  (∀ r, r ∈ actual_build_data example_parsed →
        r.*1 = ["week"; "product"; "actual_build"]) ∧
  (∀ r, r ∈ demand_forecast_data example_parsed →
        ∃ h, h ∈ cleaned example_lines ∧ is_forecast_header h = true ∧
             r.*1 = unique (split "," h)) ∧
  (∀ r, r ∈ customer_demand_data example_parsed →
        ∃ h, h ∈ cleaned example_lines ∧ is_customer_header h = true ∧
             r.*1 = unique (split "," h)).
Proof.
  split; [exact example_parses|].
  exact (records_carry_their_header 4300 example_lines example_parsed
           example_parses).
Defined.

Lemma example_customer_parsed :
  demand_records_of 4300 (customer_header example_layout)
    (customer_rows example_layout) = Some example_customer_records.
Proof. vm_compute. reflexivity. Qed.

(** X22 on the example file. *)
Lemma laid_out_file_is_loaded_witness :
  well_laid example_layout ∧
  ∃ tables,
    load_case2_file (G := nat) 4300 example_disk None = ([], tables) ∧
    tables !! "customer_demand" = Some (DataFrame example_customer_records).
Proof.
  split; [exact example_well_laid|].
  eexists. split.
  - apply (laid_out_file_is_loaded (G := nat) 4300 example_disk None
             example_lines example_layout example_customer_records);
      first [ reflexivity | exact example_laid_out | exact example_well_laid
            | exact example_customer_parsed | discriminate | compute_done ].
  - unfold data_dict_of, dict_of. cbn [foldl fst snd].
    by rewrite lookup_insert_eq.
Defined.


(** * The totals of the views, in binary64 *)

(** ** The views of a table with the standard columns *)

Lemma float_groupby_standard (cols : list string) (df : FloatFrame) :
  fl_columns df = result_columns →
  cols ⊆ ["product"; "channel"; "region"; "week"] →
  float_groupby cols df =
  inr (float_group_of cols (fl_rows df)
         <$> merge_sort key_le
               (remove_dups (fl_group_key cols <$> fl_rows df))).
Proof.
  intros Hcols Hsub. unfold float_groupby. rewrite Hcols.
  assert (filter (λ col, col ∉ result_columns)
            (cols ++ ["demand"; "allocation"]) = []) as ->; [|done].
  rewrite filter_app.
  assert (filter (λ col, col ∉ result_columns) cols = []) as ->; [|done].
  apply filter_none. intros col Hcol Hnot. apply Hnot.
  apply Hsub in Hcol. unfold result_columns.
  repeat (apply elem_of_cons in Hcol as [->|Hcol]; [compute_done|]).
  by apply elem_of_nil in Hcol.
Qed.

Lemma float_view_lookup (df : FloatFrame)
    (summary : gmap string (list FloatGroup)) (name : string)
    (view : list FloatGroup) :
  fl_columns df = result_columns →
  get_summary_stats_float df = inr summary → summary !! name = Some view →
  ∃ cols,
    view = float_group_of cols (fl_rows df) <$>
             merge_sort key_le
               (remove_dups (fl_group_key cols <$> fl_rows df)).
Proof.
  intros Hcols Hsum Hview. unfold get_summary_stats_float in Hsum.
  destruct (float_result_empty df).
  - injection Hsum as <-. by rewrite lookup_empty in Hview.
  - cbn [negb] in Hsum.
    rewrite !float_groupby_standard in Hsum by first [done | compute_done].
    injection Hsum as <-.
    repeat (apply lookup_insert_Some in Hview as [[_ <-] | [_ Hview]];
            [by eexists|]).
    by rewrite lookup_empty in Hview.
Qed.

Lemma float_week_view (df : FloatFrame) :
  fl_columns df = result_columns → fl_rows df ≠ [] →
  ∃ summary,
    get_summary_stats_float df = inr summary ∧
    summary !! "week" =
      Some (float_group_of ["week"] (fl_rows df) <$>
              merge_sort key_le
                (remove_dups (fl_group_key ["week"] <$> fl_rows df))).
Proof.
  intros Hcols Hrows.
  assert (float_result_empty df = false) as Hne.
  { unfold float_result_empty. rewrite Hcols. by destruct (fl_rows df). }
  unfold get_summary_stats_float. rewrite Hne. cbn [negb].
  rewrite !float_groupby_standard by first [done | compute_done].
  eexists. split; [done|]. by rewrite lookup_insert_eq.
Qed.

(** ** Sums of figures that add without rounding *)

Lemma Qsum_filter_le {A} (P : A → Prop) `{∀ a, Decision (P a)}
    (f : A → Q) (l : list A) :
  (∀ a, a ∈ l → (0 <= f a)%Q) →
  (Qsum (f <$> filter P l) <= Qsum (f <$> l))%Q.
Proof.
  induction l as [|a l IH]; intros Hpos; [cbn; lra|].
  assert (0 <= f a)%Q by (apply Hpos; left).
  assert (Qsum (f <$> filter P l) <= Qsum (f <$> l))%Q
    by (apply IH; intros; apply Hpos; by right).
  rewrite filter_cons. case_decide; rewrite ?fmap_cons, ?Qsum_cons; lra.
Qed.

Section exact_sums.
Context (fig : float → Prop) (bound : Q) (Hexact : adds_exactly fig bound).

Lemma Qsum_figures_nonneg (l : list float) :
  Forall fig l → (0 <= Qsum (float_value <$> l))%Q.
Proof.
  induction 1 as [|a l Ha _ IH]; [cbn; lra|].
  rewrite fmap_cons, Qsum_cons.
  pose proof (exact_nonneg _ _ Hexact a Ha). lra.
Qed.

(** The loop of a sum, from an accumulator on. *)
Lemma foldl_add_exact (l : list float) (acc : float) :
  fig acc → Forall fig l →
  (float_value acc + Qsum (float_value <$> l) <= bound)%Q →
  fig (foldl PrimFloat.add acc l) ∧
  (float_value (foldl PrimFloat.add acc l)
   == float_value acc + Qsum (float_value <$> l))%Q.
Proof.
  intros Hacc Hall. revert acc Hacc.
  induction Hall as [|a l Ha Hl IH]; intros acc Hacc Hle.
  - cbn. split; [done|]. lra.
  - rewrite fmap_cons, Qsum_cons in Hle. cbn [foldl].
    pose proof (Qsum_figures_nonneg l Hl) as Hpos.
    destruct (exact_add _ _ Hexact acc a Hacc Ha) as [Hfig Hval]; [lra|].
    destruct (IH _ Hfig) as [Hfig' Hval']; [rewrite Hval; lra|].
    split; [done|]. rewrite Hval', Hval, fmap_cons, Qsum_cons. lra.
Qed.

Lemma float_sum_exact (l : list float) :
  within fig bound l →
  fig (float_sum l) ∧
  (float_value (float_sum l) == Qsum (float_value <$> l))%Q.
Proof.
  intros [Hall Hle]. destruct (exact_zero _ _ Hexact) as [Hz Hz0].
  destruct (foldl_add_exact l 0%float Hz Hall) as [Hfig Hval].
  - rewrite Hz0. lra.
  - split; [done|]. unfold float_sum. rewrite Hval, Hz0. lra.
Qed.

(** The totals of the groups of a column add up to the total of the
    column. *)
Lemma float_sum_groups {A K} `{EqDecision K} (key : A → K)
    (col : A → float) (keys : list K) (rows : list A) :
  NoDup keys → (∀ row, row ∈ rows → key row ∈ keys) →
  within fig bound (col <$> rows) →
  float_sum ((λ k, float_sum (col <$> filter (λ row, key row = k) rows))
               <$> keys)
  = float_sum (col <$> rows).
Proof.
  intros Hnd Hcover Hin. pose proof Hin as [Hall Hle].
  rewrite Forall_fmap in Hall.
  rewrite <- list_fmap_compose in Hle.
  assert (∀ row, row ∈ rows → (0 <= (float_value ∘ col) row)%Q) as Hpos.
  { intros row Hrow. apply (exact_nonneg _ _ Hexact).
    by apply (proj1 (Forall_forall _ _) Hall). }
  assert (∀ k, within fig bound
                 (col <$> filter (λ row, key row = k) rows)) as Hgrp.
  { intros k. split.
    - rewrite Forall_fmap. apply Forall_forall.
      intros row [_ Hrow]%list_elem_of_filter.
      by apply (proj1 (Forall_forall _ _) Hall).
    - rewrite <- list_fmap_compose.
      pose proof (Qsum_filter_le (λ row, key row = k)
                    (float_value ∘ col) rows Hpos). lra. }
  set (total := λ k, float_sum (col <$> filter (λ row, key row = k) rows)).
  assert (Qsum (float_value <$> (total <$> keys))
          == Qsum ((float_value ∘ col) <$> rows))%Q as Htot.
  { rewrite <- list_fmap_compose.
    rewrite <- (Qsum_groups key (float_value ∘ col) keys rows Hnd Hcover).
    apply Qsum_eq. intros k _. unfold compose at 1, total.
    destruct (float_sum_exact _ (Hgrp k)) as [_ ->].
    by rewrite <- list_fmap_compose. }
  assert (within fig bound (total <$> keys)) as Hview.
  { split; [|lra]. rewrite Forall_fmap. apply Forall_forall.
    intros k _. apply (float_sum_exact _ (Hgrp k)). }
  destruct (float_sum_exact _ Hview) as [Hf1 Hv1].
  destruct (float_sum_exact _ Hin) as [Hf2 Hv2].
  apply (exact_inj _ _ Hexact); [done..|].
  rewrite Hv1, Hv2, Htot. by rewrite <- list_fmap_compose.
Qed.

(** The two columns of a view of a table. *)
Lemma float_view_totals (cols : list string) (rows : list FloatRow) :
  within fig bound (fl_allocation <$> rows) →
  within fig bound (fl_demand <$> rows) →
  float_sum (fg_allocation <$>
               (float_group_of cols rows <$>
                  merge_sort key_le
                    (remove_dups (fl_group_key cols <$> rows))))
  = float_sum (fl_allocation <$> rows) ∧
  float_sum (fg_demand <$>
               (float_group_of cols rows <$>
                  merge_sort key_le
                    (remove_dups (fl_group_key cols <$> rows))))
  = float_sum (fl_demand <$> rows).
Proof.
  intros Ha Hd.
  assert (NoDup (merge_sort key_le
            (remove_dups (fl_group_key cols <$> rows)))) as Hnd.
  { rewrite merge_sort_Permutation. apply NoDup_remove_dups. }
  assert (∀ row, row ∈ rows →
            fl_group_key cols row ∈
            merge_sort key_le (remove_dups (fl_group_key cols <$> rows)))
    as Hcover.
  { intros row Hrow. rewrite merge_sort_Permutation, elem_of_remove_dups.
    apply list_elem_of_fmap. eauto. }
  rewrite <- !list_fmap_compose. split.
  - apply (float_sum_groups (fl_group_key cols) fl_allocation _ _
             Hnd Hcover Ha).
  - apply (float_sum_groups (fl_group_key cols) fl_demand _ _
             Hnd Hcover Hd).
Qed.
End exact_sums.

(** ** C9 *)

(** C9, as the code has it.  The columns are binary64.  For a non-empty
    result table whose allocations and whose demands are figures that
    binary64 adds without rounding (such as whole numbers), with totals
    within the bound up to which it does so, the allocation column and
    the demand column of the by-week view sum to the totals of those
    columns over the rows of the table. *)
Theorem week_view_totals (fig : float → Prop) (bound : Q) (df : FloatFrame) :
  fl_columns df = result_columns → fl_rows df ≠ [] →
  adds_exactly fig bound →
  within fig bound (fl_allocation <$> fl_rows df) →
  within fig bound (fl_demand <$> fl_rows df) →
  ∃ summary view,
    get_summary_stats_float df = inr summary ∧ summary !! "week" = Some view ∧
    float_sum (fg_allocation <$> view)
      = float_sum (fl_allocation <$> fl_rows df) ∧
    float_sum (fg_demand <$> view) = float_sum (fl_demand <$> fl_rows df).
Proof.
  intros Hcols Hrows Hexact Ha Hd.
  destruct (float_week_view df Hcols Hrows) as (summary & Hsum & Hview).
  eexists summary, _. split; [done|]. split; [done|].
  by apply (float_view_totals fig bound Hexact).
Qed.

(** ** The other views *)

(** X8.  Every view accounts for the whole table when the figures add
    without rounding: for a table whose allocations and whose demands are
    figures that binary64 adds without rounding, with totals within the
    bound, the allocation column and the demand column of each view that
    [get_summary_stats] returns sum to the totals of the table. *)
Theorem every_view_sums_to_the_table (fig : float → Prop) (bound : Q)
    (df : FloatFrame) (summary : gmap string (list FloatGroup))
    (name : string) (view : list FloatGroup) :
  fl_columns df = result_columns →
  adds_exactly fig bound →
  within fig bound (fl_allocation <$> fl_rows df) →
  within fig bound (fl_demand <$> fl_rows df) →
  get_summary_stats_float df = inr summary → summary !! name = Some view →
  float_sum (fg_allocation <$> view)
    = float_sum (fl_allocation <$> fl_rows df) ∧
  float_sum (fg_demand <$> view) = float_sum (fl_demand <$> fl_rows df).
Proof.
  intros Hcols Hexact Ha Hd Hsum Hview.
  destruct (float_view_lookup _ _ _ _ Hcols Hsum Hview) as [cols ->].
  by apply (float_view_totals fig bound Hexact).
Qed.

(** ** The two small tables *)

(** Binary64 adds the whole tens up to 60 without rounding. *)
Lemma tens_add_exactly : adds_exactly is_tens 60.
Proof.
  assert (∀ (P : float → Prop),
            P 0%float → P 10%float → P 20%float → P 30%float →
            P 40%float → P 50%float → P 60%float →
            ∀ a, is_tens a → P a) as each.
  { intros P ? ? ? ? ? ? ? a Ha. unfold is_tens, tens in Ha.
    repeat (apply elem_of_cons in Ha as [->|Ha]; [done|]).
    by apply elem_of_nil in Ha. }
  split.
  - split; [by left|]. vm_compute. reflexivity.
  - intros a Ha.
    apply (each (λ a, (0 <= float_value a)%Q)); [by vm_compute..|done].
  - intros a b Ha Hb.
    apply (each (λ a, ∀ b, is_tens b →
              (float_value a + float_value b <= 60)%Q →
              is_tens (PrimFloat.add a b) ∧
              (float_value (PrimFloat.add a b)
               == float_value a + float_value b)%Q));
      [..|done|done];
      clear a b Ha Hb; intros b Hb;
      (apply (each (λ b, (float_value _ + float_value b <= 60)%Q →
                 is_tens (PrimFloat.add _ b) ∧
                 (float_value (PrimFloat.add _ b)
                  == float_value _ + float_value b)%Q));
       [..|done]);
      intros Hle;
      first [ exfalso; vm_compute in Hle; by apply Hle
            | split; [apply list_elem_of_In; vm_compute; tauto
                     | vm_compute; reflexivity] ].
  - intros a b Ha Hb.
    apply (each (λ a, ∀ b, is_tens b →
              (float_value a == float_value b)%Q → a = b));
      [..|done|done];
      clear a b Ha Hb; intros b Hb;
      (apply (each (λ b, (float_value _ == float_value b)%Q → _ = b));
       [..|done]);
      intros Heq;
      first [ reflexivity | vm_compute in Heq; discriminate ].
Qed.

Lemma tens_frame_within :
  within is_tens 60 (fl_allocation <$> fl_rows tens_frame) ∧
  within is_tens 60 (fl_demand <$> fl_rows tens_frame).
Proof.
  split; (split; [|by vm_compute]);
    repeat (constructor; [apply list_elem_of_In; vm_compute; tauto|]);
    constructor.
Qed.

(** C9 on the table with demands of 10, 20 and 30 units: both totals are
    60. *)
Lemma week_view_totals_witness :
  fl_columns tens_frame = result_columns ∧ fl_rows tens_frame ≠ [] ∧
  adds_exactly is_tens 60 ∧
  within is_tens 60 (fl_allocation <$> fl_rows tens_frame) ∧
  within is_tens 60 (fl_demand <$> fl_rows tens_frame) ∧
  float_sum (fl_demand <$> fl_rows tens_frame) = 60%float ∧
  ∃ summary view,
    get_summary_stats_float tens_frame = inr summary ∧
    summary !! "week" = Some view ∧
    float_sum (fg_allocation <$> view)
      = float_sum (fl_allocation <$> fl_rows tens_frame) ∧
    float_sum (fg_demand <$> view)
      = float_sum (fl_demand <$> fl_rows tens_frame).
Proof.
  split_and!; [done | done | exact tens_add_exactly
              | apply tens_frame_within | apply tens_frame_within
              | reflexivity |].
  exact (week_view_totals is_tens 60 tens_frame eq_refl
           ltac:(discriminate) tens_add_exactly
           (proj1 tens_frame_within) (proj2 tens_frame_within)).
Defined.

(** C9 fails as stated.  On the table with demands of 0.1, 0.2 and 0.3
    units, each served in full, the by-week view holds 0.1 for the first
    week and 0.2 + 0.3 = 0.5 for the second: its column sums to 0.6, the
    binary64 number nearest to 6/10.  The column of the table sums to
    (0.1 + 0.2) + 0.3, which is the next binary64 number above, printed
    0.6000000000000001.  This holds of the demand column and of the
    allocation column. *)
Lemma regrouping_changes_the_rounded_total :
  fl_columns tenths_frame = result_columns ∧ fl_rows tenths_frame ≠ [] ∧
  ∃ summary view,
    get_summary_stats_float tenths_frame = inr summary ∧
    summary !! "week" = Some view ∧
    view =
      [ {| fg_key := ["Jan-Wk1"]; fg_demand := PrimFloat.div 1 10;
           fg_allocation := PrimFloat.div 1 10; fg_satisfaction := 1 |};
        {| fg_key := ["Jan-Wk2"]; fg_demand := 0.5;
           fg_allocation := 0.5; fg_satisfaction := 1 |} ] ∧
    float_sum (fg_demand <$> view) = PrimFloat.div 6 10 ∧
    float_sum (fl_demand <$> fl_rows tenths_frame)
      = PrimFloat.next_up (PrimFloat.div 6 10) ∧
    PrimFloat.eqb (float_sum (fg_demand <$> view))
      (float_sum (fl_demand <$> fl_rows tenths_frame)) = false ∧
    float_sum (fg_allocation <$> view) = PrimFloat.div 6 10 ∧
    float_sum (fl_allocation <$> fl_rows tenths_frame)
      = PrimFloat.next_up (PrimFloat.div 6 10) ∧
    PrimFloat.eqb (float_sum (fg_allocation <$> view))
      (float_sum (fl_allocation <$> fl_rows tenths_frame)) = false.
Proof.
  split; [done|]. split; [done|].
  eexists _, _. split; [reflexivity|]. split; [reflexivity|].
  split_and!; reflexivity.
Qed.

(** X8 on the view by product, channel and region of the table with
    demands of 10, 20 and 30 units. *)
Lemma tens_summary_returned :
  ∃ summary view,
    get_summary_stats_float tens_frame = inr summary ∧
    summary !! "channel_region" = Some view.
Proof. eexists _, _. split; reflexivity. Qed.

Lemma every_view_sums_to_the_table_witness :
  fl_columns tens_frame = result_columns ∧
  adds_exactly is_tens 60 ∧
  within is_tens 60 (fl_allocation <$> fl_rows tens_frame) ∧
  within is_tens 60 (fl_demand <$> fl_rows tens_frame) ∧
  ∃ summary view,
    get_summary_stats_float tens_frame = inr summary ∧
    summary !! "channel_region" = Some view ∧
    float_sum (fg_allocation <$> view)
      = float_sum (fl_allocation <$> fl_rows tens_frame) ∧
    float_sum (fg_demand <$> view)
      = float_sum (fl_demand <$> fl_rows tens_frame).
Proof.
  split_and!; [done | exact tens_add_exactly
              | apply tens_frame_within | apply tens_frame_within |].
  destruct tens_summary_returned as (summary & view & Hsum & Hview).
  exists summary, view. split; [done|]. split; [done|].
  exact (every_view_sums_to_the_table is_tens 60 tens_frame summary
           "channel_region" view eq_refl tens_add_exactly
           (proj1 tens_frame_within) (proj2 tens_frame_within) Hsum Hview).
Defined.
